(** * hospiref-bridge: the access-controlled referral store

    A shallow embedding of the SQL migrations under [supabase/migrations]:
    the relational schema, the row-level-security policies with the
    CREATE / DROP history that leaves the final policy set, the identifier
    generators with their BEFORE INSERT triggers, the [updated_at] trigger,
    the sign-up trigger and the public tracking function
    [get_referral_public]; and, of the pages, the handlers that read and
    write through them: the tracking search, the assignment dialog and
    the referral form.

    Conventions.
    - A table is the list of its rows, a row is a record whose fields are
      the columns; a nullable column has an [option] type, NULL is [None].
    - A condition is evaluated the way a WHERE clause or a policy uses it:
      it selects a row exactly when it is true, so a comparison with NULL
      (unknown in SQL) does not select.  No condition of the migrations
      negates a comparison, so nothing is lost by this.
    - [auth.uid()] is [Some u] for a signed-in caller and NULL otherwise. *)

From Stdlib Require Import ZArith NArith List String Ascii Bool Lia.
From Stdlib Require Import DecimalString DecimalN.
Import ListNotations.

Local Open Scope bool_scope.
Local Open Scope list_scope.

(** ** SQL values *)

Definition uuid := N.
Bind Scope N_scope with uuid.
Definition text := string.
Bind Scope string_scope with text.
(** A timestamp with time zone: microseconds since the epoch. *)
Definition timestamptz := Z.
(** A date: days since the epoch. *)
Definition date := Z.

(** CREATE TYPE public.user_role AS ENUM (...) *)
Inductive user_role := admin | doctor | specialist | patient.
(** CREATE TYPE public.referral_status AS ENUM (...) *)
Inductive referral_status := pending | in_progress | completed | cancelled.
(** CREATE TYPE public.gender AS ENUM (...) *)
Inductive gender := male | female | other.
(** CREATE TYPE public.urgency_level AS ENUM (...) *)
Inductive urgency_level := low | medium | high | critical.

(** The type [public.gender], for the places where a column named [gender]
    hides it. *)
Definition public_gender := gender.

Definition user_role_eqb (a b : user_role) : bool :=
  match a, b with
  | admin, admin | doctor, doctor | specialist, specialist
  | patient, patient => true
  | _, _ => false
  end.

(** [x IN (v1, ..., vn)] on the role enumeration. *)
Definition role_in (r : user_role) (l : list user_role) : bool :=
  existsb (user_role_eqb r) l.

(** [a = b] where either side may be NULL: true only for two equal
    non-null values. *)
Definition sql_eq {A : Type} (eqb : A -> A -> bool) (a b : option A) : bool :=
  match a, b with
  | Some x, Some y => eqb x y
  | _, _ => false
  end.

Definition uuid_eq : option uuid -> option uuid -> bool := sql_eq N.eqb.

(** An optional assignment of a SET clause (a key of the object passed to
    [.update(...)]): the assigned value when the column is named, the old
    value otherwise. *)
Definition assigned {A : Type} (named : option A) (old : A) : A :=
  match named with
  | Some v => v
  | None => old
  end.

(** ** Schema: one module per table, [Row] as in CREATE TABLE, [Update] as
    the all-optional column set of an UPDATE *)

Module profiles.
Record Row := {
  id : uuid;
  full_name : text;
  email : text;
  phone : option text;
  role : user_role;
  hospital_id : option uuid;
  department_id : option uuid;
  license_number : option text;
  specialization : option text;
  created_at : option timestamptz;
  updated_at : option timestamptz
}.
Record Update := {
  set_id : option uuid;
  set_full_name : option text;
  set_email : option text;
  set_phone : option (option text);
  set_role : option user_role;
  set_hospital_id : option (option uuid);
  set_department_id : option (option uuid);
  set_license_number : option (option text);
  set_specialization : option (option text);
  set_created_at : option (option timestamptz);
  set_updated_at : option (option timestamptz)
}.
Definition apply_set (u : Update) (old : Row) : Row := {|
  id := assigned (set_id u) (id old);
  full_name := assigned (set_full_name u) (full_name old);
  email := assigned (set_email u) (email old);
  phone := assigned (set_phone u) (phone old);
  role := assigned (set_role u) (role old);
  hospital_id := assigned (set_hospital_id u) (hospital_id old);
  department_id := assigned (set_department_id u) (department_id old);
  license_number := assigned (set_license_number u) (license_number old);
  specialization := assigned (set_specialization u) (specialization old);
  created_at := assigned (set_created_at u) (created_at old);
  updated_at := assigned (set_updated_at u) (updated_at old)
|}.
(** The assignment [NEW.updated_at = v] of a trigger function. *)
Definition with_updated_at (v : option timestamptz) (r : Row) : Row := {|
  id := id r; full_name := full_name r; email := email r;
  phone := phone r; role := role r; hospital_id := hospital_id r;
  department_id := department_id r; license_number := license_number r;
  specialization := specialization r; created_at := created_at r;
  updated_at := v
|}.
End profiles.

Module hospitals.
Record Row := {
  id : uuid;
  name : text;
  address : text;
  phone : text;
  email : option text;
  city : text;
  state : text;
  created_at : option timestamptz;
  updated_at : option timestamptz
}.
Record Update := {
  set_id : option uuid;
  set_name : option text;
  set_address : option text;
  set_phone : option text;
  set_email : option (option text);
  set_city : option text;
  set_state : option text;
  set_created_at : option (option timestamptz);
  set_updated_at : option (option timestamptz)
}.
Definition apply_set (u : Update) (old : Row) : Row := {|
  id := assigned (set_id u) (id old);
  name := assigned (set_name u) (name old);
  address := assigned (set_address u) (address old);
  phone := assigned (set_phone u) (phone old);
  email := assigned (set_email u) (email old);
  city := assigned (set_city u) (city old);
  state := assigned (set_state u) (state old);
  created_at := assigned (set_created_at u) (created_at old);
  updated_at := assigned (set_updated_at u) (updated_at old)
|}.
Definition with_updated_at (v : option timestamptz) (r : Row) : Row := {|
  id := id r; name := name r; address := address r; phone := phone r;
  email := email r; city := city r; state := state r;
  created_at := created_at r; updated_at := v
|}.
End hospitals.

Module departments.
Record Row := {
  id : uuid;
  name : text;
  description : option text;
  hospital_id : uuid;
  head_doctor_id : option uuid;
  created_at : option timestamptz;
  updated_at : option timestamptz
}.
Record Update := {
  set_id : option uuid;
  set_name : option text;
  set_description : option (option text);
  set_hospital_id : option uuid;
  set_head_doctor_id : option (option uuid);
  set_created_at : option (option timestamptz);
  set_updated_at : option (option timestamptz)
}.
Definition apply_set (u : Update) (old : Row) : Row := {|
  id := assigned (set_id u) (id old);
  name := assigned (set_name u) (name old);
  description := assigned (set_description u) (description old);
  hospital_id := assigned (set_hospital_id u) (hospital_id old);
  head_doctor_id := assigned (set_head_doctor_id u) (head_doctor_id old);
  created_at := assigned (set_created_at u) (created_at old);
  updated_at := assigned (set_updated_at u) (updated_at old)
|}.
Definition with_updated_at (v : option timestamptz) (r : Row) : Row := {|
  id := id r; name := name r; description := description r;
  hospital_id := hospital_id r; head_doctor_id := head_doctor_id r;
  created_at := created_at r; updated_at := v
|}.
End departments.

Module patients.
Record Row := {
  id : uuid;
  patient_id : text;
  full_name : text;
  date_of_birth : date;
  gender : gender;
  phone : option text;
  email : option text;
  address : option text;
  emergency_contact_name : option text;
  emergency_contact_phone : option text;
  medical_history : option text;
  current_hospital_id : option uuid;
  created_at : option timestamptz;
  updated_at : option timestamptz
}.
Record Update := {
  set_id : option uuid;
  set_patient_id : option text;
  set_full_name : option text;
  set_date_of_birth : option date;
  set_gender : option public_gender;
  set_phone : option (option text);
  set_email : option (option text);
  set_address : option (option text);
  set_emergency_contact_name : option (option text);
  set_emergency_contact_phone : option (option text);
  set_medical_history : option (option text);
  set_current_hospital_id : option (option uuid);
  set_created_at : option (option timestamptz);
  set_updated_at : option (option timestamptz)
}.
Definition apply_set (u : Update) (old : Row) : Row := {|
  id := assigned (set_id u) (id old);
  patient_id := assigned (set_patient_id u) (patient_id old);
  full_name := assigned (set_full_name u) (full_name old);
  date_of_birth := assigned (set_date_of_birth u) (date_of_birth old);
  gender := assigned (set_gender u) (gender old);
  phone := assigned (set_phone u) (phone old);
  email := assigned (set_email u) (email old);
  address := assigned (set_address u) (address old);
  emergency_contact_name :=
    assigned (set_emergency_contact_name u) (emergency_contact_name old);
  emergency_contact_phone :=
    assigned (set_emergency_contact_phone u) (emergency_contact_phone old);
  medical_history := assigned (set_medical_history u) (medical_history old);
  current_hospital_id :=
    assigned (set_current_hospital_id u) (current_hospital_id old);
  created_at := assigned (set_created_at u) (created_at old);
  updated_at := assigned (set_updated_at u) (updated_at old)
|}.
Definition with_updated_at (v : option timestamptz) (r : Row) : Row := {|
  id := id r; patient_id := patient_id r; full_name := full_name r;
  date_of_birth := date_of_birth r; gender := gender r; phone := phone r;
  email := email r; address := address r;
  emergency_contact_name := emergency_contact_name r;
  emergency_contact_phone := emergency_contact_phone r;
  medical_history := medical_history r;
  current_hospital_id := current_hospital_id r;
  created_at := created_at r; updated_at := v
|}.
(** The tuple NEW of an INSERT before the BEFORE INSERT trigger ran: the
    business identifier may still be NULL, a column with a DEFAULT may be
    left out. *)
Record Insert := {
  new_id : option uuid;
  new_patient_id : option text;
  new_full_name : text;
  new_date_of_birth : date;
  new_gender : public_gender;
  new_phone : option text;
  new_email : option text;
  new_address : option text;
  new_emergency_contact_name : option text;
  new_emergency_contact_phone : option text;
  new_medical_history : option text;
  new_current_hospital_id : option uuid;
  new_created_at : option (option timestamptz);
  new_updated_at : option (option timestamptz)
}.
(** The assignment [NEW.patient_id := v] of a trigger function. *)
Definition with_patient_id (v : option text) (n : Insert) : Insert := {|
  new_id := new_id n; new_patient_id := v;
  new_full_name := new_full_name n;
  new_date_of_birth := new_date_of_birth n; new_gender := new_gender n;
  new_phone := new_phone n; new_email := new_email n;
  new_address := new_address n;
  new_emergency_contact_name := new_emergency_contact_name n;
  new_emergency_contact_phone := new_emergency_contact_phone n;
  new_medical_history := new_medical_history n;
  new_current_hospital_id := new_current_hospital_id n;
  new_created_at := new_created_at n; new_updated_at := new_updated_at n
|}.
End patients.

Module referrals.
Record Row := {
  id : uuid;
  referral_id : text;
  patient_id : uuid;
  referring_doctor_id : uuid;
  target_specialist_id : option uuid;
  origin_hospital_id : uuid;
  target_hospital_id : uuid;
  target_department_id : uuid;
  reason : text;
  urgency : urgency_level;
  status : referral_status;
  notes : option text;
  specialist_notes : option text;
  appointment_date : option timestamptz;
  created_at : option timestamptz;
  updated_at : option timestamptz
}.
Record Update := {
  set_id : option uuid;
  set_referral_id : option text;
  set_patient_id : option uuid;
  set_referring_doctor_id : option uuid;
  set_target_specialist_id : option (option uuid);
  set_origin_hospital_id : option uuid;
  set_target_hospital_id : option uuid;
  set_target_department_id : option uuid;
  set_reason : option text;
  set_urgency : option urgency_level;
  set_status : option referral_status;
  set_notes : option (option text);
  set_specialist_notes : option (option text);
  set_appointment_date : option (option timestamptz);
  set_created_at : option (option timestamptz);
  set_updated_at : option (option timestamptz)
}.
Definition apply_set (u : Update) (old : Row) : Row := {|
  id := assigned (set_id u) (id old);
  referral_id := assigned (set_referral_id u) (referral_id old);
  patient_id := assigned (set_patient_id u) (patient_id old);
  referring_doctor_id :=
    assigned (set_referring_doctor_id u) (referring_doctor_id old);
  target_specialist_id :=
    assigned (set_target_specialist_id u) (target_specialist_id old);
  origin_hospital_id :=
    assigned (set_origin_hospital_id u) (origin_hospital_id old);
  target_hospital_id :=
    assigned (set_target_hospital_id u) (target_hospital_id old);
  target_department_id :=
    assigned (set_target_department_id u) (target_department_id old);
  reason := assigned (set_reason u) (reason old);
  urgency := assigned (set_urgency u) (urgency old);
  status := assigned (set_status u) (status old);
  notes := assigned (set_notes u) (notes old);
  specialist_notes :=
    assigned (set_specialist_notes u) (specialist_notes old);
  appointment_date :=
    assigned (set_appointment_date u) (appointment_date old);
  created_at := assigned (set_created_at u) (created_at old);
  updated_at := assigned (set_updated_at u) (updated_at old)
|}.
Definition with_updated_at (v : option timestamptz) (r : Row) : Row := {|
  id := id r; referral_id := referral_id r; patient_id := patient_id r;
  referring_doctor_id := referring_doctor_id r;
  target_specialist_id := target_specialist_id r;
  origin_hospital_id := origin_hospital_id r;
  target_hospital_id := target_hospital_id r;
  target_department_id := target_department_id r;
  reason := reason r; urgency := urgency r; status := status r;
  notes := notes r; specialist_notes := specialist_notes r;
  appointment_date := appointment_date r;
  created_at := created_at r; updated_at := v
|}.
(** The assignment of the column [specialist_notes] alone. *)
Definition with_specialist_notes (v : option text) (r : Row) : Row := {|
  id := id r; referral_id := referral_id r; patient_id := patient_id r;
  referring_doctor_id := referring_doctor_id r;
  target_specialist_id := target_specialist_id r;
  origin_hospital_id := origin_hospital_id r;
  target_hospital_id := target_hospital_id r;
  target_department_id := target_department_id r;
  reason := reason r; urgency := urgency r; status := status r;
  notes := notes r; specialist_notes := v;
  appointment_date := appointment_date r;
  created_at := created_at r; updated_at := updated_at r
|}.
(** The tuple NEW of an INSERT before the BEFORE INSERT trigger ran. *)
Record Insert := {
  new_id : option uuid;
  new_referral_id : option text;
  new_patient_id : uuid;
  new_referring_doctor_id : uuid;
  new_target_specialist_id : option uuid;
  new_origin_hospital_id : uuid;
  new_target_hospital_id : uuid;
  new_target_department_id : uuid;
  new_reason : text;
  new_urgency : option urgency_level;
  new_status : option referral_status;
  new_notes : option text;
  new_specialist_notes : option text;
  new_appointment_date : option timestamptz;
  new_created_at : option (option timestamptz);
  new_updated_at : option (option timestamptz)
}.
(** The assignment [NEW.referral_id := v] of a trigger function. *)
Definition with_referral_id (v : option text) (n : Insert) : Insert := {|
  new_id := new_id n; new_referral_id := v;
  new_patient_id := new_patient_id n;
  new_referring_doctor_id := new_referring_doctor_id n;
  new_target_specialist_id := new_target_specialist_id n;
  new_origin_hospital_id := new_origin_hospital_id n;
  new_target_hospital_id := new_target_hospital_id n;
  new_target_department_id := new_target_department_id n;
  new_reason := new_reason n; new_urgency := new_urgency n;
  new_status := new_status n; new_notes := new_notes n;
  new_specialist_notes := new_specialist_notes n;
  new_appointment_date := new_appointment_date n;
  new_created_at := new_created_at n; new_updated_at := new_updated_at n
|}.
End referrals.

(** The five tables of schema [public] the claims are about. *)
Record database := {
  public_profiles : list profiles.Row;
  public_hospitals : list hospitals.Row;
  public_departments : list departments.Row;
  public_patients : list patients.Row;
  public_referrals : list referrals.Row
}.

(** ** Row-level security

    ALTER TABLE ... ENABLE ROW LEVEL SECURITY is set on every table, so a
    statement reaches a row only through a policy.  All policies of the
    migrations are permissive: the policies that apply to a command are
    OR-ed, and with no applicable policy the command is denied. *)

Inductive command := SELECT | INSERT | UPDATE | DELETE.

(** The FOR clause of CREATE POLICY. *)
Inductive policy_cmd := FOR_ALL | FOR (c : command).

Definition command_eqb (a b : command) : bool :=
  match a, b with
  | SELECT, SELECT | INSERT, INSERT | UPDATE, UPDATE | DELETE, DELETE => true
  | _, _ => false
  end.

Definition applies (pc : policy_cmd) (c : command) : bool :=
  match pc with
  | FOR_ALL => true
  | FOR c' => command_eqb c' c
  end.

(** A policy expression reads the database, [auth.uid()] and the row. *)
Definition expr (Row : Type) : Type := database -> option uuid -> Row -> bool.

Record policy (Row : Type) := {
  polname : string;
  polcmd : policy_cmd;
  polqual : option (expr Row);
  polwithcheck : option (expr Row)
}.
Arguments polname {Row} _.
Arguments polcmd {Row} _.
Arguments polqual {Row} _.
Arguments polwithcheck {Row} _.

Definition holds {Row : Type} (e : option (expr Row))
    (db : database) (uid : option uuid) (row : Row) : bool :=
  match e with
  | Some q => q db uid row
  | None => false
  end.

(** The expression checked on a new row: WITH CHECK, or USING when the
    policy has no WITH CHECK. *)
Definition QUAL_FOR_WCO {Row : Type} (p : policy Row) : option (expr Row) :=
  match polwithcheck p with
  | Some c => Some c
  | None => polqual p
  end.

Definition using_ok {Row : Type} (pols : list (policy Row)) (c : command)
    (db : database) (uid : option uuid) (row : Row) : bool :=
  existsb (fun p => applies (polcmd p) c && holds (polqual p) db uid row) pols.

Definition check_ok {Row : Type} (pols : list (policy Row)) (c : command)
    (db : database) (uid : option uuid) (row : Row) : bool :=
  existsb (fun p => applies (polcmd p) c && holds (QUAL_FOR_WCO p) db uid row)
    pols.

(** SELECT sees a row through the USING of a SELECT or ALL policy. *)
Definition can_select {Row : Type} (pols : list (policy Row))
    (db : database) (uid : option uuid) (row : Row) : bool :=
  using_ok pols SELECT db uid row.

(** INSERT (without RETURNING) admits a new row through a WITH CHECK. *)
Definition can_insert {Row : Type} (pols : list (policy Row))
    (db : database) (uid : option uuid) (new : Row) : bool :=
  check_ok pols INSERT db uid new.

(** UPDATE ... WHERE reads the table, so it reaches an existing row only if
    SELECT sees it and a USING for UPDATE holds; a row it does not reach is
    skipped silently. *)
Definition update_reaches {Row : Type} (pols : list (policy Row))
    (db : database) (uid : option uuid) (old : Row) : bool :=
  can_select pols db uid old && using_ok pols UPDATE db uid old.

(** The new version of the row must pass a check for UPDATE and stay
    visible to SELECT, else the statement fails. *)
Definition update_accepts {Row : Type} (pols : list (policy Row))
    (db : database) (uid : option uuid) (new : Row) : bool :=
  check_ok pols UPDATE db uid new && can_select pols db uid new.

Definition can_update {Row : Type} (pols : list (policy Row))
    (db : database) (uid : option uuid) (old new : Row) : bool :=
  update_reaches pols db uid old && update_accepts pols db uid new.

(** DELETE ... WHERE reaches a row SELECT sees and a USING for DELETE
    admits. *)
Definition can_delete {Row : Type} (pols : list (policy Row))
    (db : database) (uid : option uuid) (old : Row) : bool :=
  can_select pols db uid old && using_ok pols DELETE db uid old.

(** *** Policy expressions *)

(** public.has_profile_role(_user_id, _role): SECURITY DEFINER, so it reads
    [public.profiles] itself, not the caller's view of it. *)
Definition has_profile_role (db : database) (_user_id : option uuid)
    (_role : user_role) : bool :=
  existsb (fun p => uuid_eq (Some (profiles.id p)) _user_id
                    && user_role_eqb (profiles.role p) _role)
    (public_profiles db).

(** "Users can view their own profile", "Users can update their own
    profile": USING (auth.uid() = id) *)
Definition own_profile : expr profiles.Row :=
  fun _ uid row => uuid_eq uid (Some (profiles.id row)).

(** "Admins can view all profiles", "Admins can insert profiles" as first
    created: EXISTS (SELECT 1 FROM public.profiles WHERE id = auth.uid()
    AND role = 'admin').  On [profiles] itself this subquery re-enters the
    policy; the third migration replaces it before any use. *)
Definition admin_subquery_on_profiles : expr profiles.Row :=
  fun db uid _ =>
    existsb (fun p => uuid_eq (Some (profiles.id p)) uid
                      && user_role_eqb (profiles.role p) admin)
      (public_profiles db).

(** The replacement: public.has_profile_role(auth.uid(), 'admin') *)
Definition admin_by_function : expr profiles.Row :=
  fun db uid _ => has_profile_role db uid admin.

(** FROM public.profiles inside a policy of another table: the subquery
    runs as the caller, who sees the profile rows the two SELECT policies
    of [profiles] show. *)
Definition from_profiles (db : database) (uid : option uuid)
    : list profiles.Row :=
  filter (fun p => own_profile db uid p || admin_by_function db uid p)
    (public_profiles db).

(** "Doctors can view patients at their hospital" *)
Definition patients_at_their_hospital : expr patients.Row :=
  fun db uid row =>
    existsb (fun p =>
      uuid_eq (Some (profiles.id p)) uid
      && role_in (profiles.role p) [doctor; specialist; admin]
      && (uuid_eq (profiles.hospital_id p) (patients.current_hospital_id row)
          || user_role_eqb (profiles.role p) admin))
      (from_profiles db uid).

(** "Doctors can manage patients" *)
Definition patients_manage : expr patients.Row :=
  fun db uid _ =>
    existsb (fun p =>
      uuid_eq (Some (profiles.id p)) uid
      && role_in (profiles.role p) [doctor; admin])
      (from_profiles db uid).

(** "Doctors can view referrals they created" *)
Definition referrals_created : expr referrals.Row :=
  fun _ uid row => uuid_eq (Some (referrals.referring_doctor_id row)) uid.

(** "Specialists can view referrals assigned to them" *)
Definition referrals_assigned : expr referrals.Row :=
  fun _ uid row => uuid_eq (referrals.target_specialist_id row) uid.

(** The subquery shared by "Specialists at target hospital can view
    referrals" and "Specialists can update assigned referrals". *)
Definition specialist_at_target_hospital : expr referrals.Row :=
  fun db uid row =>
    existsb (fun p =>
      uuid_eq (Some (profiles.id p)) uid
      && user_role_eqb (profiles.role p) specialist
      && uuid_eq (profiles.hospital_id p)
           (Some (referrals.target_hospital_id row)))
      (from_profiles db uid).

(** "Admins can view all referrals" *)
Definition referrals_admin : expr referrals.Row :=
  fun db uid _ =>
    existsb (fun p =>
      uuid_eq (Some (profiles.id p)) uid
      && user_role_eqb (profiles.role p) admin)
      (from_profiles db uid).

(** "Doctors can create referrals" (first migration) and "Medical staff can
    create referrals" (its replacement) differ in the role list only. *)
Definition referrals_create (roles : list user_role) : expr referrals.Row :=
  fun db uid row =>
    uuid_eq (Some (referrals.referring_doctor_id row)) uid
    && existsb (fun p =>
         uuid_eq (Some (profiles.id p)) uid
         && role_in (profiles.role p) roles)
         (from_profiles db uid).

(** "Specialists can update assigned referrals" *)
Definition referrals_update : expr referrals.Row :=
  fun db uid row =>
    referrals_assigned db uid row || specialist_at_target_hospital db uid row.

(** *** The policy catalogue and the migrations that fill it *)

Record catalog := {
  on_profiles : list (policy profiles.Row);
  on_patients : list (policy patients.Row);
  on_referrals : list (policy referrals.Row)
}.

Definition no_policies : catalog :=
  {| on_profiles := []; on_patients := []; on_referrals := [] |}.

Definition USING {Row : Type} (name : string) (c : policy_cmd)
    (q : expr Row) : policy Row :=
  {| polname := name; polcmd := c; polqual := Some q; polwithcheck := None |}.

Definition WITH_CHECK {Row : Type} (name : string) (c : policy_cmd)
    (q : expr Row) : policy Row :=
  {| polname := name; polcmd := c; polqual := None; polwithcheck := Some q |}.

(** DROP POLICY IF EXISTS name ON table *)
Definition drop_policy {Row : Type} (name : string)
    (pols : list (policy Row)) : list (policy Row) :=
  filter (fun p => negb (String.eqb (polname p) name)) pols.

Definition create_on_profiles (p : policy profiles.Row) (c : catalog) :=
  {| on_profiles := on_profiles c ++ [p];
     on_patients := on_patients c; on_referrals := on_referrals c |}.
Definition create_on_patients (p : policy patients.Row) (c : catalog) :=
  {| on_profiles := on_profiles c;
     on_patients := on_patients c ++ [p]; on_referrals := on_referrals c |}.
Definition create_on_referrals (p : policy referrals.Row) (c : catalog) :=
  {| on_profiles := on_profiles c; on_patients := on_patients c;
     on_referrals := on_referrals c ++ [p] |}.
Definition drop_on_profiles (name : string) (c : catalog) :=
  {| on_profiles := drop_policy name (on_profiles c);
     on_patients := on_patients c; on_referrals := on_referrals c |}.
Definition drop_on_referrals (name : string) (c : catalog) :=
  {| on_profiles := on_profiles c; on_patients := on_patients c;
     on_referrals := drop_policy name (on_referrals c) |}.

(** Statements of a migration run top to bottom. *)
Definition run (stmts : list (catalog -> catalog)) (c : catalog) : catalog :=
  fold_left (fun acc stmt => stmt acc) stmts c.

(** The first migration (tables, policies, generators, triggers). *)
Definition migration_initial : list (catalog -> catalog) := [
  create_on_profiles
    (USING "Users can view their own profile" (FOR SELECT) own_profile);
  create_on_profiles
    (USING "Users can update their own profile" (FOR UPDATE) own_profile);
  create_on_profiles
    (USING "Admins can view all profiles" (FOR SELECT)
       admin_subquery_on_profiles);
  create_on_profiles
    (WITH_CHECK "Admins can insert profiles" (FOR INSERT)
       admin_subquery_on_profiles);
  create_on_patients
    (USING "Doctors can view patients at their hospital" (FOR SELECT)
       patients_at_their_hospital);
  create_on_patients
    (USING "Doctors can manage patients" FOR_ALL patients_manage);
  create_on_referrals
    (USING "Doctors can view referrals they created" (FOR SELECT)
       referrals_created);
  create_on_referrals
    (USING "Specialists can view referrals assigned to them" (FOR SELECT)
       referrals_assigned);
  create_on_referrals
    (USING "Specialists at target hospital can view referrals" (FOR SELECT)
       specialist_at_target_hospital);
  create_on_referrals
    (USING "Admins can view all referrals" (FOR SELECT) referrals_admin);
  create_on_referrals
    (WITH_CHECK "Doctors can create referrals" (FOR INSERT)
       (referrals_create [doctor; admin]));
  create_on_referrals
    (USING "Specialists can update assigned referrals" (FOR UPDATE)
       referrals_update)
]%string.

(** 20250927105316: the recursive policies of [profiles] are replaced. *)
Definition migration_20250927105316 : list (catalog -> catalog) := [
  drop_on_profiles "Admins can view all profiles";
  create_on_profiles
    (USING "Admins can view all profiles" (FOR SELECT) admin_by_function);
  drop_on_profiles "Admins can insert profiles";
  create_on_profiles
    (WITH_CHECK "Admins can insert profiles" (FOR INSERT) admin_by_function)
]%string.

(** 20250928152621: referral creation is widened to specialists. *)
Definition migration_20250928152621 : list (catalog -> catalog) := [
  drop_on_referrals "Doctors can create referrals";
  create_on_referrals
    (WITH_CHECK "Medical staff can create referrals" (FOR INSERT)
       (referrals_create [doctor; specialist; admin]))
]%string.

(** The policies in force once every migration has run.  The migrations
    left out create no policy on these three tables. *)
Definition policies : catalog :=
  run migration_20250928152621
    (run migration_20250927105316
       (run migration_initial no_policies)).

(** ** Integrity constraints of the schema *)

(** PRIMARY KEY: no two rows share the key. *)
Definition primary_key {Row : Type} (pk : Row -> uuid) (tbl : list Row)
    : Prop :=
  NoDup (map pk tbl).

(** UNIQUE on a NOT NULL text column. *)
Definition unique {Row : Type} (col : Row -> text) (tbl : list Row) : Prop :=
  NoDup (map col tbl).

(** REFERENCES: the key is the id of some row of the referenced table. *)
Definition references {Row : Type} (pk : Row -> uuid) (tbl : list Row)
    (key : uuid) : Prop :=
  In key (map pk tbl).

(** The profile of an identity: the row of [profiles] with that id. *)
Definition profile_of (db : database) (c : uuid) : option profiles.Row :=
  find (fun p => N.eqb (profiles.id p) c) (public_profiles db).

(** ** Identifier generators

    new_id := 'REF-' || TO_CHAR(NOW(), 'YYYY') || '-' ||
              LPAD(FLOOR(RANDOM() * 999999)::TEXT, 6, '0') *)

(** RANDOM() returns a double precision value in [0, 1).  A draw [k] stands
    for the double [(k mod 2^53) / 2^53]: the generator scales an integer of
    at most 53 bits into the unit interval. *)
Definition RANDOM (k : Z) : Z := (k mod 2 ^ 53)%Z.

(** Rounding of a positive real [m * 2^e] to double precision, on the
    integer [m]: 53 significant bits are kept, to nearest, ties to even. *)
Definition float8_round (m : Z) : Z :=
  let len := (Z.log2 m + 1)%Z in
  if (len <=? 53)%Z then m
  else
    let s := (len - 53)%Z in
    let q := Z.shiftr m s in
    let rest := (m - Z.shiftl q s)%Z in
    let half := Z.shiftl 1 (s - 1) in
    let q' := if (half <? rest)%Z || ((rest =? half)%Z && Z.odd q)
              then (q + 1)%Z else q in
    Z.shiftl q' s.

(** FLOOR(RANDOM() * 999999): the double product, rounded, then floored.
    Numerators count units of 2^-53. *)
Definition random_suffix (k : Z) : Z :=
  Z.shiftr (float8_round (RANDOM k * 999999)%Z) 53.

(** n::TEXT for a whole, non-negative double below 10^15: its decimal
    digits, without sign, point or exponent. *)
Definition float8_to_text (n : Z) : text :=
  NilEmpty.string_of_uint (N.to_uint (Z.to_N n)).

Definition zeros (n : nat) : text := string_of_list_ascii (repeat "0"%char n).

(** LPAD(s, len, '0'): filled on the left up to [len] characters, cut on
    the right when longer. *)
Definition LPAD (s : text) (len : nat) : text :=
  if Nat.leb (String.length s) len
  then (zeros (len - String.length s) ++ s)%string
  else substring 0 len s.

(** TO_CHAR(NOW(), 'YYYY') for a year of our era: the year in decimal,
    filled with zeros to four digits, longer when the year needs more. *)
Definition TO_CHAR_YYYY (year : N) : text :=
  let s := NilEmpty.string_of_uint (N.to_uint year) in
  (zeros (4 - String.length s) ++ s)%string.

Definition candidate (prefix : text) (year : N) (k : Z) : text :=
  (prefix ++ TO_CHAR_YYYY year ++ "-"
     ++ LPAD (float8_to_text (random_suffix k)) 6)%string.

(** WHILE NOT done LOOP ... END LOOP: one draw per turn, out on the first
    candidate the table does not hold.  [None]: the draws supplied ran out
    with the loop still turning. *)
Fixpoint generate_loop (mk : Z -> text) (taken : text -> bool)
    (draws : list Z) : option text :=
  match draws with
  | [] => None
  | k :: later =>
      let new_id := mk k in
      if negb (taken new_id) then Some new_id
      else generate_loop mk taken later
  end.

Definition generate_referral_id (year : N) (tbl : list referrals.Row)
    (draws : list Z) : option text :=
  generate_loop (candidate "REF-"%string year)
    (fun new_id =>
       existsb (fun r => String.eqb (referrals.referral_id r) new_id) tbl)
    draws.

Definition generate_patient_id (year : N) (tbl : list patients.Row)
    (draws : list Z) : option text :=
  generate_loop (candidate "PAT-"%string year)
    (fun new_id =>
       existsb (fun r => String.eqb (patients.patient_id r) new_id) tbl)
    draws.

(** The format ^(PAT|REF)-\d{4}-\d{6}$, as a recogniser. *)
Definition is_digit (c : ascii) : bool :=
  let n := nat_of_ascii c in Nat.leb 48 n && Nat.leb n 57.

Fixpoint all_digits (s : string) : bool :=
  match s with
  | EmptyString => true
  | String c s' => is_digit c && all_digits s'
  end.

Definition matches_id_format (s : text) : bool :=
  (String.eqb (substring 0 4 s) "PAT-"%string
   || String.eqb (substring 0 4 s) "REF-"%string)
  && all_digits (substring 4 4 s)
  && Nat.eqb (String.length (substring 4 4 s)) 4
  && String.eqb (substring 8 1 s) "-"%string
  && all_digits (substring 9 6 s)
  && Nat.eqb (String.length (substring 9 6 s)) 6
  && Nat.eqb (String.length s) 15.

(** ** Triggers *)

(** set_referral_id(): NEW.referral_id := generate_referral_id(); *)
Definition set_referral_id (year : N) (tbl : list referrals.Row)
    (draws : list Z) (NEW : referrals.Insert) : option referrals.Insert :=
  match generate_referral_id year tbl draws with
  | Some new_id => Some (referrals.with_referral_id (Some new_id) NEW)
  | None => None
  end.

(** set_patient_id(): NEW.patient_id := generate_patient_id(); *)
Definition set_patient_id (year : N) (tbl : list patients.Row)
    (draws : list Z) (NEW : patients.Insert) : option patients.Insert :=
  match generate_patient_id year tbl draws with
  | Some new_id => Some (patients.with_patient_id (Some new_id) NEW)
  | None => None
  end.

(** set_referral_id_trigger: BEFORE INSERT ... FOR EACH ROW
    WHEN (NEW.referral_id IS NULL) *)
Definition set_referral_id_trigger (year : N) (tbl : list referrals.Row)
    (draws : list Z) (NEW : referrals.Insert) : option referrals.Insert :=
  match referrals.new_referral_id NEW with
  | None => set_referral_id year tbl draws NEW
  | Some _ => Some NEW
  end.

(** set_patient_id_trigger: BEFORE INSERT ... FOR EACH ROW
    WHEN (NEW.patient_id IS NULL) *)
Definition set_patient_id_trigger (year : N) (tbl : list patients.Row)
    (draws : list Z) (NEW : patients.Insert) : option patients.Insert :=
  match patients.new_patient_id NEW with
  | None => set_patient_id year tbl draws NEW
  | Some _ => Some NEW
  end.

(** A table that carries the BEFORE UPDATE trigger
    [update_<table>_updated_at]. *)
Class UpdatedAt (Row : Type) :=
  with_updated_at : option timestamptz -> Row -> Row.

#[export] Instance update_profiles_updated_at : UpdatedAt profiles.Row :=
  profiles.with_updated_at.
#[export] Instance update_hospitals_updated_at : UpdatedAt hospitals.Row :=
  hospitals.with_updated_at.
#[export] Instance update_departments_updated_at
  : UpdatedAt departments.Row := departments.with_updated_at.
#[export] Instance update_patients_updated_at : UpdatedAt patients.Row :=
  patients.with_updated_at.
#[export] Instance update_referrals_updated_at : UpdatedAt referrals.Row :=
  referrals.with_updated_at.

(** public.update_updated_at_column(): NEW.updated_at = NOW(); RETURN NEW; *)
Definition update_updated_at_column {Row : Type} `{UpdatedAt Row}
    (now : timestamptz) (NEW : Row) : Row :=
  with_updated_at (Some now) NEW.

(** The SET clause of an UPDATE on a table. *)
Class SetClause (Update Row : Type) := apply_set : Update -> Row -> Row.

#[export] Instance set_profiles : SetClause profiles.Update profiles.Row :=
  profiles.apply_set.
#[export] Instance set_hospitals : SetClause hospitals.Update hospitals.Row :=
  hospitals.apply_set.
#[export] Instance set_departments
  : SetClause departments.Update departments.Row := departments.apply_set.
#[export] Instance set_patients : SetClause patients.Update patients.Row :=
  patients.apply_set.
#[export] Instance set_referrals : SetClause referrals.Update referrals.Row :=
  referrals.apply_set.

(** The row an UPDATE stores: the SET clause applied to the old row, then
    the BEFORE UPDATE trigger. *)
Definition updated_row {Update Row : Type} `{SetClause Update Row}
    `{UpdatedAt Row} (now : timestamptz) (u : Update) (old : Row) : Row :=
  update_updated_at_column now (apply_set u old).

(** ** Statements

    What INSERT, UPDATE ... WHERE id = target and DELETE ... WHERE id =
    target do to a table for a caller: policies first, then the key and
    foreign-key constraints of the schema. *)

Inductive sql_error :=
  | row_security_violation
  | unique_violation
  | not_null_violation
  | foreign_key_violation.

Inductive outcome (A : Type) :=
  | Done (a : A)
  | Raise (e : sql_error).
Arguments Done {A} _.
Arguments Raise {A} _.

Section Statements.

Context {Update Row : Type} `{SetClause Update Row} `{UpdatedAt Row}.

(** The table's primary key and policies. *)
Variable pk : Row -> uuid.
Variable pols : list (policy Row).
(** PRIMARY KEY and UNIQUE: the new row collides with another row. *)
Variable conflict : list Row -> Row -> bool.
(** REFERENCES: the new row names a row that does not exist. *)
Variable fk_missing : Row -> bool.
(** ON UPDATE NO ACTION: the old key is still referenced and changes. *)
Variable pinned : Row -> Row -> bool.

(** The database as the statement began, and the caller. *)
Variable db : database.
Variable uid : option uuid.

Definition insert_row (NEW : Row) (tbl : list Row) : outcome (list Row) :=
  if negb (can_insert pols db uid NEW) then Raise row_security_violation
  else if conflict tbl NEW then Raise unique_violation
  else if fk_missing NEW then Raise foreign_key_violation
  else Done (tbl ++ [NEW]).

(** The scan of UPDATE: [before] holds the rows already passed. *)
Fixpoint update_rows (now : timestamptz) (target : uuid) (u : Update)
    (before after : list Row) : outcome (list Row) :=
  match after with
  | [] => Done before
  | old :: later =>
      if N.eqb (pk old) target && update_reaches pols db uid old then
        let NEW := updated_row now u old in
        if negb (update_accepts pols db uid NEW)
        then Raise row_security_violation
        else if conflict (before ++ later) NEW then Raise unique_violation
        else if fk_missing NEW || pinned old NEW
        then Raise foreign_key_violation
        else update_rows now target u (before ++ [NEW]) later
      else update_rows now target u (before ++ [old]) later
  end.

Definition update_where_id (now : timestamptz) (target : uuid) (u : Update)
    (tbl : list Row) : outcome (list Row) :=
  update_rows now target u [] tbl.

(** DELETE removes the rows it reaches and leaves the others. *)
Definition delete_where_id (target : uuid) (tbl : list Row) : list Row :=
  filter (fun r => negb (N.eqb (pk r) target && can_delete pols db uid r))
    tbl.

End Statements.

Definition has_id {Row : Type} (pk : Row -> uuid) (tbl : list Row)
    (key : uuid) : bool :=
  existsb (fun r => N.eqb (pk r) key) tbl.

Definition has_id_or_null {Row : Type} (pk : Row -> uuid) (tbl : list Row)
    (key : option uuid) : bool :=
  match key with
  | Some k => has_id pk tbl k
  | None => true
  end.

(** *** patients *)

Definition patients_conflict (others : list patients.Row)
    (NEW : patients.Row) : bool :=
  existsb (fun r =>
    N.eqb (patients.id r) (patients.id NEW)
    || String.eqb (patients.patient_id r) (patients.patient_id NEW)) others.

Definition patients_fk_missing (db : database) (NEW : patients.Row) : bool :=
  negb (has_id_or_null hospitals.id (public_hospitals db)
          (patients.current_hospital_id NEW)).

Definition patients_pinned (db : database) (old NEW : patients.Row) : bool :=
  negb (N.eqb (patients.id old) (patients.id NEW))
  && existsb (fun r => N.eqb (referrals.patient_id r) (patients.id old))
       (public_referrals db).

Definition set_public_patients (db : database) (tbl : list patients.Row) :=
  {| public_profiles := public_profiles db;
     public_hospitals := public_hospitals db;
     public_departments := public_departments db;
     public_patients := tbl;
     public_referrals := public_referrals db |}.

(** The row stored for NEW: DEFAULT gen_random_uuid() and DEFAULT NOW()
    fill the columns the statement left out. *)
Definition patients_new_row (fresh : uuid) (now : timestamptz)
    (NEW : patients.Insert) (pid : text) : patients.Row := {|
  patients.id := assigned (patients.new_id NEW) fresh;
  patients.patient_id := pid;
  patients.full_name := patients.new_full_name NEW;
  patients.date_of_birth := patients.new_date_of_birth NEW;
  patients.gender := patients.new_gender NEW;
  patients.phone := patients.new_phone NEW;
  patients.email := patients.new_email NEW;
  patients.address := patients.new_address NEW;
  patients.emergency_contact_name := patients.new_emergency_contact_name NEW;
  patients.emergency_contact_phone :=
    patients.new_emergency_contact_phone NEW;
  patients.medical_history := patients.new_medical_history NEW;
  patients.current_hospital_id := patients.new_current_hospital_id NEW;
  patients.created_at := assigned (patients.new_created_at NEW) (Some now);
  patients.updated_at := assigned (patients.new_updated_at NEW) (Some now)
|}.

(** INSERT INTO patients: the BEFORE INSERT trigger, NOT NULL on
    [patient_id], then policy and constraints.  [None]: the generator
    loop outlasted the draws. *)
Definition insert_patient (db : database) (uid : option uuid)
    (now : timestamptz) (year : N) (draws : list Z) (fresh : uuid)
    (NEW : patients.Insert) : option (outcome database) :=
  match set_patient_id_trigger year (public_patients db) draws NEW with
  | None => None
  | Some NEW' =>
      Some
        match patients.new_patient_id NEW' with
        | None => Raise not_null_violation
        | Some pid =>
            match insert_row (on_patients policies) patients_conflict
                    (patients_fk_missing db) db uid
                    (patients_new_row fresh now NEW' pid)
                    (public_patients db) with
            | Done tbl => Done (set_public_patients db tbl)
            | Raise e => Raise e
            end
        end
  end.

Definition update_patient (db : database) (uid : option uuid)
    (now : timestamptz) (target : uuid) (u : patients.Update)
    : outcome database :=
  match update_where_id patients.id (on_patients policies) patients_conflict
          (patients_fk_missing db) (patients_pinned db) db uid now target u
          (public_patients db) with
  | Done tbl => Done (set_public_patients db tbl)
  | Raise e => Raise e
  end.

(** DELETE FROM patients WHERE id = target.  The referrals of a deleted
    patient go with it: referrals.patient_id ... REFERENCES
    public.patients(id) ON DELETE CASCADE; the cascade is the schema's own
    action and asks no policy of [referrals]. *)
Definition delete_patient (db : database) (uid : option uuid)
    (target : uuid) : database :=
  let kept :=
    delete_where_id patients.id (on_patients policies) db uid target
      (public_patients db) in
  {| public_profiles := public_profiles db;
     public_hospitals := public_hospitals db;
     public_departments := public_departments db;
     public_patients := kept;
     public_referrals :=
       filter (fun r =>
                 negb (has_id patients.id (public_patients db)
                         (referrals.patient_id r))
                 || has_id patients.id kept (referrals.patient_id r))
         (public_referrals db) |}.

(** *** referrals *)

Definition referrals_conflict (others : list referrals.Row)
    (NEW : referrals.Row) : bool :=
  existsb (fun r =>
    N.eqb (referrals.id r) (referrals.id NEW)
    || String.eqb (referrals.referral_id r) (referrals.referral_id NEW))
    others.

Definition referrals_fk_missing (db : database) (NEW : referrals.Row)
    : bool :=
  negb (has_id patients.id (public_patients db) (referrals.patient_id NEW)
        && has_id profiles.id (public_profiles db)
             (referrals.referring_doctor_id NEW)
        && has_id_or_null profiles.id (public_profiles db)
             (referrals.target_specialist_id NEW)
        && has_id hospitals.id (public_hospitals db)
             (referrals.origin_hospital_id NEW)
        && has_id hospitals.id (public_hospitals db)
             (referrals.target_hospital_id NEW)
        && has_id departments.id (public_departments db)
             (referrals.target_department_id NEW)).

(** No table references [referrals]. *)
Definition referrals_pinned (old NEW : referrals.Row) : bool := false.

Definition set_public_referrals (db : database) (tbl : list referrals.Row) :=
  {| public_profiles := public_profiles db;
     public_hospitals := public_hospitals db;
     public_departments := public_departments db;
     public_patients := public_patients db;
     public_referrals := tbl |}.

(** The row stored for NEW: DEFAULT gen_random_uuid(), DEFAULT 'medium',
    DEFAULT 'pending' and DEFAULT NOW() fill what the statement left out. *)
Definition referrals_new_row (fresh : uuid) (now : timestamptz)
    (NEW : referrals.Insert) (rid : text) : referrals.Row := {|
  referrals.id := assigned (referrals.new_id NEW) fresh;
  referrals.referral_id := rid;
  referrals.patient_id := referrals.new_patient_id NEW;
  referrals.referring_doctor_id := referrals.new_referring_doctor_id NEW;
  referrals.target_specialist_id := referrals.new_target_specialist_id NEW;
  referrals.origin_hospital_id := referrals.new_origin_hospital_id NEW;
  referrals.target_hospital_id := referrals.new_target_hospital_id NEW;
  referrals.target_department_id := referrals.new_target_department_id NEW;
  referrals.reason := referrals.new_reason NEW;
  referrals.urgency := assigned (referrals.new_urgency NEW) medium;
  referrals.status := assigned (referrals.new_status NEW) pending;
  referrals.notes := referrals.new_notes NEW;
  referrals.specialist_notes := referrals.new_specialist_notes NEW;
  referrals.appointment_date := referrals.new_appointment_date NEW;
  referrals.created_at := assigned (referrals.new_created_at NEW) (Some now);
  referrals.updated_at := assigned (referrals.new_updated_at NEW) (Some now)
|}.

Definition insert_referral (db : database) (uid : option uuid)
    (now : timestamptz) (year : N) (draws : list Z) (fresh : uuid)
    (NEW : referrals.Insert) : option (outcome database) :=
  match set_referral_id_trigger year (public_referrals db) draws NEW with
  | None => None
  | Some NEW' =>
      Some
        match referrals.new_referral_id NEW' with
        | None => Raise not_null_violation
        | Some rid =>
            match insert_row (on_referrals policies) referrals_conflict
                    (referrals_fk_missing db) db uid
                    (referrals_new_row fresh now NEW' rid)
                    (public_referrals db) with
            | Done tbl => Done (set_public_referrals db tbl)
            | Raise e => Raise e
            end
        end
  end.

Definition update_referral (db : database) (uid : option uuid)
    (now : timestamptz) (target : uuid) (u : referrals.Update)
    : outcome database :=
  match update_where_id referrals.id (on_referrals policies)
          referrals_conflict (referrals_fk_missing db) referrals_pinned
          db uid now target u (public_referrals db) with
  | Done tbl => Done (set_public_referrals db tbl)
  | Raise e => Raise e
  end.

Definition delete_referral (db : database) (uid : option uuid)
    (target : uuid) : database :=
  set_public_referrals db
    (delete_where_id referrals.id (on_referrals policies) db uid target
       (public_referrals db)).

(** *** profiles *)

Definition profiles_conflict (others : list profiles.Row)
    (NEW : profiles.Row) : bool :=
  existsb (fun r =>
    N.eqb (profiles.id r) (profiles.id NEW)
    || String.eqb (profiles.email r) (profiles.email NEW)) others.

Definition profiles_fk_missing (db : database) (NEW : profiles.Row) : bool :=
  negb (has_id_or_null hospitals.id (public_hospitals db)
          (profiles.hospital_id NEW)
        && has_id_or_null departments.id (public_departments db)
             (profiles.department_id NEW)).

Definition profiles_pinned (db : database) (old NEW : profiles.Row) : bool :=
  negb (N.eqb (profiles.id old) (profiles.id NEW))
  && (existsb (fun r =>
        N.eqb (referrals.referring_doctor_id r) (profiles.id old)
        || uuid_eq (referrals.target_specialist_id r)
             (Some (profiles.id old)))
        (public_referrals db)
      || existsb (fun d =>
           uuid_eq (departments.head_doctor_id d) (Some (profiles.id old)))
           (public_departments db)).

Definition set_public_profiles (db : database) (tbl : list profiles.Row) :=
  {| public_profiles := tbl;
     public_hospitals := public_hospitals db;
     public_departments := public_departments db;
     public_patients := public_patients db;
     public_referrals := public_referrals db |}.

Definition update_profile (db : database) (uid : option uuid)
    (now : timestamptz) (target : uuid) (u : profiles.Update)
    : outcome database :=
  match update_where_id profiles.id (on_profiles policies) profiles_conflict
          (profiles_fk_missing db) (profiles_pinned db) db uid now target u
          (public_profiles db) with
  | Done tbl => Done (set_public_profiles db tbl)
  | Raise e => Raise e
  end.

(** ** The public read gateway *)

Definition upper_char (c : ascii) : ascii :=
  let n := nat_of_ascii c in
  if Nat.leb 97 n && Nat.leb n 122 then ascii_of_nat (n - 32) else c.

(** UPPER(s) on the letters a to z; every other character is kept. *)
Fixpoint UPPER (s : text) : text :=
  match s with
  | EmptyString => EmptyString
  | String c s' => String (upper_char c) (UPPER s')
  end.

(** l JOIN t ON cond *)
Definition JOIN {A B : Type} (l : list A) (t : list B)
    (on : A -> B -> bool) : list (A * B) :=
  flat_map (fun a => map (pair a) (filter (on a) t)) l.

(** l LEFT JOIN t ON cond: a row of [l] without partner is kept, with NULLs
    for the columns of [t]. *)
Definition LEFT_JOIN {A B : Type} (l : list A) (t : list B)
    (on : A -> B -> bool) : list (A * option B) :=
  flat_map (fun a =>
    match filter (on a) t with
    | [] => [(a, None)]
    | found => map (fun b => (a, Some b)) found
    end) l.

(** RETURNS TABLE (...) of get_referral_public. *)
Module tracking.
Record Row := {
  referral_id : text;
  status : referral_status;
  urgency : urgency_level;
  reason : text;
  notes : option text;
  appointment_date : option timestamptz;
  created_at : option timestamptz;
  patient_full_name : text;
  patient_id : text;
  referring_doctor_name : option text;
  target_specialist_name : option text;
  origin_hospital_name : text;
  origin_hospital_city : text;
  origin_hospital_state : text;
  target_hospital_name : text;
  target_hospital_city : text;
  target_hospital_state : text;
  target_department_name : text;
  target_department_description : option text
}.
End tracking.

(** A row of the FROM clause: r, p, d, s, oh, th, td. *)
Definition joined : Type :=
  referrals.Row * patients.Row * option profiles.Row * option profiles.Row
  * hospitals.Row * hospitals.Row * departments.Row.

Definition from_clause (db : database) : list joined :=
  let r_p :=
    JOIN (public_referrals db) (public_patients db)
      (fun r p => N.eqb (patients.id p) (referrals.patient_id r)) in
  let r_d :=
    LEFT_JOIN r_p (public_profiles db)
      (fun '(r, _) d =>
         N.eqb (profiles.id d) (referrals.referring_doctor_id r)) in
  let r_s :=
    LEFT_JOIN r_d (public_profiles db)
      (fun '(r, _, _) s =>
         uuid_eq (Some (profiles.id s)) (referrals.target_specialist_id r)) in
  let r_oh :=
    JOIN r_s (public_hospitals db)
      (fun '(r, _, _, _) oh =>
         N.eqb (hospitals.id oh) (referrals.origin_hospital_id r)) in
  let r_th :=
    JOIN r_oh (public_hospitals db)
      (fun '(r, _, _, _, _) th =>
         N.eqb (hospitals.id th) (referrals.target_hospital_id r)) in
  JOIN r_th (public_departments db)
    (fun '(r, _, _, _, _, _) td =>
       N.eqb (departments.id td) (referrals.target_department_id r)).

(** The SELECT list. *)
Definition select_list (j : joined) : tracking.Row :=
  let '(r, p, d, s, oh, th, td) := j in {|
    tracking.referral_id := referrals.referral_id r;
    tracking.status := referrals.status r;
    tracking.urgency := referrals.urgency r;
    tracking.reason := referrals.reason r;
    tracking.notes := referrals.notes r;
    tracking.appointment_date := referrals.appointment_date r;
    tracking.created_at := referrals.created_at r;
    tracking.patient_full_name := patients.full_name p;
    tracking.patient_id := patients.patient_id p;
    tracking.referring_doctor_name := option_map profiles.full_name d;
    tracking.target_specialist_name := option_map profiles.full_name s;
    tracking.origin_hospital_name := hospitals.name oh;
    tracking.origin_hospital_city := hospitals.city oh;
    tracking.origin_hospital_state := hospitals.state oh;
    tracking.target_hospital_name := hospitals.name th;
    tracking.target_hospital_city := hospitals.city th;
    tracking.target_hospital_state := hospitals.state th;
    tracking.target_department_name := departments.name td;
    tracking.target_department_description := departments.description td
  |}.

(** public.get_referral_public(_referral_id text): SECURITY DEFINER, so it
    reads the tables themselves; no policy is asked. *)
Definition get_referral_public (db : database) (_referral_id : text)
    : list tracking.Row :=
  firstn 1
    (map select_list
       (filter (fun '(r, _, _, _, _, _, _) =>
                  String.eqb (referrals.referral_id r) (UPPER _referral_id))
          (from_clause db))).

(** The constraints of the schema the properties below rely on, under the
    names the database gives them. *)
Record schema_constraints (db : database) : Prop := {
  profiles_pkey : primary_key profiles.id (public_profiles db);
  hospitals_pkey : primary_key hospitals.id (public_hospitals db);
  departments_pkey : primary_key departments.id (public_departments db);
  patients_pkey : primary_key patients.id (public_patients db);
  referrals_pkey : primary_key referrals.id (public_referrals db);
  patients_patient_id_key : unique patients.patient_id (public_patients db);
  referrals_referral_id_key :
    unique referrals.referral_id (public_referrals db);
  referrals_patient_id_fkey :
    Forall (fun r => references patients.id (public_patients db)
                       (referrals.patient_id r)) (public_referrals db);
  referrals_origin_hospital_id_fkey :
    Forall (fun r => references hospitals.id (public_hospitals db)
                       (referrals.origin_hospital_id r)) (public_referrals db);
  referrals_target_hospital_id_fkey :
    Forall (fun r => references hospitals.id (public_hospitals db)
                       (referrals.target_hospital_id r)) (public_referrals db);
  referrals_target_department_id_fkey :
    Forall (fun r => references departments.id (public_departments db)
                       (referrals.target_department_id r))
      (public_referrals db)
}.

(** ** Concrete rows for the examples *)

Definition a_profile (i : uuid) (r : user_role) (h : option uuid)
    : profiles.Row := {|
  profiles.id := i; profiles.full_name := "Staff"%string;
  profiles.email := NilEmpty.string_of_uint (N.to_uint i);
  profiles.phone := None; profiles.role := r; profiles.hospital_id := h;
  profiles.department_id := None; profiles.license_number := None;
  profiles.specialization := None; profiles.created_at := Some 0%Z;
  profiles.updated_at := Some 0%Z
|}.

Definition a_hospital (i : uuid) (n : text) : hospitals.Row := {|
  hospitals.id := i; hospitals.name := n; hospitals.address := "1 Main St"%string;
  hospitals.phone := "555"%string; hospitals.email := None;
  hospitals.city := "Springfield"%string; hospitals.state := "IL"%string;
  hospitals.created_at := Some 0%Z; hospitals.updated_at := Some 0%Z
|}.

Definition a_department (i h : uuid) : departments.Row := {|
  departments.id := i; departments.name := "Cardiology"%string;
  departments.description := Some "Heart"%string;
  departments.hospital_id := h; departments.head_doctor_id := None;
  departments.created_at := Some 0%Z; departments.updated_at := Some 0%Z
|}.

Definition a_patient (i : uuid) (pid : text) (h : option uuid)
    : patients.Row := {|
  patients.id := i; patients.patient_id := pid;
  patients.full_name := "Pat Doe"%string; patients.date_of_birth := 0%Z;
  patients.gender := other; patients.phone := None; patients.email := None;
  patients.address := None; patients.emergency_contact_name := None;
  patients.emergency_contact_phone := None;
  patients.medical_history := Some "asthma"%string;
  patients.current_hospital_id := h;
  patients.created_at := Some 0%Z; patients.updated_at := Some 0%Z
|}.

Definition a_referral (i : uuid) (rid : text) (pat doc : uuid)
    (spec : option uuid) (oh th td : uuid) : referrals.Row := {|
  referrals.id := i; referrals.referral_id := rid;
  referrals.patient_id := pat; referrals.referring_doctor_id := doc;
  referrals.target_specialist_id := spec;
  referrals.origin_hospital_id := oh; referrals.target_hospital_id := th;
  referrals.target_department_id := td; referrals.reason := "checkup"%string;
  referrals.urgency := medium; referrals.status := pending;
  referrals.notes := None;
  referrals.specialist_notes := Some "private"%string;
  referrals.appointment_date := None;
  referrals.created_at := Some 0%Z; referrals.updated_at := Some 0%Z
|}.

(** Hospitals 1 and 2 with a department each; a doctor (10) and a
    specialist (11) at hospital 1, a specialist (12) at hospital 2, an
    admin (13) and a patient-role user (14); patient 20 at hospital 2,
    referred by doctor 10 to hospital 2. *)
Definition example_db : database := {|
  public_profiles := [
    a_profile 10 doctor (Some 1%N); a_profile 11 specialist (Some 1%N);
    a_profile 12 specialist (Some 2%N); a_profile 13 admin None;
    a_profile 14 patient None ];
  public_hospitals := [ a_hospital 1 "General"; a_hospital 2 "Mercy" ];
  public_departments := [ a_department 5 1; a_department 6 2 ];
  public_patients := [ a_patient 20 "PAT-2025-000001" (Some 2%N) ];
  public_referrals :=
    [ a_referral 30 "REF-2025-000001" 20 10 None 1 2 6 ]
|}%string.

(** The SET clause that names one column: [role], [patient_id] or
    [referral_id]. *)
Definition only_role (r : user_role) : profiles.Update := {|
  profiles.set_id := None; profiles.set_full_name := None;
  profiles.set_email := None; profiles.set_phone := None;
  profiles.set_role := Some r; profiles.set_hospital_id := None;
  profiles.set_department_id := None; profiles.set_license_number := None;
  profiles.set_specialization := None; profiles.set_created_at := None;
  profiles.set_updated_at := None
|}.

Definition only_patient_id (s : text) : patients.Update := {|
  patients.set_id := None; patients.set_patient_id := Some s;
  patients.set_full_name := None; patients.set_date_of_birth := None;
  patients.set_gender := None; patients.set_phone := None;
  patients.set_email := None; patients.set_address := None;
  patients.set_emergency_contact_name := None;
  patients.set_emergency_contact_phone := None;
  patients.set_medical_history := None;
  patients.set_current_hospital_id := None;
  patients.set_created_at := None; patients.set_updated_at := None
|}.

Definition only_referral_id (s : text) : referrals.Update := {|
  referrals.set_id := None; referrals.set_referral_id := Some s;
  referrals.set_patient_id := None; referrals.set_referring_doctor_id := None;
  referrals.set_target_specialist_id := None;
  referrals.set_origin_hospital_id := None;
  referrals.set_target_hospital_id := None;
  referrals.set_target_department_id := None; referrals.set_reason := None;
  referrals.set_urgency := None; referrals.set_status := None;
  referrals.set_notes := None; referrals.set_specialist_notes := None;
  referrals.set_appointment_date := None; referrals.set_created_at := None;
  referrals.set_updated_at := None
|}.

(** The years 0 .. 9999, for a check by enumeration. *)
Definition four_digit_years : list N :=
  map N.of_nat (seq 0 (N.to_nat 10000)).

(** How a row stored by UPDATE ... WHERE id = target relates to the row it
    replaces: untouched, or the SET clause and the trigger applied to a
    row the statement reached. *)
Definition row_step {Update Row : Type} `{SetClause Update Row}
    `{UpdatedAt Row} (pk : Row -> uuid) (pols : list (policy Row))
    (db : database) (uid : option uuid) (now : timestamptz) (target : uuid)
    (u : Update) (old new : Row) : Prop :=
  new = old
  \/ (pk old = target
      /\ update_reaches pols db uid old = true
      /\ update_accepts pols db uid new = true
      /\ new = updated_row now u old).

(** The referrals table with [specialist_notes] rewritten row by row. *)
Definition rewrite_specialist_notes (f : referrals.Row -> option text)
    (db : database) : database :=
  set_public_referrals db
    (map (fun r => referrals.with_specialist_notes (f r) r)
       (public_referrals db)).

(** An UPDATE that names [status] and, as a caller may, [updated_at]. *)
Definition example_update : referrals.Update := {|
  referrals.set_id := None; referrals.set_referral_id := None;
  referrals.set_patient_id := None; referrals.set_referring_doctor_id := None;
  referrals.set_target_specialist_id := None;
  referrals.set_origin_hospital_id := None;
  referrals.set_target_hospital_id := None;
  referrals.set_target_department_id := None; referrals.set_reason := None;
  referrals.set_urgency := None; referrals.set_status := Some in_progress;
  referrals.set_notes := None; referrals.set_specialist_notes := None;
  referrals.set_appointment_date := None; referrals.set_created_at := None;
  referrals.set_updated_at := Some (Some 99%Z)
|}.

(** Rewriting the left component of a joined row. *)
Definition on_left {A C : Type} (g : A -> A) (ac : A * C) : A * C :=
  (g (fst ac), snd ac).

(** An INSERT INTO patients that supplies no identifier. *)
Definition example_new_patient : patients.Insert := {|
  patients.new_id := None; patients.new_patient_id := None;
  patients.new_full_name := "Sam Roe"; patients.new_date_of_birth := 0%Z;
  patients.new_gender := female; patients.new_phone := None;
  patients.new_email := None; patients.new_address := None;
  patients.new_emergency_contact_name := None;
  patients.new_emergency_contact_phone := None;
  patients.new_medical_history := None;
  patients.new_current_hospital_id := Some 1%N;
  patients.new_created_at := None; patients.new_updated_at := None
|}.

(** The policies as they stood before 20250928152621 ran. *)
Definition policies_before_20250928152621 : catalog :=
  run migration_20250927105316 (run migration_initial no_policies).

(** An INSERT INTO referrals by doctor 10 that supplies no identifier. *)
Definition example_new_referral : referrals.Insert := {|
  referrals.new_id := None; referrals.new_referral_id := None;
  referrals.new_patient_id := 20%N;
  referrals.new_referring_doctor_id := 10%N;
  referrals.new_target_specialist_id := None;
  referrals.new_origin_hospital_id := 1%N;
  referrals.new_target_hospital_id := 2%N;
  referrals.new_target_department_id := 6%N;
  referrals.new_reason := "second opinion";
  referrals.new_urgency := Some high; referrals.new_status := None;
  referrals.new_notes := None; referrals.new_specialist_notes := None;
  referrals.new_appointment_date := None;
  referrals.new_created_at := None; referrals.new_updated_at := None
|}.

(** ** Hospitals, departments and the assignments of doctors *)

Module doctor_hospitals.
Record Row := {
  id : uuid;
  doctor_id : uuid;
  hospital_id : uuid;
  created_at : timestamptz
}.
(** The object [saveAssignments] passes to [.insert(...)]: [id] and
    [created_at] are left to their defaults. *)
Record Insert := {
  new_doctor_id : uuid;
  new_hospital_id : uuid
}.
End doctor_hospitals.

Module doctor_departments.
Record Row := {
  id : uuid;
  doctor_id : uuid;
  department_id : uuid;
  hospital_id : uuid;
  created_at : timestamptz
}.
(** The object [saveAssignments] passes to [.insert(...)]; [hospital_id]
    is [dept?.hospital_id], undefined when the department is not known. *)
Record Insert := {
  new_doctor_id : uuid;
  new_department_id : uuid;
  new_hospital_id : option uuid
}.
End doctor_departments.

(** USING (true) *)
Definition sql_true {Row : Type} : expr Row := fun _ _ _ => true.

(** TO authenticated: the policy is asked only for a request made in the
    role [authenticated], the role of a request that carries a user's
    token and so has an [auth.uid()].  A policy without TO is asked for
    every role. *)
Definition TO_authenticated {Row : Type} (q : expr Row) : expr Row :=
  fun db uid row =>
    match uid with
    | Some _ => q db uid row
    | None => false
    end.

(** "Admins can manage hospitals", "Admins can manage departments":
    EXISTS (SELECT 1 FROM public.profiles WHERE id = auth.uid() AND
    role = 'admin') *)
Definition profile_is_admin {Row : Type} : expr Row :=
  fun db uid _ =>
    existsb (fun p =>
      uuid_eq (Some (profiles.id p)) uid
      && user_role_eqb (profiles.role p) admin)
      (from_profiles db uid).

(** "Medical staff can manage departments": EXISTS (SELECT 1 FROM profiles
    WHERE profiles.id = auth.uid() AND profiles.role IN ('doctor',
    'admin')) *)
Definition profile_role_in {Row : Type} (roles : list user_role) : expr Row :=
  fun db uid _ =>
    existsb (fun p =>
      uuid_eq (Some (profiles.id p)) uid
      && role_in (profiles.role p) roles)
      (from_profiles db uid).

(** "Doctors can view their own hospital assignments",
    "Doctors can view their own department assignments":
    USING (auth.uid() = doctor_id) *)
Definition own_hospital_assignment : expr doctor_hospitals.Row :=
  fun _ uid row => uuid_eq uid (Some (doctor_hospitals.doctor_id row)).

Definition own_department_assignment : expr doctor_departments.Row :=
  fun _ uid row => uuid_eq uid (Some (doctor_departments.doctor_id row)).

(** "Admins can manage all doctor hospital assignments", "... department
    assignments": USING (has_profile_role(auth.uid(), 'admin'::user_role)) *)
Definition admin_role_by_function {Row : Type} : expr Row :=
  fun db uid _ => has_profile_role db uid admin.

(** The policies of these four tables. *)
Record staffing_catalog := {
  on_hospitals : list (policy hospitals.Row);
  on_departments : list (policy departments.Row);
  on_doctor_hospitals : list (policy doctor_hospitals.Row);
  on_doctor_departments : list (policy doctor_departments.Row)
}.

Definition no_staffing_policies : staffing_catalog :=
  {| on_hospitals := []; on_departments := [];
     on_doctor_hospitals := []; on_doctor_departments := [] |}.

Definition create_on_hospitals (p : policy hospitals.Row)
    (c : staffing_catalog) :=
  {| on_hospitals := on_hospitals c ++ [p];
     on_departments := on_departments c;
     on_doctor_hospitals := on_doctor_hospitals c;
     on_doctor_departments := on_doctor_departments c |}.
Definition create_on_departments (p : policy departments.Row)
    (c : staffing_catalog) :=
  {| on_hospitals := on_hospitals c;
     on_departments := on_departments c ++ [p];
     on_doctor_hospitals := on_doctor_hospitals c;
     on_doctor_departments := on_doctor_departments c |}.
Definition create_on_doctor_hospitals (p : policy doctor_hospitals.Row)
    (c : staffing_catalog) :=
  {| on_hospitals := on_hospitals c;
     on_departments := on_departments c;
     on_doctor_hospitals := on_doctor_hospitals c ++ [p];
     on_doctor_departments := on_doctor_departments c |}.
Definition create_on_doctor_departments (p : policy doctor_departments.Row)
    (c : staffing_catalog) :=
  {| on_hospitals := on_hospitals c;
     on_departments := on_departments c;
     on_doctor_hospitals := on_doctor_hospitals c;
     on_doctor_departments := on_doctor_departments c ++ [p] |}.
Definition drop_on_departments (name : string) (c : staffing_catalog) :=
  {| on_hospitals := on_hospitals c;
     on_departments := drop_policy name (on_departments c);
     on_doctor_hospitals := on_doctor_hospitals c;
     on_doctor_departments := on_doctor_departments c |}.

Definition run_staffing (stmts : list (staffing_catalog -> staffing_catalog))
    (c : staffing_catalog) : staffing_catalog :=
  fold_left (fun acc stmt => stmt acc) stmts c.

(** The first migration, for hospitals and departments. *)
Definition migration_initial_staffing
    : list (staffing_catalog -> staffing_catalog) := [
  create_on_hospitals
    (USING "All authenticated users can view hospitals" (FOR SELECT)
       (TO_authenticated sql_true));
  create_on_hospitals
    (USING "Admins can manage hospitals" FOR_ALL profile_is_admin);
  create_on_departments
    (USING "All authenticated users can view departments" (FOR SELECT)
       (TO_authenticated sql_true));
  create_on_departments
    (USING "Admins can manage departments" FOR_ALL profile_is_admin)
]%string.

(** The migration that creates the two junction tables. *)
Definition migration_doctor_assignments
    : list (staffing_catalog -> staffing_catalog) := [
  create_on_doctor_hospitals
    (USING "Doctors can view their own hospital assignments" (FOR SELECT)
       own_hospital_assignment);
  create_on_doctor_hospitals
    (USING "Admins can manage all doctor hospital assignments" FOR_ALL
       admin_role_by_function);
  create_on_doctor_departments
    (USING "Doctors can view their own department assignments" (FOR SELECT)
       own_department_assignment);
  create_on_doctor_departments
    (USING "Admins can manage all doctor department assignments" FOR_ALL
       admin_role_by_function)
]%string.

(** 20250928152904: department management is widened to doctors. *)
Definition migration_20250928152904
    : list (staffing_catalog -> staffing_catalog) := [
  drop_on_departments "Admins can manage departments";
  create_on_departments
    (USING "Medical staff can manage departments" FOR_ALL
       (profile_role_in [doctor; admin]))
]%string.

Definition staffing_policies_before_20250928152904 : staffing_catalog :=
  run_staffing migration_doctor_assignments
    (run_staffing migration_initial_staffing no_staffing_policies).

(** The policies in force on the four tables.  The junction tables and
    20250928152904 touch different tables, so their order does not
    matter. *)
Definition staffing_policies : staffing_catalog :=
  run_staffing migration_20250928152904
    staffing_policies_before_20250928152904.

(** ** Sign-up: the trigger on_auth_user_created *)

(** The columns of auth.users the trigger reads.  [raw_user_meta_data]
    lists, for each key of the JSON object, the text [->>] gives for it; a
    key that is absent, or holds JSON null, has no entry. *)
Module auth_users.
Record Row := {
  id : uuid;
  email : option text;
  raw_user_meta_data : list (text * text)
}.
End auth_users.

(** j ->> key *)
Definition jsonb_get_text (j : list (text * text)) (key : text)
    : option text :=
  option_map snd (find (fun kv => String.eqb (fst kv) key) j).

(** COALESCE(a, b) with [b] not NULL *)
Definition COALESCE {A : Type} (a : option A) (b : A) : A :=
  match a with
  | Some x => x
  | None => b
  end.

(** The input function of the enumeration: the label as written. *)
Definition user_role_in (label : text) : option user_role :=
  if String.eqb label "admin" then Some admin
  else if String.eqb label "doctor" then Some doctor
  else if String.eqb label "specialist" then Some specialist
  else if String.eqb label "patient" then Some patient
  else None.

Inductive signup_error :=
  | invalid_text_representation (label : text)
  | constraint_violation (e : sql_error).

(** x::user_role : NULL stays NULL, a text that is no label raises. *)
Definition cast_user_role (x : option text)
    : signup_error + option user_role :=
  match x with
  | None => inr None
  | Some label =>
      match user_role_in label with
      | Some r => inr (Some r)
      | None => inl (invalid_text_representation label)
      end
  end.

(** What the AFTER INSERT trigger does to the sign-up: the profile is
    stored, or the error aborts the INSERT INTO auth.users. *)
Inductive signup :=
  | Profile_created (db : database)
  | Signup_fails (e : signup_error).

(** public.handle_new_user(): SECURITY DEFINER, so the INSERT asks no
    policy of [profiles].  The columns the INSERT does not name take their
    defaults; the row of auth.users that [profiles.id] references is NEW
    itself. *)
Definition handle_new_user (db : database) (now : timestamptz)
    (NEW : auth_users.Row) : signup :=
  match cast_user_role
          (jsonb_get_text (auth_users.raw_user_meta_data NEW) "role") with
  | inl e => Signup_fails e
  | inr role =>
      match auth_users.email NEW with
      | None => Signup_fails (constraint_violation not_null_violation)
      | Some email =>
          let row := {|
            profiles.id := auth_users.id NEW;
            profiles.full_name :=
              COALESCE
                (jsonb_get_text (auth_users.raw_user_meta_data NEW)
                   "full_name") EmptyString;
            profiles.email := email;
            profiles.phone := None;
            profiles.role := COALESCE role patient;
            profiles.hospital_id := None;
            profiles.department_id := None;
            profiles.license_number := None;
            profiles.specialization := None;
            profiles.created_at := Some now;
            profiles.updated_at := Some now
          |} in
          if profiles_conflict (public_profiles db) row
          then Signup_fails (constraint_violation unique_violation)
          else Profile_created
                 (set_public_profiles db (public_profiles db ++ [row]))
      end
  end.

(** ** The assignment dialog (DoctorAllocation, and the sign-up form) *)

(** The two pieces of state the dialog keeps. *)
Record selection := {
  selectedHospitals : list uuid;
  selectedDepartments : list uuid
}.

(** prev.includes(x) *)
Definition includes (l : list uuid) (x : uuid) : bool :=
  existsb (N.eqb x) l.

(** handleHospitalToggle(hospitalId), called once per rendering: [prev] of
    either updater is the state the handler closed over. *)
Definition handleHospitalToggle (departments : list departments.Row)
    (hospitalId : uuid) (st : selection) : selection := {|
  selectedHospitals :=
    let prev := selectedHospitals st in
    if includes prev hospitalId
    then filter (fun id => negb (N.eqb id hospitalId)) prev
    else prev ++ [hospitalId];
  selectedDepartments :=
    let prev := selectedDepartments st in
    filter (fun deptId =>
      match find (fun d => N.eqb (departments.id d) deptId) departments with
      | Some dept =>
          includes (selectedHospitals st) (departments.hospital_id dept)
          || N.eqb hospitalId (departments.hospital_id dept)
      | None => false
      end) prev
|}.

(** handleDepartmentToggle(departmentId) *)
Definition handleDepartmentToggle (departmentId : uuid) (st : selection)
    : selection := {|
  selectedHospitals := selectedHospitals st;
  selectedDepartments :=
    let prev := selectedDepartments st in
    if includes prev departmentId
    then filter (fun id => negb (N.eqb id departmentId)) prev
    else prev ++ [departmentId]
|}.

(** getAvailableDepartments(): the departments offered for selection. *)
Definition getAvailableDepartments (departments : list departments.Row)
    (st : selection) : list departments.Row :=
  filter (fun dept =>
    includes (selectedHospitals st) (departments.hospital_id dept))
    departments.

(** ** The tracking page (TrackReferral) *)





Module ReferralDetails.
Record patient := {
  patient_full_name : text;
  patient_patient_id : text
}.
Record staff := {
  staff_full_name : option text;
  staff_specialization : option text
}.
Record hospital := {
  hospital_name : text;
  hospital_city : text;
  hospital_state : text
}.
Record department := {
  department_name : text;
  department_description : option text
}.
Record t := {
  referral_id : text;
  status : referral_status;
  urgency : urgency_level;
  reason : text;
  notes : option text;
  specialist_notes : option text;
  appointment_date : option timestamptz;
  created_at : option timestamptz;
  the_patient : patient;
  referring_doctor : staff;
  target_specialist : option staff;
  origin_hospital : hospital;
  target_hospital : hospital;
  target_department : department
}.
End ReferralDetails.




(** ** Saving the assignments of a doctor (DoctorAllocation) *)

(** The two junction tables. *)
Record assignments := {
  public_doctor_hospitals : list doctor_hospitals.Row;
  public_doctor_departments : list doctor_departments.Row
}.

(** PRIMARY KEY (id) and UNIQUE (doctor_id, hospital_id) *)
Definition doctor_hospitals_conflict (others : list doctor_hospitals.Row)
    (NEW : doctor_hospitals.Row) : bool :=
  existsb (fun r =>
    N.eqb (doctor_hospitals.id r) (doctor_hospitals.id NEW)
    || (N.eqb (doctor_hospitals.doctor_id r) (doctor_hospitals.doctor_id NEW)
        && N.eqb (doctor_hospitals.hospital_id r)
             (doctor_hospitals.hospital_id NEW))) others.

Definition doctor_hospitals_fk_missing (db : database)
    (NEW : doctor_hospitals.Row) : bool :=
  negb (has_id profiles.id (public_profiles db)
          (doctor_hospitals.doctor_id NEW)
        && has_id hospitals.id (public_hospitals db)
             (doctor_hospitals.hospital_id NEW)).

(** PRIMARY KEY (id) and UNIQUE (doctor_id, department_id, hospital_id) *)
Definition doctor_departments_conflict
    (others : list doctor_departments.Row) (NEW : doctor_departments.Row)
    : bool :=
  existsb (fun r =>
    N.eqb (doctor_departments.id r) (doctor_departments.id NEW)
    || (N.eqb (doctor_departments.doctor_id r)
          (doctor_departments.doctor_id NEW)
        && N.eqb (doctor_departments.department_id r)
             (doctor_departments.department_id NEW)
        && N.eqb (doctor_departments.hospital_id r)
             (doctor_departments.hospital_id NEW))) others.

Definition doctor_departments_fk_missing (db : database)
    (NEW : doctor_departments.Row) : bool :=
  negb (has_id profiles.id (public_profiles db)
          (doctor_departments.doctor_id NEW)
        && has_id departments.id (public_departments db)
             (doctor_departments.department_id NEW)
        && has_id hospitals.id (public_hospitals db)
             (doctor_departments.hospital_id NEW)).

(** INSERT of several rows in one statement: all of them or, on the first
    error, none.  The caller does not tell the errors apart. *)
Fixpoint insert_rows {Row : Type} (pols : list (policy Row))
    (conflict : list Row -> Row -> bool) (fk_missing : Row -> bool)
    (db : database) (uid : option uuid) (NEWs tbl : list Row)
    : outcome (list Row) :=
  match NEWs with
  | [] => Done tbl
  | NEW :: more =>
      match insert_row pols conflict fk_missing db uid NEW tbl with
      | Done tbl' => insert_rows pols conflict fk_missing db uid more tbl'
      | Raise e => Raise e
      end
  end.

(** DELETE FROM t WHERE doctor_id = doc.  No table references the
    junction tables, so the statement does not fail; it removes the rows
    it reaches. *)
Definition delete_where_doctor_id {Row : Type} (doctor_id : Row -> uuid)
    (pols : list (policy Row)) (db : database) (uid : option uuid)
    (doc : uuid) (tbl : list Row) : list Row :=
  filter (fun r => negb (N.eqb (doctor_id r) doc && can_delete pols db uid r))
    tbl.

(** The rows stored for the objects of one INSERT: [gen_random_uuid k] is
    the k-th identifier DEFAULT gen_random_uuid() draws in the statement,
    DEFAULT now() the time of the statement. *)
Fixpoint doctor_hospitals_new_rows (now : timestamptz)
    (gen_random_uuid : nat -> uuid) (k : nat)
    (NEWs : list doctor_hospitals.Insert) : list doctor_hospitals.Row :=
  match NEWs with
  | [] => []
  | NEW :: more =>
      {| doctor_hospitals.id := gen_random_uuid k;
         doctor_hospitals.doctor_id := doctor_hospitals.new_doctor_id NEW;
         doctor_hospitals.hospital_id :=
           doctor_hospitals.new_hospital_id NEW;
         doctor_hospitals.created_at := now |}
      :: doctor_hospitals_new_rows now gen_random_uuid (S k) more
  end.

(** The same for doctor_departments, where [hospital_id] is NOT NULL and
    the object may lack it. *)
Fixpoint doctor_departments_new_rows (now : timestamptz)
    (gen_random_uuid : nat -> uuid) (k : nat)
    (NEWs : list doctor_departments.Insert)
    : outcome (list doctor_departments.Row) :=
  match NEWs with
  | [] => Done []
  | NEW :: more =>
      match doctor_departments.new_hospital_id NEW with
      | None => Raise not_null_violation
      | Some h =>
          match doctor_departments_new_rows now gen_random_uuid (S k) more
          with
          | Done rows =>
              Done
                ({| doctor_departments.id := gen_random_uuid k;
                    doctor_departments.doctor_id :=
                      doctor_departments.new_doctor_id NEW;
                    doctor_departments.department_id :=
                      doctor_departments.new_department_id NEW;
                    doctor_departments.hospital_id := h;
                    doctor_departments.created_at := now |} :: rows)
          | Raise e => Raise e
          end
      end
  end.

Definition insert_doctor_hospitals (db : database) (uid : option uuid)
    (now : timestamptz) (gen_random_uuid : nat -> uuid)
    (NEWs : list doctor_hospitals.Insert) (tbl : list doctor_hospitals.Row)
    : outcome (list doctor_hospitals.Row) :=
  insert_rows (on_doctor_hospitals staffing_policies)
    doctor_hospitals_conflict (doctor_hospitals_fk_missing db) db uid
    (doctor_hospitals_new_rows now gen_random_uuid 0 NEWs) tbl.

Definition insert_doctor_departments (db : database) (uid : option uuid)
    (now : timestamptz) (gen_random_uuid : nat -> uuid)
    (NEWs : list doctor_departments.Insert)
    (tbl : list doctor_departments.Row)
    : outcome (list doctor_departments.Row) :=
  match doctor_departments_new_rows now gen_random_uuid 0 NEWs with
  | Done rows =>
      insert_rows (on_doctor_departments staffing_policies)
        doctor_departments_conflict (doctor_departments_fk_missing db) db
        uid rows tbl
  | Raise e => Raise e
  end.

(** The toast [saveAssignments] ends with, by its title. *)
Inductive toast := toast_Success | toast_Error.

(** saveAssignments(), with [selectedDoctor] given by its id.  The two
    DELETEs run first and their results are not looked at; an INSERT that
    fails ends the function in the catch block.  [uuids_h] and [uuids_d]
    are the identifiers the two INSERTs draw. *)
Definition saveAssignments (db : database) (uid : option uuid)
    (now : timestamptz) (uuids_h uuids_d : nat -> uuid)
    (departments : list departments.Row) (selectedDoctor : option uuid)
    (st : selection) (a : assignments) : assignments * option toast :=
  match selectedDoctor with
  | None => (a, None)
  | Some doc =>
      let hs :=
        delete_where_doctor_id doctor_hospitals.doctor_id
          (on_doctor_hospitals staffing_policies) db uid doc
          (public_doctor_hospitals a) in
      let ds :=
        delete_where_doctor_id doctor_departments.doctor_id
          (on_doctor_departments staffing_policies) db uid doc
          (public_doctor_departments a) in
      let hospitalInserts :=
        map (fun hospitalId =>
               {| doctor_hospitals.new_doctor_id := doc;
                  doctor_hospitals.new_hospital_id := hospitalId |})
          (selectedHospitals st) in
      let departmentInserts :=
        map (fun departmentId =>
               let dept :=
                 find (fun d => N.eqb (departments.id d) departmentId)
                   departments in
               {| doctor_departments.new_doctor_id := doc;
                  doctor_departments.new_department_id := departmentId;
                  doctor_departments.new_hospital_id :=
                    option_map departments.hospital_id dept |})
          (selectedDepartments st) in
      match
        (if Nat.ltb 0 (List.length (selectedHospitals st))
         then insert_doctor_hospitals db uid now uuids_h hospitalInserts hs
         else Done hs)
      with
      | Raise _ =>
          ({| public_doctor_hospitals := hs;
              public_doctor_departments := ds |}, Some toast_Error)
      | Done hs' =>
          match
            (if Nat.ltb 0 (List.length (selectedDepartments st))
             then insert_doctor_departments db uid now uuids_d
                    departmentInserts ds
             else Done ds)
          with
          | Raise _ =>
              ({| public_doctor_hospitals := hs';
                  public_doctor_departments := ds |}, Some toast_Error)
          | Done ds' =>
              ({| public_doctor_hospitals := hs';
                  public_doctor_departments := ds' |}, Some toast_Success)
          end
      end
  end.

(** ** Filing a referral (ReferralManagement) *)

(** The state [formData] of the dialog.  The date input gives a date or
    text that is none (the empty text it starts with); the two selects
    give the id of a listed row or the empty text, here [None]. *)
Module ReferralManagement.
Record formData := {
  patient_full_name : text;
  patient_date_of_birth : option date;
  patient_gender : public_gender;
  patient_phone : text;
  patient_email : text;
  patient_address : text;
  patient_emergency_contact_name : text;
  patient_emergency_contact_phone : text;
  patient_medical_history : text;
  target_hospital_id : option uuid;
  target_department_id : option uuid;
  reason : text;
  urgency : urgency_level;
  notes : text
}.
End ReferralManagement.

(** s || null *)
Definition or_null (s : text) : option text :=
  if String.eqb s EmptyString then None else Some s.

(** INSERT ... RETURNING, as [.insert(...).select()] sends it: the row the
    statement stored, the last of the table, must be visible to SELECT,
    else the statement fails. *)
Definition returning {Row : Type} (pols : list (policy Row)) (db : database)
    (uid : option uuid) (tbl : list Row) : outcome Row :=
  match rev tbl with
  | row :: _ =>
      if can_select pols db uid row then Done row
      else Raise row_security_violation
  | [] => Raise row_security_violation
  end.

(** How [handleCreateReferral] ends: the success toast with the
    identifier, or the toast "Failed to create referral". *)
Inductive create_result :=
  | Referral_created (referral_id : text)
  | Failed_to_create.

(** handleCreateReferral(e).  [currentUser] is the user of the session,
    who is also the caller of the two statements.  Text that is no date or
    no uuid fails the statement that carries it.  [None]: a generator loop
    outlasted its draws. *)
Definition handleCreateReferral (db : database) (currentUser : option uuid)
    (now : timestamptz) (year : N) (draws_p draws_r : list Z)
    (uuid_p uuid_r : uuid) (formData : ReferralManagement.formData)
    : option (database * create_result) :=
  match currentUser with
  | None => Some (db, Failed_to_create)
  | Some user_id =>
      match ReferralManagement.patient_date_of_birth formData with
      | None => Some (db, Failed_to_create)
      | Some date_of_birth =>
          match
            insert_patient db currentUser now year draws_p uuid_p {|
              patients.new_id := None;
              patients.new_patient_id := None;
              patients.new_full_name :=
                ReferralManagement.patient_full_name formData;
              patients.new_date_of_birth := date_of_birth;
              patients.new_gender :=
                ReferralManagement.patient_gender formData;
              patients.new_phone :=
                or_null (ReferralManagement.patient_phone formData);
              patients.new_email :=
                or_null (ReferralManagement.patient_email formData);
              patients.new_address :=
                or_null (ReferralManagement.patient_address formData);
              patients.new_emergency_contact_name :=
                or_null
                  (ReferralManagement.patient_emergency_contact_name
                     formData);
              patients.new_emergency_contact_phone :=
                or_null
                  (ReferralManagement.patient_emergency_contact_phone
                     formData);
              patients.new_medical_history :=
                or_null
                  (ReferralManagement.patient_medical_history formData);
              patients.new_current_hospital_id :=
                ReferralManagement.target_hospital_id formData;
              patients.new_created_at := None;
              patients.new_updated_at := None
            |}
          with
          | None => None
          | Some (Raise _) => Some (db, Failed_to_create)
          | Some (Done db1) =>
              match returning (on_patients policies) db1 currentUser
                      (public_patients db1) with
              | Raise _ => Some (db, Failed_to_create)
              | Done patientData =>
                  match ReferralManagement.target_hospital_id formData,
                        ReferralManagement.target_department_id formData
                  with
                  | Some hospital, Some department =>
                      match
                        insert_referral db1 currentUser now year draws_r
                          uuid_r {|
                            referrals.new_id := None;
                            referrals.new_referral_id := None;
                            referrals.new_patient_id :=
                              patients.id patientData;
                            referrals.new_referring_doctor_id := user_id;
                            referrals.new_target_specialist_id := None;
                            referrals.new_origin_hospital_id := hospital;
                            referrals.new_target_hospital_id := hospital;
                            referrals.new_target_department_id := department;
                            referrals.new_reason :=
                              ReferralManagement.reason formData;
                            referrals.new_urgency :=
                              Some (ReferralManagement.urgency formData);
                            referrals.new_status := None;
                            referrals.new_notes :=
                              Some (ReferralManagement.notes formData);
                            referrals.new_specialist_notes := None;
                            referrals.new_appointment_date := None;
                            referrals.new_created_at := None;
                            referrals.new_updated_at := None
                          |}
                      with
                      | None => None
                      | Some (Raise _) => Some (db1, Failed_to_create)
                      | Some (Done db2) =>
                          match returning (on_referrals policies) db2
                                  currentUser (public_referrals db2) with
                          | Raise _ => Some (db1, Failed_to_create)
                          | Done referralData =>
                              Some (db2,
                                    Referral_created
                                      (referrals.referral_id referralData))
                          end
                      end
                  | _, _ => Some (db1, Failed_to_create)
                  end
              end
          end
      end
  end.

(** ** Concrete rows for the examples of these parts *)

(** The labels of CREATE TYPE public.user_role AS ENUM (...). *)
Definition user_role_labels : list text :=
  ["admin"; "doctor"; "specialist"; "patient"]%string.

Definition a_hospital_assignment (i doc h : uuid) : doctor_hospitals.Row := {|
  doctor_hospitals.id := i; doctor_hospitals.doctor_id := doc;
  doctor_hospitals.hospital_id := h; doctor_hospitals.created_at := 0%Z
|}.

Definition a_department_assignment (i doc dep h : uuid)
    : doctor_departments.Row := {|
  doctor_departments.id := i; doctor_departments.doctor_id := doc;
  doctor_departments.department_id := dep;
  doctor_departments.hospital_id := h;
  doctor_departments.created_at := 0%Z
|}.

(** A new row of auth.users, as supabase.auth.signUp leaves it. *)
Definition a_new_user (i : uuid) (mail : text) (role : text)
    : auth_users.Row := {|
  auth_users.id := i; auth_users.email := Some mail;
  auth_users.raw_user_meta_data :=
    [("full_name", "New User"); ("role", role); ("phone", "555")]%string
|}.

(** Doctor 10 is assigned to hospital 1 and its department 5, specialist
    11 to hospital 1. *)
Definition example_assignments : assignments := {|
  public_doctor_hospitals :=
    [ a_hospital_assignment 40 10 1; a_hospital_assignment 42 11 1 ];
  public_doctor_departments := [ a_department_assignment 50 10 5 1 ]
|}.

(** Identifiers for new rows: 100, 101, ... *)
Definition example_uuids (k : nat) : uuid := (100 + N.of_nat k)%N.

(** Hospital 2 and its department 6 are ticked in the dialog. *)
Definition example_selection : selection := {|
  selectedHospitals := [2%N]; selectedDepartments := [6%N]
|}.

(** The form as doctor 10 fills it in: a new patient, referred to
    department 6 of hospital 2. *)
Definition example_form : ReferralManagement.formData := {|
  ReferralManagement.patient_full_name := "Ann Roe";
  ReferralManagement.patient_date_of_birth := Some 7000%Z;
  ReferralManagement.patient_gender := female;
  ReferralManagement.patient_phone := EmptyString;
  ReferralManagement.patient_email := EmptyString;
  ReferralManagement.patient_address := EmptyString;
  ReferralManagement.patient_emergency_contact_name := EmptyString;
  ReferralManagement.patient_emergency_contact_phone := EmptyString;
  ReferralManagement.patient_medical_history := EmptyString;
  ReferralManagement.target_hospital_id := Some 2%N;
  ReferralManagement.target_department_id := Some 6%N;
  ReferralManagement.reason := "second opinion";
  ReferralManagement.urgency := high;
  ReferralManagement.notes := EmptyString
|}.

(** * Properties *)

(** A filter that keeps every row a condition selects does not change
    whether the condition selects some row. *)
Lemma existsb_filter_absorb {A : Type} (f g : A -> bool) (l : list A) :
  (forall x, f x = true -> g x = true) ->
  existsb f (filter g l) = existsb f l.
Proof.
  intros Himp. induction l as [|x l IH]; simpl; [reflexivity|].
  destruct (g x) eqn:G; simpl.
  - now rewrite IH.
  - destruct (f x) eqn:F; [|exact IH].
    apply Himp in F. congruence.
Qed.

Lemma existsb_pointwise {A : Type} (f g : A -> bool) (l : list A) :
  (forall x, f x = g x) -> existsb f l = existsb g l.
Proof.
  intros E. induction l as [|x l IH]; simpl; [reflexivity|].
  now rewrite E, IH.
Qed.

Section PolicySubqueries.

Variable db : database.
Variable c : uuid.
Variable prof : profiles.Row.
Hypothesis Hpk : primary_key profiles.id (public_profiles db).
Hypothesis Hprof : profile_of db c = Some prof.

(** With the primary key on [profiles], a condition that pins the id to
    the caller's ranges over the caller's own row only. *)
Lemma exists_own_row (Q : profiles.Row -> bool) :
  existsb (fun p => uuid_eq (Some (profiles.id p)) (Some c) && Q p)
    (public_profiles db) = Q prof.
Proof.
  unfold profile_of, primary_key in *.
  induction (public_profiles db) as [|p l IH]; simpl in *; [discriminate|].
  inversion Hpk as [|? ? Hnotin Hnd]; subst.
  destruct (N.eqb (profiles.id p) c) eqn:E.
  - injection Hprof as ->. simpl.
    replace (existsb _ l) with false; [apply orb_false_r|].
    symmetry. apply not_true_is_false. intros Hex.
    apply existsb_exists in Hex. destruct Hex as [q [Hq Hc]].
    apply andb_prop in Hc. destruct Hc as [Hc _]. simpl in Hc.
    apply N.eqb_eq in Hc, E. apply Hnotin. rewrite E, <- Hc.
    now apply in_map.
  - simpl. now apply IH.
Qed.

(** The caller's view of [profiles] shows the caller's own row, so the
    same holds for a subquery inside a policy. *)
Lemma subquery_own_row (Q : profiles.Row -> bool) :
  existsb (fun p => uuid_eq (Some (profiles.id p)) (Some c) && Q p)
    (from_profiles db (Some c)) = Q prof.
Proof.
  rewrite <- (exists_own_row Q). unfold from_profiles.
  apply existsb_filter_absorb. intros p Hp.
  apply andb_prop in Hp. destruct Hp as [Hp _]. simpl in Hp.
  unfold own_profile. simpl. rewrite N.eqb_sym, Hp. reflexivity.
Qed.

Lemma subquery_own_row_and (Q R : profiles.Row -> bool) :
  existsb (fun p => uuid_eq (Some (profiles.id p)) (Some c) && Q p && R p)
    (from_profiles db (Some c)) = Q prof && R prof.
Proof.
  rewrite <- (subquery_own_row (fun p => Q p && R p)).
  apply existsb_pointwise. intros p. symmetry. apply andb_assoc.
Qed.

End PolicySubqueries.

(** ** The policies in force, table by table *)

Lemma profiles_can_select db uid p :
  can_select (on_profiles policies) db uid p
  = own_profile db uid p || admin_by_function db uid p.
Proof. cbn. now rewrite orb_false_r. Qed.

Lemma profiles_using_update db uid p :
  using_ok (on_profiles policies) UPDATE db uid p = own_profile db uid p.
Proof. cbn. now rewrite orb_false_r. Qed.

Lemma profiles_check_update db uid p :
  check_ok (on_profiles policies) UPDATE db uid p = own_profile db uid p.
Proof. cbn. now rewrite orb_false_r. Qed.

Lemma patients_can_select db uid p :
  can_select (on_patients policies) db uid p
  = patients_at_their_hospital db uid p || patients_manage db uid p.
Proof. cbn. now rewrite orb_false_r. Qed.

Lemma patients_using_all db uid p (c : command) :
  c <> SELECT ->
  using_ok (on_patients policies) c db uid p = patients_manage db uid p.
Proof. destruct c; cbn; try congruence; intros _; now rewrite orb_false_r. Qed.

Lemma referrals_can_select db uid r :
  can_select (on_referrals policies) db uid r
  = referrals_created db uid r
    || (referrals_assigned db uid r
        || (specialist_at_target_hospital db uid r
            || referrals_admin db uid r)).
Proof. cbn. now rewrite orb_false_r. Qed.

Lemma referrals_using_update db uid r :
  using_ok (on_referrals policies) UPDATE db uid r = referrals_update db uid r.
Proof. cbn. now rewrite orb_false_r. Qed.

Lemma referrals_check_update db uid r :
  check_ok (on_referrals policies) UPDATE db uid r = referrals_update db uid r.
Proof. cbn. now rewrite orb_false_r. Qed.

Lemma referrals_check_insert db uid r :
  can_insert (on_referrals policies) db uid r
  = referrals_create [doctor; specialist; admin] db uid r.
Proof. cbn. now rewrite orb_false_r. Qed.

Lemma referrals_using_delete db uid r :
  using_ok (on_referrals policies) DELETE db uid r = false.
Proof. reflexivity. Qed.

(** A row the UPDATE policy of [referrals] admits is a row SELECT shows. *)
Lemma referrals_update_visible db uid r :
  referrals_update db uid r = true ->
  can_select (on_referrals policies) db uid r = true.
Proof.
  rewrite referrals_can_select. unfold referrals_update. intros H.
  apply orb_prop in H. destruct H as [H | H]; rewrite H;
    repeat rewrite orb_true_r; reflexivity.
Qed.

Lemma uuid_eq_true (a : option uuid) (b : uuid) :
  uuid_eq a (Some b) = true <-> a = Some b.
Proof.
  destruct a as [a|]; simpl; [|split; discriminate].
  rewrite N.eqb_eq. split; congruence.
Qed.

Section SignedInCaller.

(** A signed-in caller [c] whose profile row is [prof]. *)
Variable db : database.
Variable c : uuid.
Variable prof : profiles.Row.
Hypothesis Hpk : primary_key profiles.id (public_profiles db).
Hypothesis Hprof : profile_of db c = Some prof.

Lemma patients_at_their_hospital_caller p :
  patients_at_their_hospital db (Some c) p
  = role_in (profiles.role prof) [doctor; specialist; admin]
    && (uuid_eq (profiles.hospital_id prof) (patients.current_hospital_id p)
        || user_role_eqb (profiles.role prof) admin).
Proof.
  unfold patients_at_their_hospital.
  exact (subquery_own_row_and db c prof Hpk Hprof
           (fun q => role_in (profiles.role q) [doctor; specialist; admin])
           (fun q => uuid_eq (profiles.hospital_id q)
                       (patients.current_hospital_id p)
                     || user_role_eqb (profiles.role q) admin)).
Qed.

Lemma patients_manage_caller p :
  patients_manage db (Some c) p
  = role_in (profiles.role prof) [doctor; admin].
Proof.
  unfold patients_manage.
  exact (subquery_own_row db c prof Hpk Hprof
           (fun q => role_in (profiles.role q) [doctor; admin])).
Qed.

Lemma specialist_at_target_hospital_caller r :
  specialist_at_target_hospital db (Some c) r
  = user_role_eqb (profiles.role prof) specialist
    && uuid_eq (profiles.hospital_id prof)
         (Some (referrals.target_hospital_id r)).
Proof.
  unfold specialist_at_target_hospital.
  exact (subquery_own_row_and db c prof Hpk Hprof
           (fun q => user_role_eqb (profiles.role q) specialist)
           (fun q => uuid_eq (profiles.hospital_id q)
                       (Some (referrals.target_hospital_id r)))).
Qed.

Lemma referrals_create_caller roles r :
  referrals_create roles db (Some c) r
  = N.eqb (referrals.referring_doctor_id r) c
    && role_in (profiles.role prof) roles.
Proof.
  unfold referrals_create. f_equal.
  exact (subquery_own_row db c prof Hpk Hprof
           (fun q => role_in (profiles.role q) roles)).
Qed.

(** What the patient policies decide for the caller, by role. *)
Lemma patients_select_by_role p :
  can_select (on_patients policies) db (Some c) p
  = match profiles.role prof with
    | admin | doctor => true
    | specialist =>
        uuid_eq (profiles.hospital_id prof) (patients.current_hospital_id p)
    | patient => false
    end.
Proof.
  rewrite patients_can_select, patients_at_their_hospital_caller,
    patients_manage_caller.
  destruct (profiles.role prof); simpl;
    rewrite ?orb_false_r, ?orb_true_r; reflexivity.
Qed.

Lemma referrals_update_specialist r :
  profiles.role prof = specialist ->
  (referrals_update db (Some c) r = true <->
   referrals.target_specialist_id r = Some c
   \/ profiles.hospital_id prof = Some (referrals.target_hospital_id r)).
Proof.
  intros Hrole. unfold referrals_update, referrals_assigned.
  rewrite specialist_at_target_hospital_caller, Hrole. simpl.
  rewrite orb_true_iff.
  fold (uuid_eq (referrals.target_specialist_id r) (Some c)).
  fold (uuid_eq (profiles.hospital_id prof)
          (Some (referrals.target_hospital_id r))).
  now rewrite !uuid_eq_true.
Qed.

End SignedInCaller.

(** The UPDATE policy of [referrals] reads two columns of the row. *)
Lemma referrals_update_columns db uid r r' :
  referrals.target_specialist_id r' = referrals.target_specialist_id r ->
  referrals.target_hospital_id r' = referrals.target_hospital_id r ->
  referrals_update db uid r' = referrals_update db uid r.
Proof.
  intros E1 E2.
  unfold referrals_update, referrals_assigned, specialist_at_target_hospital.
  now rewrite E1, E2.
Qed.

(** Closes a key or foreign-key constraint over explicit tables. *)
Ltac constraint_by_listing :=
  unfold primary_key, unique, references; simpl;
  first
    [ solve [repeat constructor; simpl; intuition discriminate]
    | solve [repeat (apply Forall_cons || apply Forall_nil); simpl; auto 10] ].

Lemma example_db_constraints : schema_constraints example_db.
Proof. constructor; constraint_by_listing. Qed.

(** ** Claims on the visibility policies *)

(** C2. The claim reads: a caller reads a patient row iff the role is
    doctor, specialist or admin and (the role is admin or the caller's
    hospital is the patient's current hospital).  The policies in force
    decide otherwise for doctors: "Doctors can manage patients" is FOR ALL,
    so it also applies to SELECT, and a caller whose role is doctor reads
    every patient row, whatever the hospitals. *)
Theorem doctor_reads_every_patient (db : database) (c : uuid)
    (prof : profiles.Row) (p : patients.Row) :
  primary_key profiles.id (public_profiles db) ->
  profile_of db c = Some prof ->
  profiles.role prof = doctor ->
  can_select (on_patients policies) db (Some c) p = true.
Proof.
  intros Hpk Hprof Hrole.
  rewrite (patients_select_by_role db c prof Hpk Hprof), Hrole. reflexivity.
Qed.

(** The doctor of hospital 1 reads the patient of hospital 2. *)
Lemma doctor_reads_every_patient_witness :
  profiles.hospital_id (a_profile 10 doctor (Some 1%N)) = Some 1%N
  /\ patients.current_hospital_id
       (a_patient 20 "PAT-2025-000001" (Some 2%N)) = Some 2%N
  /\ can_select (on_patients policies) example_db (Some 10%N)
       (a_patient 20 "PAT-2025-000001" (Some 2%N)) = true.
Proof.
  split; [reflexivity|]. split; [reflexivity|].
  apply (doctor_reads_every_patient example_db 10
           (a_profile 10 doctor (Some 1%N))).
  - constraint_by_listing.
  - reflexivity.
  - reflexivity.
Defined.

(** C4. For a caller whose role is specialist, UPDATE reaches a referral
    iff the caller is its target specialist or the caller's hospital is its
    target hospital; an UPDATE that leaves those two columns alone is then
    admitted, and any UPDATE by another specialist is not. *)
Theorem specialist_updates_referral (db : database) (c : uuid)
    (prof : profiles.Row) (r : referrals.Row) :
  primary_key profiles.id (public_profiles db) ->
  profile_of db c = Some prof ->
  profiles.role prof = specialist ->
  let allowed :=
    referrals.target_specialist_id r = Some c
    \/ profiles.hospital_id prof = Some (referrals.target_hospital_id r) in
  (update_reaches (on_referrals policies) db (Some c) r = true <-> allowed)
  /\ (forall now u,
        referrals.set_target_specialist_id u = None ->
        referrals.set_target_hospital_id u = None ->
        (can_update (on_referrals policies) db (Some c) r
           (updated_row now u r) = true <-> allowed))
  /\ (~ allowed ->
      forall new,
        can_update (on_referrals policies) db (Some c) r new = false).
Proof.
  intros Hpk Hprof Hrole allowed.
  pose proof (referrals_update_specialist db c prof Hpk Hprof r Hrole) as Hup.
  fold allowed in Hup.
  assert (Hreach :
    update_reaches (on_referrals policies) db (Some c) r = true <-> allowed).
  { unfold update_reaches. rewrite referrals_using_update, andb_true_iff.
    rewrite <- Hup. split; [tauto|]. intros H. split; [|exact H].
    now apply referrals_update_visible. }
  split; [exact Hreach|]. split.
  - intros now u Hs Hh. unfold can_update, update_accepts.
    rewrite referrals_check_update.
    assert (E : referrals_update db (Some c) (updated_row now u r)
                = referrals_update db (Some c) r).
    { apply referrals_update_columns; cbn; [rewrite Hs | rewrite Hh];
        reflexivity. }
    rewrite !andb_true_iff, Hreach, E, Hup. split; [tauto|].
    intros H. split; [exact H|]. split; [exact H|].
    apply referrals_update_visible. rewrite E. now apply Hup.
  - intros Hno new. unfold can_update. apply not_true_is_false.
    rewrite andb_true_iff. intros [H _]. apply Hno. now apply Hreach.
Qed.

(** Specialist 12 of hospital 2 and the referral to hospital 2. *)
Lemma specialist_updates_referral_witness :
  update_reaches (on_referrals policies) example_db (Some 12%N)
    (a_referral 30 "REF-2025-000001" 20 10 None 1 2 6) = true.
Proof.
  assert (Hpk : primary_key profiles.id (public_profiles example_db))
    by constraint_by_listing.
  destruct (specialist_updates_referral example_db 12
              (a_profile 12 specialist (Some 2%N))
              (a_referral 30 "REF-2025-000001" 20 10 None 1 2 6)
              Hpk eq_refl eq_refl) as [Hreach _].
  apply Hreach. right. reflexivity.
Defined.

(** C5. An INSERT of a referral row is admitted iff its
    [referring_doctor_id] is the caller's identity and the caller's role is
    doctor, specialist or admin; with another [referring_doctor_id] it is
    rejected, whoever calls. *)
Theorem referral_insert_policy (db : database) (c : uuid)
    (prof : profiles.Row) (new : referrals.Row) :
  primary_key profiles.id (public_profiles db) ->
  profile_of db c = Some prof ->
  (can_insert (on_referrals policies) db (Some c) new = true <->
   referrals.referring_doctor_id new = c
   /\ (profiles.role prof = doctor \/ profiles.role prof = specialist
       \/ profiles.role prof = admin))
  /\ (forall (db' : database) (uid : option uuid),
        uid <> Some (referrals.referring_doctor_id new) ->
        can_insert (on_referrals policies) db' uid new = false).
Proof.
  intros Hpk Hprof. split.
  - rewrite referrals_check_insert,
      (referrals_create_caller db c prof Hpk Hprof).
    rewrite andb_true_iff, N.eqb_eq.
    destruct (profiles.role prof); simpl; intuition discriminate.
  - intros db' uid Hne. rewrite referrals_check_insert.
    unfold referrals_create.
    destruct uid as [u|]; simpl; [|reflexivity].
    destruct (N.eqb (referrals.referring_doctor_id new) u) eqn:E;
      [|reflexivity].
    apply N.eqb_eq in E. congruence.
Qed.

(** Specialist 11 files a referral in their own name. *)
Lemma referral_insert_policy_witness :
  can_insert (on_referrals policies) example_db (Some 11%N)
    (a_referral 31 "REF-2025-000002" 20 11 None 1 2 6) = true.
Proof.
  assert (Hpk : primary_key profiles.id (public_profiles example_db))
    by constraint_by_listing.
  destruct (referral_insert_policy example_db 11
              (a_profile 11 specialist (Some 1%N))
              (a_referral 31 "REF-2025-000002" 20 11 None 1 2 6)
              Hpk eq_refl) as [Hadmit _].
  apply Hadmit. split; [reflexivity|]. right. left. reflexivity.
Defined.

(** C3, as stated: no operation of a caller who is not an admin changes a
    profile's role.  It fails: the patient-role user 14 sets the role of
    their own profile row to admin, and the UPDATE goes through. *)
Lemma self_promotion_admitted :
  option_map profiles.role (profile_of example_db 14) = Some patient
  /\ match update_profile example_db (Some 14%N) 1%Z 14 (only_role admin) with
     | Done db' => option_map profiles.role (profile_of db' 14)
     | Raise _ => None
     end = Some admin.
Proof. split; reflexivity. Qed.

(** C3, amended.  An UPDATE of a profile row is admitted iff the caller's
    identity is the row's [id], before and after; no policy looks at the
    columns that change, so the owner's UPDATE of [role] alone is admitted
    for every new role, and nobody else, admin included, updates the row. *)
Theorem profile_update_owner_only (db : database) (uid : option uuid)
    (old new : profiles.Row) :
  (can_update (on_profiles policies) db uid old new = true <->
   uid = Some (profiles.id old) /\ profiles.id new = profiles.id old)
  /\ (forall now r',
        can_update (on_profiles policies) db (Some (profiles.id old)) old
          (updated_row now (only_role r') old) = true
        /\ profiles.role (updated_row now (only_role r') old) = r').
Proof.
  assert (Hcan : forall u o n,
    can_update (on_profiles policies) db u o n
    = own_profile db u o && own_profile db u n).
  { intros u o n. unfold can_update, update_reaches, update_accepts.
    rewrite !profiles_can_select, profiles_using_update,
      profiles_check_update.
    destruct (own_profile db u o), (own_profile db u n); simpl;
      rewrite ?andb_false_r; reflexivity. }
  split.
  - rewrite Hcan, andb_true_iff. unfold own_profile.
    rewrite !uuid_eq_true.
    split; intros [H1 H2]; split; congruence.
  - intros now r'. split; [|reflexivity].
    rewrite Hcan. unfold own_profile. cbn. now rewrite N.eqb_refl.
Qed.

(** ** Deleting referrals *)

Lemma has_id_filter_other {Row : Type} (pk : Row -> uuid) (t k : uuid)
    (tbl : list Row) :
  has_id pk (filter (fun r => negb (N.eqb (pk r) t)) tbl) k
  = has_id pk tbl k && negb (N.eqb k t).
Proof.
  unfold has_id. induction tbl as [|x tbl IH]; simpl; [reflexivity|].
  destruct (N.eqb (pk x) t) eqn:E; simpl; rewrite IH.
  - destruct (N.eqb (pk x) k) eqn:F; simpl; [|reflexivity].
    apply N.eqb_eq in E, F. subst.
    rewrite N.eqb_refl, andb_false_r. reflexivity.
  - destruct (N.eqb (pk x) k) eqn:F; simpl; [|reflexivity].
    apply N.eqb_eq in F. subst. now rewrite E.
Qed.

(** C9, as stated: a referral row is never removable through the
    policy-enforced interface.  It fails: doctor 10 deletes patient 20, the
    patient policies admit it, and the referral of patient 20 goes with the
    patient. *)
Lemma referral_removed_with_patient :
  In (a_referral 30 "REF-2025-000001" 20 10 None 1 2 6)
    (public_referrals example_db)
  /\ public_patients (delete_patient example_db (Some 10%N) 20) = []
  /\ public_referrals (delete_patient example_db (Some 10%N) 20) = [].
Proof. split; [left; reflexivity|]. split; reflexivity. Qed.

(** C9, amended.  No policy of [referrals] admits DELETE, for any caller:
    a DELETE on [referrals] removes nothing.  A referral row still goes
    when its patient row is deleted (ON DELETE CASCADE), which the patient
    policies admit for a doctor or an admin; the other referrals stay. *)
Theorem referral_delete_only_by_cascade (db : database) (uid : option uuid)
    (target : uuid) :
  (forall r, can_delete (on_referrals policies) db uid r = false)
  /\ delete_referral db uid target = db
  /\ (forall c prof p,
        uid = Some c ->
        primary_key profiles.id (public_profiles db) ->
        profile_of db c = Some prof ->
        profiles.role prof = doctor \/ profiles.role prof = admin ->
        In p (public_patients db) ->
        patients.id p = target ->
        forall r,
          In r (public_referrals (delete_patient db uid target)) <->
          In r (public_referrals db) /\ referrals.patient_id r <> target).
Proof.
  assert (Hno : forall r, can_delete (on_referrals policies) db uid r = false).
  { intros r. unfold can_delete. rewrite referrals_using_delete.
    apply andb_false_r. }
  split; [exact Hno|]. split.
  - unfold delete_referral, delete_where_id.
    replace (filter _ (public_referrals db)) with (public_referrals db).
    + destruct db; reflexivity.
    + symmetry. apply forallb_filter_id. apply forallb_forall.
      intros r _. rewrite Hno, andb_false_r. reflexivity.
  - intros c prof p -> Hpk Hprof Hrole Hin Hid r.
    assert (Hdel : forall q,
      can_delete (on_patients policies) db (Some c) q = true).
    { intros q. unfold can_delete.
      rewrite (patients_select_by_role db c prof Hpk Hprof).
      rewrite patients_using_all by discriminate.
      rewrite (patients_manage_caller db c prof Hpk Hprof).
      destruct Hrole as [-> | ->]; reflexivity. }
    unfold delete_patient, delete_where_id. cbn [public_referrals].
    rewrite filter_In.
    rewrite (filter_ext _ (fun q => negb (N.eqb (patients.id q) target)))
      by (intros q; now rewrite Hdel, andb_true_r).
    rewrite has_id_filter_other.
    assert (Hhas : has_id patients.id (public_patients db) target = true).
    { unfold has_id. apply existsb_exists. exists p. split; [exact Hin|].
      now apply N.eqb_eq. }
    split.
    + intros [Hr Hkeep]. split; [exact Hr|]. intros E.
      rewrite E, Hhas, N.eqb_refl in Hkeep. discriminate.
    + intros [Hr Hne]. split; [exact Hr|].
      apply N.eqb_neq in Hne. rewrite Hne, andb_true_r.
      now destruct (has_id patients.id (public_patients db)
                      (referrals.patient_id r)).
Qed.

(** Doctor 10 deletes patient 20: the referral of patient 20 is not left. *)
Lemma referral_delete_only_by_cascade_witness :
  ~ In (a_referral 30 "REF-2025-000001" 20 10 None 1 2 6)
      (public_referrals (delete_patient example_db (Some 10%N) 20)).
Proof.
  assert (Hpk : primary_key profiles.id (public_profiles example_db))
    by constraint_by_listing.
  destruct (referral_delete_only_by_cascade example_db (Some 10%N) 20)
    as [_ [_ Hcascade]].
  intros Hin.
  apply (Hcascade 10%N (a_profile 10 doctor (Some 1%N))
           (a_patient 20 "PAT-2025-000001" (Some 2%N))
           eq_refl Hpk eq_refl (or_introl eq_refl)
           (or_introl eq_refl) eq_refl) in Hin.
  destruct Hin as [_ Hne]. apply Hne. reflexivity.
Defined.

(** ** The identifier generators *)

Local Open Scope Z_scope.

(** Rounding moves a value below 2^73 by at most half a unit in the last
    place, 2^19. *)
Lemma float8_round_bounds (m : Z) :
  0 <= m < 2 ^ 73 -> 0 <= float8_round m <= m + 2 ^ 19.
Proof.
  intros [Hlo Hhi]. unfold float8_round.
  destruct (Z.log2 m + 1 <=? 53) eqn:Hlen; [lia|].
  apply Z.leb_gt in Hlen.
  assert (Hpos : 0 < m).
  { destruct (Z.eq_dec m 0) as [->|]; [simpl in Hlen; lia | lia]. }
  assert (Hlog : Z.log2 m < 73) by (apply Z.log2_lt_pow2; lia).
  set (s := Z.log2 m + 1 - 53) in *.
  assert (Hs : 1 <= s <= 20) by (unfold s; lia).
  rewrite !Z.shiftr_div_pow2, !Z.shiftl_mul_pow2 by lia.
  rewrite Z.mul_1_l.
  assert (Hpow : 2 ^ s = 2 * 2 ^ (s - 1)).
  { replace s with (Z.succ (s - 1)) at 1 by lia.
    rewrite Z.pow_succ_r by lia. reflexivity. }
  assert (Hhalf : 0 < 2 ^ (s - 1) <= 2 ^ 19).
  { split; [apply Z.pow_pos_nonneg; lia|].
    apply Z.pow_le_mono_r; lia. }
  pose proof (Z.div_mod m (2 ^ s) ltac:(lia)) as Hdm.
  pose proof (Z.mod_pos_bound m (2 ^ s) ltac:(lia)) as Hmod.
  assert (Hq : 0 <= m / 2 ^ s) by (apply Z.div_pos; lia).
  set (q := m / 2 ^ s) in *. set (h := 2 ^ (s - 1)) in *.
  set (p := 2 ^ s) in *.
  destruct ((h <? m - q * p) || ((m - q * p =? h) && Z.odd q)) eqn:Hup.
  - assert (h <= m - q * p).
    { apply orb_prop in Hup. destruct Hup as [Hup | Hup].
      - apply Z.ltb_lt in Hup. lia.
      - apply andb_prop in Hup. destruct Hup as [Hup _].
        apply Z.eqb_eq in Hup. lia. }
    nia.
  - nia.
Qed.

(** The suffix drawn by FLOOR(RANDOM() * 999999) is one of 0 .. 999998. *)
Lemma random_suffix_range (k : Z) : 0 <= random_suffix k <= 999998.
Proof.
  unfold random_suffix, RANDOM.
  pose proof (Z.mod_pos_bound k (2 ^ 53) ltac:(lia)) as Hk.
  set (x := k mod 2 ^ 53) in *.
  pose proof (float8_round_bounds (x * 999999) ltac:(lia)) as Hr.
  rewrite Z.shiftr_div_pow2 by lia.
  split.
  - apply Z.div_pos; lia.
  - apply Z.lt_succ_r. apply Z.div_lt_upper_bound; lia.
Qed.

Local Close Scope Z_scope.

Lemma all_digits_app (s t : string) :
  all_digits (s ++ t) = all_digits s && all_digits t.
Proof.
  induction s as [|c s IH]; simpl; [reflexivity|].
  now rewrite IH, andb_assoc.
Qed.

Lemma length_app (s t : string) :
  String.length (s ++ t) = String.length s + String.length t.
Proof. induction s as [|c s IH]; simpl; [reflexivity|]. now rewrite IH. Qed.

Lemma all_digits_zeros (n : nat) : all_digits (zeros n) = true.
Proof.
  unfold zeros. induction n as [|n IH]; simpl; [reflexivity|]. exact IH.
Qed.

Lemma length_zeros (n : nat) : String.length (zeros n) = n.
Proof.
  unfold zeros. induction n as [|n IH]; simpl; [reflexivity|].
  now rewrite IH.
Qed.

Lemma all_digits_decimal (d : Decimal.uint) :
  all_digits (NilEmpty.string_of_uint d) = true.
Proof. induction d; simpl; auto. Qed.

Lemma all_digits_prefix (n : nat) (s : string) :
  all_digits s = true -> all_digits (substring 0 n s) = true.
Proof.
  revert s. induction n as [|n IH]; intros [|c s]; simpl; auto.
  intros H. apply andb_prop in H. destruct H as [Hc Hs].
  now rewrite Hc, IH.
Qed.

Lemma length_prefix (n : nat) (s : string) :
  n <= String.length s -> String.length (substring 0 n s) = n.
Proof.
  revert s. induction n as [|n IH]; intros [|c s]; simpl; auto; try lia.
  intros H. rewrite IH; lia.
Qed.

(** LPAD(_, 6, '0') of a decimal numeral is six decimal digits. *)
Lemma LPAD_six_digits (n : Z) :
  all_digits (LPAD (float8_to_text n) 6) = true
  /\ String.length (LPAD (float8_to_text n) 6) = 6.
Proof.
  unfold LPAD, float8_to_text.
  set (s := NilEmpty.string_of_uint _).
  assert (Hs : all_digits s = true) by apply all_digits_decimal.
  destruct (Nat.leb (String.length s) 6) eqn:E.
  - apply Nat.leb_le in E. split.
    + now rewrite all_digits_app, all_digits_zeros, Hs.
    + rewrite length_app, length_zeros. lia.
  - apply Nat.leb_gt in E. split.
    + now apply all_digits_prefix.
    + apply length_prefix. lia.
Qed.

(** TO_CHAR(_, 'YYYY') of a year up to 9999 is four decimal digits. *)
Lemma TO_CHAR_YYYY_four_digits (year : N) :
  (year <= 9999)%N ->
  all_digits (TO_CHAR_YYYY year) = true
  /\ String.length (TO_CHAR_YYYY year) = 4.
Proof.
  intros Hy.
  assert (Hall : forallb (fun y =>
            all_digits (TO_CHAR_YYYY y)
            && Nat.eqb (String.length (TO_CHAR_YYYY y)) 4)
            four_digit_years = true) by (vm_compute; reflexivity).
  rewrite forallb_forall in Hall.
  specialize (Hall year). rewrite andb_true_iff, Nat.eqb_eq in Hall.
  apply Hall. unfold four_digit_years.
  rewrite <- (N2Nat.id year). apply in_map. apply in_seq. lia.
Qed.

Lemma length_4_inv (s : string) :
  String.length s = 4 ->
  exists a b c d, s = String a (String b (String c (String d ""))).
Proof.
  destruct s as [|a [|b [|c [|d [|e s]]]]]; simpl; try discriminate.
  intros _. now exists a, b, c, d.
Qed.

Lemma length_6_inv (s : string) :
  String.length s = 6 ->
  exists a b c d e f,
    s = String a (String b (String c (String d (String e (String f ""))))).
Proof.
  destruct s as [|a [|b [|c [|d [|e [|f [|g s]]]]]]]; simpl;
    try discriminate.
  intros _. now exists a, b, c, d, e, f.
Qed.

(** A candidate of either generator has the format when the year has at
    most four digits. *)
Lemma candidate_format (prefix : text) (year : N) (k : Z) :
  prefix = "PAT-"%string \/ prefix = "REF-"%string ->
  (year <= 9999)%N ->
  matches_id_format (candidate prefix year k) = true.
Proof.
  intros Hp Hy. unfold candidate.
  destruct (TO_CHAR_YYYY_four_digits year Hy) as [Hyd Hyl].
  destruct (LPAD_six_digits (random_suffix k)) as [Hsd Hsl].
  destruct (length_4_inv _ Hyl) as (y1 & y2 & y3 & y4 & Ey).
  destruct (length_6_inv _ Hsl) as (s1 & s2 & s3 & s4 & s5 & s6 & Es).
  rewrite Ey in *. rewrite Es in *. clear Ey Es.
  unfold matches_id_format.
  destruct Hp as [-> | ->]; cbn in *; rewrite Hyd, Hsd; reflexivity.
Qed.

Section GenerateLoop.

Variable mk : Z -> text.
Variable taken : text -> bool.

(** What the loop returns is the candidate of one of its draws, and the
    table does not hold it. *)
Lemma generate_loop_some (draws : list Z) (new_id : text) :
  generate_loop mk taken draws = Some new_id ->
  (exists k, In k draws /\ new_id = mk k) /\ taken new_id = false.
Proof.
  induction draws as [|k later IH]; simpl; [discriminate|].
  destruct (taken (mk k)) eqn:E; simpl.
  - intros H. destruct (IH H) as [[k' [Hin Hk']] Hfree].
    split; [|exact Hfree]. exists k'. auto.
  - intros [= <-]. split; [|exact E]. exists k. auto.
Qed.

(** The loop returns as soon as some draw gives a free candidate. *)
Lemma generate_loop_returns (draws : list Z) :
  (exists k, In k draws /\ taken (mk k) = false) ->
  exists new_id, generate_loop mk taken draws = Some new_id.
Proof.
  induction draws as [|k later IH]; simpl.
  - intros [k [[] _]].
  - destruct (taken (mk k)) eqn:E; simpl; [|eauto].
    intros [k' [[-> | Hin] Hfree]]; [congruence|]. eauto.
Qed.

End GenerateLoop.

(** C7. Every identifier a generator returns has the form PAT-YYYY-NNNNNN
    or REF-YYYY-NNNNNN, with the digits of the current year and six
    further decimal digits, as long as the year has four digits; and the
    generator does return one once a draw gives a candidate the table does
    not hold. *)
Theorem generated_id_format (year : N) (draws : list Z)
    (refs : list referrals.Row) (pats : list patients.Row) :
  (1 <= year <= 9999)%N ->
  (forall new_id,
     generate_referral_id year refs draws = Some new_id ->
     matches_id_format new_id = true
     /\ exists k, new_id = ("REF-" ++ TO_CHAR_YYYY year ++ "-"
                            ++ LPAD (float8_to_text (random_suffix k)) 6)%string)
  /\ (forall new_id,
        generate_patient_id year pats draws = Some new_id ->
        matches_id_format new_id = true
        /\ exists k, new_id = ("PAT-" ++ TO_CHAR_YYYY year ++ "-"
                               ++ LPAD (float8_to_text (random_suffix k)) 6)%string)
  /\ ((exists k, In k draws
         /\ ~ In (candidate "REF-" year k) (map referrals.referral_id refs)) ->
      exists new_id, generate_referral_id year refs draws = Some new_id)
  /\ ((exists k, In k draws
         /\ ~ In (candidate "PAT-" year k) (map patients.patient_id pats)) ->
      exists new_id, generate_patient_id year pats draws = Some new_id).
Proof.
  intros [_ Hy].
  assert (Hfree : forall (Row : Type) (col : Row -> text) (tbl : list Row) s,
    ~ In s (map col tbl) ->
    existsb (fun r => String.eqb (col r) s) tbl = false).
  { intros Row col tbl s Hs. apply not_true_is_false. intros Hex.
    apply existsb_exists in Hex. destruct Hex as [r [Hr E]].
    apply String.eqb_eq in E. apply Hs. rewrite <- E. now apply in_map. }
  repeat split.
  - apply generate_loop_some in H. destruct H as [[k [_ ->]] _].
    apply candidate_format; auto.
  - apply generate_loop_some in H. destruct H as [[k [_ ->]] _].
    exists k. reflexivity.
  - apply generate_loop_some in H. destruct H as [[k [_ ->]] _].
    apply candidate_format; auto.
  - apply generate_loop_some in H. destruct H as [[k [_ ->]] _].
    exists k. reflexivity.
  - intros [k [Hin Hk]]. apply generate_loop_returns.
    exists k. split; [exact Hin|]. now apply Hfree.
  - intros [k [Hin Hk]]. apply generate_loop_returns.
    exists k. split; [exact Hin|]. now apply Hfree.
Qed.

(** In 2025, with PAT-2025-000000 taken, the second draw is returned. *)
Lemma generated_id_format_witness :
  generate_patient_id 2025 [a_patient 20 "PAT-2025-000000" None]
    [0%Z; (2 ^ 52)%Z] = Some "PAT-2025-499999"%string
  /\ matches_id_format "PAT-2025-499999" = true.
Proof.
  split; [reflexivity|].
  assert (Hy : (1 <= 2025 <= 9999)%N) by (split; discriminate).
  destruct (generated_id_format 2025 [0%Z; (2 ^ 52)%Z] []
              [a_patient 20 "PAT-2025-000000" None] Hy)
    as [_ [Hpat _]].
  apply (Hpat "PAT-2025-499999"%string). reflexivity.
Defined.

(** Reading a numeral: every further digit can only make it larger. *)
Lemma of_uint_acc_ge (d : Decimal.uint) (acc : positive) :
  (acc <= Pos.of_uint_acc d acc)%positive.
Proof.
  revert acc. induction d; intros acc; cbn [Pos.of_uint_acc];
    try (eapply Pos.le_trans; [|apply IHd]); lia.
Qed.

(** A numeral that prints with 999999 in front is at least 999999. *)
Lemma text_999999_prefix (n : N) (rest : string) :
  NilEmpty.string_of_uint (N.to_uint n) = ("999999" ++ rest)%string ->
  (999999 <= n)%N.
Proof.
  intros E.
  pose proof (NilEmpty.usu (N.to_uint n)) as Hu. rewrite E in Hu.
  simpl in Hu.
  destruct (NilEmpty.uint_of_string rest) as [d|]; simpl in Hu;
    [|discriminate].
  injection Hu as Hu.
  rewrite <- (DecimalN.Unsigned.of_to n), <- Hu. simpl.
  pose proof (of_uint_acc_ge d 999999) as H. lia.
Qed.

(** C8. The claim counts 1,000,000 suffixes, 000000 to 999999.  The step
    FLOOR(RANDOM() * 999999) of both generators yields 0 .. 999998 only:
    RANDOM() is below 1, so the product is below 999999, and the suffix
    999999 is never drawn. *)
Theorem suffix_999999_never_drawn (k : Z) :
  (0 <= random_suffix k <= 999998)%Z
  /\ LPAD (float8_to_text (random_suffix k)) 6 <> "999999"%string.
Proof.
  pose proof (random_suffix_range k) as Hr. split; [exact Hr|].
  unfold float8_to_text, LPAD. set (n := Z.to_N (random_suffix k)).
  assert (Hn : (n <= 999998)%N) by (unfold n; lia).
  set (s := NilEmpty.string_of_uint (N.to_uint n)).
  assert (Hpre : forall rest, s <> ("999999" ++ rest)%string).
  { intros rest E. apply text_999999_prefix in E. lia. }
  destruct (Nat.leb (String.length s) 6) eqn:E.
  - destruct (6 - String.length s) as [|j]; [|discriminate].
    exact (Hpre ""%string).
  - apply Nat.leb_gt in E.
    destruct s as [|c1 [|c2 [|c3 [|c4 [|c5 [|c6 rest]]]]]];
      simpl in E; try lia.
    simpl. replace (substring 0 0 rest) with ""%string
      by (destruct rest; reflexivity).
    intros [= -> -> -> -> -> ->].
    exact (Hpre rest eq_refl).
Qed.

(** ** UPDATE statements and the updated_at trigger *)

Lemma Forall2_weaken {A B : Type} (R S : A -> B -> Prop)
    (l : list A) (l' : list B) :
  (forall a b, R a b -> S a b) -> Forall2 R l l' -> Forall2 S l l'.
Proof. intros HRS. induction 1; constructor; auto. Qed.

Section UpdateScan.

Context {Update Row : Type} `{SetClause Update Row} `{UpdatedAt Row}.
Variable pk : Row -> uuid.
Variable pols : list (policy Row).
Variable conflict : list Row -> Row -> bool.
Variable fk_missing : Row -> bool.
Variable pinned : Row -> Row -> bool.
Variable db : database.
Variable uid : option uuid.
Variable now : timestamptz.
Variable target : uuid.
Variable u : Update.

Lemma update_rows_steps (after before tbl' : list Row) :
  update_rows pk pols conflict fk_missing pinned db uid now target u
    before after = Done tbl' ->
  exists after',
    tbl' = before ++ after'
    /\ Forall2 (row_step pk pols db uid now target u) after after'.
Proof.
  revert before. induction after as [|old later IH]; intros before; simpl.
  - intros [= <-]. exists []. split; [now rewrite app_nil_r|constructor].
  - destruct (N.eqb (pk old) target && update_reaches pols db uid old)
      eqn:Hhit.
    + destruct (update_accepts pols db uid (updated_row now u old))
        eqn:Hacc; simpl; [|discriminate].
      destruct (conflict (before ++ later) (updated_row now u old));
        [discriminate|].
      destruct (fk_missing (updated_row now u old)
                || pinned old (updated_row now u old)); [discriminate|].
      intros Hrun. apply IH in Hrun. destruct Hrun as [after' [-> Hall]].
      exists (updated_row now u old :: after').
      split; [now rewrite <- app_assoc|].
      constructor; [|exact Hall]. right.
      apply andb_prop in Hhit. destruct Hhit as [Hid Hreach].
      apply N.eqb_eq in Hid. auto.
    + intros Hrun. apply IH in Hrun. destruct Hrun as [after' [-> Hall]].
      exists (old :: after'). split; [now rewrite <- app_assoc|].
      constructor; [now left|exact Hall].
Qed.

Lemma update_where_id_steps (tbl tbl' : list Row) :
  update_where_id pk pols conflict fk_missing pinned db uid now target u
    tbl = Done tbl' ->
  Forall2 (row_step pk pols db uid now target u) tbl tbl'.
Proof.
  unfold update_where_id. intros Hrun.
  apply update_rows_steps in Hrun. destruct Hrun as [after' [-> Hall]].
  exact Hall.
Qed.

(** A UNIQUE column stays unique: the statement fails on a collision. *)
Lemma update_rows_unique (col : Row -> text) :
  (forall others NEW,
     conflict others NEW = false -> ~ In (col NEW) (map col others)) ->
  forall after before tbl',
    unique col (before ++ after) ->
    update_rows pk pols conflict fk_missing pinned db uid now target u
      before after = Done tbl' ->
    unique col tbl'.
Proof.
  intros Hconf. unfold unique.
  induction after as [|old later IH]; intros before tbl'; simpl.
  - rewrite app_nil_r. now intros Hnd [= <-].
  - intros Hnd.
    assert (Hrest : NoDup (map col (before ++ later))).
    { rewrite map_app in *. simpl in Hnd.
      now apply NoDup_remove_1 in Hnd. }
    destruct (N.eqb (pk old) target && update_reaches pols db uid old).
    + destruct (update_accepts pols db uid (updated_row now u old));
        simpl; [|discriminate].
      destruct (conflict (before ++ later) (updated_row now u old))
        eqn:Hc; [discriminate|].
      destruct (fk_missing (updated_row now u old)
                || pinned old (updated_row now u old)); [discriminate|].
      apply IH. rewrite <- app_assoc. simpl.
      apply Hconf in Hc. rewrite map_app in *. simpl.
      apply NoDup_Add with (a := col (updated_row now u old))
                           (l := map col before ++ map col later);
        [apply Add_app|]. auto.
    + apply IH. now rewrite <- app_assoc.
Qed.

End UpdateScan.



(** ** The public read gateway *)

Section Joins.

Context {A B : Type}.
Variable t : list B.

Lemma filter_left_rows {C : Type} (P : A -> bool) (a : A)
    (rows : list (A * C)) :
  Forall (fun ac => fst ac = a) rows ->
  filter (fun ac => P (fst ac)) rows = if P a then rows else [].
Proof.
  induction 1 as [|ac rows Hac _ IH]; simpl; [now destruct (P a)|].
  rewrite IH, Hac. now destruct (P a).
Qed.

Lemma filter_flat_map {C : Type} (P : A -> bool)
    (f : A -> list (A * C)) (l : list A) :
  (forall a, Forall (fun ac => fst ac = a) (f a)) ->
  filter (fun ac => P (fst ac)) (flat_map f l) = flat_map f (filter P l).
Proof.
  intros Hf. induction l as [|a l IH]; [reflexivity|].
  cbn [flat_map filter].
  rewrite filter_app, IH, (filter_left_rows P a (f a) (Hf a)).
  destruct (P a); reflexivity.
Qed.

Lemma flat_map_on_left {C : Type} (g : A -> A)
    (f : A -> list (A * C)) (l : list A) :
  (forall a, f (g a) = map (on_left g) (f a)) ->
  flat_map f (map g l) = map (on_left g) (flat_map f l).
Proof.
  intros Hf. induction l as [|a l IH]; [reflexivity|].
  cbn [flat_map map]. now rewrite map_app, IH, Hf.
Qed.

(** A WHERE on the columns of the left table can be applied to the left
    table before the join. *)
Lemma filter_JOIN (P : A -> bool) (on : A -> B -> bool) (l : list A) :
  filter (fun ab => P (fst ab)) (JOIN l t on) = JOIN (filter P l) t on.
Proof.
  apply filter_flat_map. intros a. apply Forall_forall.
  intros ab Hab. apply in_map_iff in Hab. now destruct Hab as [b [<- _]].
Qed.

Lemma filter_LEFT_JOIN (P : A -> bool) (on : A -> B -> bool) (l : list A) :
  filter (fun ab => P (fst ab)) (LEFT_JOIN l t on)
  = LEFT_JOIN (filter P l) t on.
Proof.
  apply filter_flat_map. intros a. apply Forall_forall. intros ab Hab.
  destruct (filter (on a) t).
  - destruct Hab as [<- | []]. reflexivity.
  - apply in_map_iff in Hab. now destruct Hab as [b' [<- _]].
Qed.

(** Rewriting the left rows by [g] goes through a join whose condition
    does not see the difference. *)
Lemma JOIN_map (g : A -> A) (on : A -> B -> bool) (l : list A) :
  (forall a b, on (g a) b = on a b) ->
  JOIN (map g l) t on = map (on_left g) (JOIN l t on).
Proof.
  intros Hon. apply flat_map_on_left. intros a.
  now rewrite map_map, (filter_ext _ _ (Hon a)).
Qed.

Lemma LEFT_JOIN_map (g : A -> A) (on : A -> B -> bool) (l : list A) :
  (forall a b, on (g a) b = on a b) ->
  LEFT_JOIN (map g l) t on = map (on_left g) (LEFT_JOIN l t on).
Proof.
  intros Hon. apply flat_map_on_left. intros a.
  rewrite (filter_ext _ _ (Hon a)).
  destruct (filter (on a) t); [reflexivity|]. now rewrite map_map.
Qed.

Lemma filter_absent_key (pk : B -> uuid) (k : uuid) (l : list B) :
  ~ In k (map pk l) -> filter (fun b => N.eqb (pk b) k) l = [].
Proof.
  induction l as [|b l IH]; simpl; [reflexivity|]. intros Hk.
  destruct (N.eqb (pk b) k) eqn:E.
  - apply N.eqb_eq in E. tauto.
  - apply IH. tauto.
Qed.

(** Under a primary key, the rows with a given key are the one row
    [find] returns, if any. *)
Lemma filter_by_key (pk : B -> uuid) (k : uuid) :
  primary_key pk t ->
  filter (fun b => N.eqb (pk b) k) t
  = match find (fun b => N.eqb (pk b) k) t with
    | Some b => [b]
    | None => []
    end.
Proof.
  unfold primary_key. induction t as [|b bs IH]; simpl; [reflexivity|].
  intros Hnd. inversion Hnd as [|? ? Hnotin Hnd']; subst.
  destruct (N.eqb (pk b) k) eqn:E; [|now apply IH].
  f_equal. apply N.eqb_eq in E. apply filter_absent_key. now rewrite <- E.
Qed.

Lemma find_by_key (pk : B -> uuid) (k : uuid) :
  references pk t k ->
  exists b, find (fun b => N.eqb (pk b) k) t = Some b
            /\ In b t /\ pk b = k.
Proof.
  unfold references. intros Hin. apply in_map_iff in Hin.
  destruct Hin as [b [Hk Hb]].
  destruct (find (fun b => N.eqb (pk b) k) t) as [b'|] eqn:E.
  - exists b'. apply find_some in E. destruct E as [Hin' E].
    apply N.eqb_eq in E. auto.
  - exfalso. apply (find_none _ _ E) in Hb.
    apply N.eqb_neq in Hb. congruence.
Qed.

Lemma JOIN_single (a : A) (b : B) (on : A -> B -> bool) :
  filter (on a) t = [b] -> JOIN [a] t on = [(a, b)].
Proof. intros E. unfold JOIN. simpl. now rewrite E. Qed.

Lemma LEFT_JOIN_single (a : A) (o : option B) (on : A -> B -> bool) :
  filter (on a) t = match o with Some b => [b] | None => [] end ->
  LEFT_JOIN [a] t on = [(a, o)].
Proof. intros E. unfold LEFT_JOIN. simpl. rewrite E. now destruct o. Qed.

End Joins.

(** The WHERE clause of the gateway reads the referral only, so it can be
    applied to [referrals] before the joins. *)
Lemma from_clause_where (db : database) (P : referrals.Row -> bool) :
  filter (fun '(r, _, _, _, _, _, _) => P r) (from_clause db)
  = from_clause (set_public_referrals db (filter P (public_referrals db))).
Proof.
  unfold from_clause. cbv zeta. cbn [set_public_referrals public_referrals
    public_patients public_profiles public_hospitals public_departments].
  rewrite (filter_ext _
    (fun ab => (fun '(r, _, _, _, _, _) => P r) (fst ab)))
    by (intros [[[[[[r p] d] s] oh] th] td]; reflexivity).
  rewrite (filter_JOIN _ (fun '(r, _, _, _, _, _) => P r)). f_equal.
  rewrite (filter_ext _
    (fun ab => (fun '(r, _, _, _, _) => P r) (fst ab)))
    by (intros [[[[[r p] d] s] oh] th]; reflexivity).
  rewrite (filter_JOIN _ (fun '(r, _, _, _, _) => P r)). f_equal.
  rewrite (filter_ext _
    (fun ab => (fun '(r, _, _, _) => P r) (fst ab)))
    by (intros [[[[r p] d] s] oh]; reflexivity).
  rewrite (filter_JOIN _ (fun '(r, _, _, _) => P r)). f_equal.
  rewrite (filter_ext _
    (fun ab => (fun '(r, _, _) => P r) (fst ab)))
    by (intros [[[r p] d] s]; reflexivity).
  rewrite (filter_LEFT_JOIN _ (fun '(r, _, _) => P r)). f_equal.
  rewrite (filter_ext _
    (fun ab => (fun '(r, _) => P r) (fst ab)))
    by (intros [[r p] d]; reflexivity).
  rewrite (filter_LEFT_JOIN _ (fun '(r, _) => P r)). f_equal.
  rewrite (filter_ext _ (fun ab => P (fst ab)))
    by (intros [r p]; reflexivity).
  now rewrite filter_JOIN.
Qed.

Lemma filter_none {A : Type} (f : A -> bool) (l : list A) :
  (forall x, In x l -> f x = false) -> filter f l = [].
Proof.
  induction l as [|x l IH]; simpl; [reflexivity|]. intros H.
  rewrite (H x (or_introl eq_refl)). apply IH. auto.
Qed.

Lemma filter_unique {Row : Type} (col : Row -> text) (k : text)
    (tbl : list Row) (r : Row) :
  unique col tbl -> In r tbl -> col r = k ->
  filter (fun x => String.eqb (col x) k) tbl = [r].
Proof.
  unfold unique. intros Hnd Hin <-.
  induction tbl as [|x tbl IH]; simpl in *; [contradiction|].
  inversion Hnd as [|? ? Hnotin Hnd']; subst.
  destruct Hin as [-> | Hin].
  - rewrite String.eqb_refl. f_equal. apply filter_none.
    intros y Hy. apply String.eqb_neq. intros E.
    apply Hnotin. rewrite <- E. now apply in_map.
  - destruct (String.eqb (col x) (col r)) eqn:E; [|now apply IH].
    apply String.eqb_eq in E. exfalso. apply Hnotin. rewrite E.
    now apply in_map.
Qed.

(** The specialist a referral names, if it names one and the row exists. *)
Lemma specialist_partner (db : database) (r : referrals.Row) :
  primary_key profiles.id (public_profiles db) ->
  filter (fun s => uuid_eq (Some (profiles.id s))
                     (referrals.target_specialist_id r))
    (public_profiles db)
  = match referrals.target_specialist_id r with
    | Some k =>
        match profile_of db k with
        | Some s => [s]
        | None => []
        end
    | None => []
    end.
Proof.
  intros Hpk. destruct (referrals.target_specialist_id r) as [k|]; simpl.
  - now apply filter_by_key.
  - now apply filter_none.
Qed.

(** The FROM clause over one referral whose patient, hospitals and
    department exist: exactly one joined row. *)
Lemma from_clause_single (db : database) (r : referrals.Row)
    (p : patients.Row) (oh th : hospitals.Row) (td : departments.Row) :
  schema_constraints db ->
  find (fun x => N.eqb (patients.id x) (referrals.patient_id r))
    (public_patients db) = Some p ->
  find (fun x => N.eqb (hospitals.id x) (referrals.origin_hospital_id r))
    (public_hospitals db) = Some oh ->
  find (fun x => N.eqb (hospitals.id x) (referrals.target_hospital_id r))
    (public_hospitals db) = Some th ->
  find (fun x => N.eqb (departments.id x) (referrals.target_department_id r))
    (public_departments db) = Some td ->
  from_clause (set_public_referrals db [r])
  = [(r, p,
      profile_of db (referrals.referring_doctor_id r),
      match referrals.target_specialist_id r with
      | Some k => profile_of db k
      | None => None
      end,
      oh, th, td)].
Proof.
  intros C Hp Hoh Hth Htd.
  unfold from_clause. cbv zeta.
  cbn [set_public_referrals public_referrals public_patients
       public_profiles public_hospitals public_departments].
  rewrite (JOIN_single (public_patients db) r p)
    by (rewrite (filter_by_key _ patients.id _ (patients_pkey db C)), Hp;
        reflexivity).
  rewrite (LEFT_JOIN_single (public_profiles db) (r, p)
             (profile_of db (referrals.referring_doctor_id r)))
    by (cbn beta iota;
        now rewrite (filter_by_key _ profiles.id _ (profiles_pkey db C))).
  rewrite (LEFT_JOIN_single (public_profiles db)
             (r, p, profile_of db (referrals.referring_doctor_id r))
             match referrals.target_specialist_id r with
             | Some k => profile_of db k
             | None => None
             end)
    by (cbn beta iota;
        rewrite (specialist_partner db r (profiles_pkey db C));
        now destruct (referrals.target_specialist_id r)).
  rewrite (JOIN_single (public_hospitals db) _ oh)
    by (cbn beta iota;
        rewrite (filter_by_key _ hospitals.id _ (hospitals_pkey db C)), Hoh;
        reflexivity).
  rewrite (JOIN_single (public_hospitals db) _ th)
    by (cbn beta iota;
        rewrite (filter_by_key _ hospitals.id _ (hospitals_pkey db C)), Hth;
        reflexivity).
  rewrite (JOIN_single (public_departments db) _ td)
    by (cbn beta iota;
        rewrite (filter_by_key _ departments.id _ (departments_pkey db C)),
          Htd; reflexivity).
  reflexivity.
Qed.

Lemma filter_map_comm {A B : Type} (g : A -> B) (P : B -> bool)
    (l : list A) :
  filter P (map g l) = map g (filter (fun a => P (g a)) l).
Proof.
  induction l as [|a l IH]; simpl; [reflexivity|].
  rewrite IH. now destruct (P (g a)).
Qed.

(** Rewriting [specialist_notes] in the table rewrites it in the joined
    rows and changes nothing else. *)
Lemma from_clause_rewrite (f : referrals.Row -> option text)
    (db : database) :
  let g := fun r => referrals.with_specialist_notes (f r) r in
  from_clause (rewrite_specialist_notes f db)
  = map (on_left (on_left (on_left (on_left (on_left (on_left g))))))
      (from_clause db).
Proof.
  intros g. unfold from_clause, rewrite_specialist_notes. cbv zeta.
  cbn [set_public_referrals public_referrals public_patients
       public_profiles public_hospitals public_departments].
  fold g.
  rewrite JOIN_map by (intros r p; reflexivity).
  rewrite LEFT_JOIN_map by (intros [r p] d; reflexivity).
  rewrite LEFT_JOIN_map by (intros [[r p] d] s; reflexivity).
  rewrite JOIN_map by (intros [[[r p] d] s] oh; reflexivity).
  rewrite JOIN_map by (intros [[[[r p] d] s] oh] th; reflexivity).
  rewrite JOIN_map by (intros [[[[[r p] d] s] oh] th] td; reflexivity).
  reflexivity.
Qed.

Lemma upper_char_idempotent (c : ascii) :
  upper_char (upper_char c) = upper_char c.
Proof. destruct c as [[] [] [] [] [] [] [] []]; reflexivity. Qed.

Lemma UPPER_idempotent (s : text) : UPPER (UPPER s) = UPPER s.
Proof.
  induction s as [|c s IH]; simpl; [reflexivity|].
  now rewrite upper_char_idempotent, IH.
Qed.

(** C1. [get_referral_public] looks the identifier up in upper case.  When
    a referral row carries that identifier, the result is exactly one row,
    made of the referral's core columns, the patient's name and
    identifier, the names of the referring doctor and the target
    specialist, name, city and state of both hospitals and name and
    description of the target department; when no referral row carries
    it, the result is empty.  [specialist_notes] is not part of the
    result: whatever the column holds, the result is the same. *)
Theorem get_referral_public_spec (db : database) (s : text) :
  schema_constraints db ->
  (forall r,
     In r (public_referrals db) ->
     referrals.referral_id r = UPPER s ->
     exists p oh th td,
       In p (public_patients db)
       /\ patients.id p = referrals.patient_id r
       /\ In oh (public_hospitals db)
       /\ hospitals.id oh = referrals.origin_hospital_id r
       /\ In th (public_hospitals db)
       /\ hospitals.id th = referrals.target_hospital_id r
       /\ In td (public_departments db)
       /\ departments.id td = referrals.target_department_id r
       /\ get_referral_public db s = [ {|
            tracking.referral_id := UPPER s;
            tracking.status := referrals.status r;
            tracking.urgency := referrals.urgency r;
            tracking.reason := referrals.reason r;
            tracking.notes := referrals.notes r;
            tracking.appointment_date := referrals.appointment_date r;
            tracking.created_at := referrals.created_at r;
            tracking.patient_full_name := patients.full_name p;
            tracking.patient_id := patients.patient_id p;
            tracking.referring_doctor_name :=
              option_map profiles.full_name
                (profile_of db (referrals.referring_doctor_id r));
            tracking.target_specialist_name :=
              option_map profiles.full_name
                match referrals.target_specialist_id r with
                | Some k => profile_of db k
                | None => None
                end;
            tracking.origin_hospital_name := hospitals.name oh;
            tracking.origin_hospital_city := hospitals.city oh;
            tracking.origin_hospital_state := hospitals.state oh;
            tracking.target_hospital_name := hospitals.name th;
            tracking.target_hospital_city := hospitals.city th;
            tracking.target_hospital_state := hospitals.state th;
            tracking.target_department_name := departments.name td;
            tracking.target_department_description :=
              departments.description td
          |} ])
  /\ ((forall r,
         In r (public_referrals db) -> referrals.referral_id r <> UPPER s) ->
      get_referral_public db s = [])
  /\ (forall f : referrals.Row -> option text,
        get_referral_public (rewrite_specialist_notes f db) s
        = get_referral_public db s)
  /\ get_referral_public db (UPPER s) = get_referral_public db s.
Proof.
  intros C.
  assert (Hwhere : forall db',
    get_referral_public db' s
    = firstn 1 (map select_list
        (from_clause (set_public_referrals db'
           (filter (fun r => String.eqb (referrals.referral_id r) (UPPER s))
              (public_referrals db'))))))
    by (intros db'; unfold get_referral_public;
        now rewrite <- from_clause_where).
  repeat split.
  - intros r Hr Hid.
    pose proof (referrals_patient_id_fkey db C) as Fp.
    pose proof (referrals_origin_hospital_id_fkey db C) as Foh.
    pose proof (referrals_target_hospital_id_fkey db C) as Fth.
    pose proof (referrals_target_department_id_fkey db C) as Ftd.
    rewrite Forall_forall in Fp, Foh, Fth, Ftd.
    destruct (find_by_key _ _ _ (Fp r Hr)) as (p & Hp & Hpin & Hpid).
    destruct (find_by_key _ _ _ (Foh r Hr)) as (oh & Hoh & Hohin & Hohid).
    destruct (find_by_key _ _ _ (Fth r Hr)) as (th & Hth & Hthin & Hthid).
    destruct (find_by_key _ _ _ (Ftd r Hr)) as (td & Htd & Htdin & Htdid).
    exists p, oh, th, td. repeat (split; [assumption|]).
    rewrite Hwhere.
    rewrite (filter_unique referrals.referral_id (UPPER s) _ r
               (referrals_referral_id_key db C) Hr Hid).
    rewrite (from_clause_single db r p oh th td C Hp Hoh Hth Htd).
    cbn. now rewrite Hid.
  - intros Hnone. rewrite Hwhere. rewrite filter_none; [reflexivity|].
    intros r Hr. apply String.eqb_neq. auto.
  - intros f. unfold get_referral_public.
    rewrite from_clause_rewrite. cbv zeta.
    rewrite filter_map_comm, map_map. f_equal.
    rewrite (filter_ext _
      (fun '(r, _, _, _, _, _, _) =>
         String.eqb (referrals.referral_id r) (UPPER s)))
      by (intros [[[[[[r p] d] sp] oh] th] td]; reflexivity).
    apply map_ext. intros [[[[[[r p] d] sp] oh] th] td]. reflexivity.
  - unfold get_referral_public. now rewrite UPPER_idempotent.
Qed.

(** The referral of the example, asked for in lower case. *)
Lemma get_referral_public_spec_witness :
  map tracking.referral_id (get_referral_public example_db "ref-2025-000001")
  = ["REF-2025-000001"%string]
  /\ get_referral_public example_db "REF-2025-000009" = [].
Proof.
  destruct (get_referral_public_spec example_db "ref-2025-000001"
              example_db_constraints) as [Hone _].
  destruct (Hone (a_referral 30 "REF-2025-000001" 20 10 None 1 2 6)
              (or_introl eq_refl) eq_refl)
    as (p & oh & th & td & _ & _ & _ & _ & _ & _ & _ & _ & ->).
  split; reflexivity.
Defined.

(** ** Business identifiers *)

Lemma insert_row_done {Row : Type} (pols : list (policy Row))
    (conflict : list Row -> Row -> bool) (fk_missing : Row -> bool)
    (db : database) (uid : option uuid) (NEW : Row) (tbl tbl' : list Row) :
  insert_row pols conflict fk_missing db uid NEW tbl = Done tbl' ->
  tbl' = tbl ++ [NEW]
  /\ can_insert pols db uid NEW = true
  /\ conflict tbl NEW = false.
Proof.
  unfold insert_row.
  destruct (can_insert pols db uid NEW); simpl; [|discriminate].
  destruct (conflict tbl NEW); [discriminate|].
  destruct (fk_missing NEW); [discriminate|].
  intros [= <-]. auto.
Qed.

Lemma patients_no_conflict (others : list patients.Row)
    (NEW : patients.Row) :
  patients_conflict others NEW = false ->
  ~ In (patients.patient_id NEW) (map patients.patient_id others).
Proof.
  unfold patients_conflict. intros Hc Hin.
  apply in_map_iff in Hin. destruct Hin as [r [E Hr]].
  assert (existsb (fun r0 =>
            N.eqb (patients.id r0) (patients.id NEW)
            || String.eqb (patients.patient_id r0) (patients.patient_id NEW))
            others = true); [|congruence].
  apply existsb_exists. exists r. split; [exact Hr|].
  rewrite E, String.eqb_refl. apply orb_true_r.
Qed.

Lemma referrals_no_conflict (others : list referrals.Row)
    (NEW : referrals.Row) :
  referrals_conflict others NEW = false ->
  ~ In (referrals.referral_id NEW) (map referrals.referral_id others).
Proof.
  unfold referrals_conflict. intros Hc Hin.
  apply in_map_iff in Hin. destruct Hin as [r [E Hr]].
  assert (existsb (fun r0 =>
            N.eqb (referrals.id r0) (referrals.id NEW)
            || String.eqb (referrals.referral_id r0)
                 (referrals.referral_id NEW))
            others = true); [|congruence].
  apply existsb_exists. exists r. split; [exact Hr|].
  rewrite E, String.eqb_refl. apply orb_true_r.
Qed.

Lemma unique_snoc {Row : Type} (col : Row -> text) (tbl : list Row)
    (NEW : Row) :
  unique col tbl -> ~ In (col NEW) (map col tbl) -> unique col (tbl ++ [NEW]).
Proof.
  unfold unique. intros Hnd Hnew. rewrite map_app. simpl.
  apply NoDup_Add with (a := col NEW) (l := map col tbl ++ []).
  - apply Add_app.
  - rewrite app_nil_r. auto.
Qed.

(** C6, as stated: a business identifier is immutable once assigned.  It
    fails: doctor 10 renames PAT-2025-000001 and specialist 12 renames
    REF-2025-000001; the rows with id 20 and 30 stay and carry the new
    identifiers. *)
Lemma business_id_renamed :
  map (fun p => (patients.id p, patients.patient_id p))
    (public_patients example_db) = [(20%N, "PAT-2025-000001"%string)]
  /\ match update_patient example_db (Some 10%N) 1%Z 20
             (only_patient_id "PAT-1999-123456") with
     | Done db' =>
         map (fun p => (patients.id p, patients.patient_id p))
           (public_patients db')
     | Raise _ => []
     end = [(20%N, "PAT-1999-123456"%string)]
  /\ map (fun r => (referrals.id r, referrals.referral_id r))
       (public_referrals example_db) = [(30%N, "REF-2025-000001"%string)]
  /\ match update_referral example_db (Some 12%N) 1%Z 30
             (only_referral_id "REF-1999-123456") with
     | Done db' =>
         map (fun r => (referrals.id r, referrals.referral_id r))
           (public_referrals db')
     | Raise _ => []
     end = [(30%N, "REF-1999-123456"%string)].
Proof. repeat split. Qed.

(** C6, amended.  [patient_id] and [referral_id] stay unique through every
    INSERT and UPDATE that succeeds.  An INSERT stores the identifier the
    caller supplied, and a generated one only when the caller supplied
    none.  An UPDATE keeps the identifier of every row unless the statement
    names the column; then the row it reaches carries the named value:
    nothing makes an assigned identifier immutable. *)
Theorem business_id_unique_assigned_at_insert (db : database)
    (uid : option uuid) (now : timestamptz) :
  unique patients.patient_id (public_patients db) ->
  unique referrals.referral_id (public_referrals db) ->
  (forall year draws fresh NEW db',
     insert_patient db uid now year draws fresh NEW = Some (Done db') ->
     unique patients.patient_id (public_patients db')
     /\ exists row,
          public_patients db' = public_patients db ++ [row]
          /\ match patients.new_patient_id NEW with
             | Some supplied => patients.patient_id row = supplied
             | None =>
                 generate_patient_id year (public_patients db) draws
                 = Some (patients.patient_id row)
             end)
  /\ (forall year draws fresh NEW db',
        insert_referral db uid now year draws fresh NEW = Some (Done db') ->
        unique referrals.referral_id (public_referrals db')
        /\ exists row,
             public_referrals db' = public_referrals db ++ [row]
             /\ match referrals.new_referral_id NEW with
                | Some supplied => referrals.referral_id row = supplied
                | None =>
                    generate_referral_id year (public_referrals db) draws
                    = Some (referrals.referral_id row)
                end)
  /\ (forall target u db',
        update_patient db uid now target u = Done db' ->
        unique patients.patient_id (public_patients db')
        /\ Forall2
             (fun old new =>
                patients.patient_id new = patients.patient_id old
                \/ (patients.id old = target
                    /\ patients.set_patient_id u
                       = Some (patients.patient_id new)))
             (public_patients db) (public_patients db'))
  /\ (forall target u db',
        update_referral db uid now target u = Done db' ->
        unique referrals.referral_id (public_referrals db')
        /\ Forall2
             (fun old new =>
                referrals.referral_id new = referrals.referral_id old
                \/ (referrals.id old = target
                    /\ referrals.set_referral_id u
                       = Some (referrals.referral_id new)))
             (public_referrals db) (public_referrals db')).
Proof.
  intros Upat Uref. split; [|split; [|split]].
  - intros year draws fresh NEW db'.
    unfold insert_patient, set_patient_id_trigger, set_patient_id.
    destruct (patients.new_patient_id NEW) as [supplied|] eqn:Hsup.
    + rewrite Hsup.
      destruct (insert_row _ _ _ _ _ _ _) as [tbl|e] eqn:Hins;
        [|discriminate].
      intros [= <-]. apply insert_row_done in Hins.
      destruct Hins as (-> & _ & Hc). cbn. split.
      * apply unique_snoc; [exact Upat|]. now apply patients_no_conflict.
      * eexists. split; reflexivity.
    + destruct (generate_patient_id year (public_patients db) draws)
        as [gen|]; [|discriminate]. cbn.
      destruct (insert_row _ _ _ _ _ _ _) as [tbl|e] eqn:Hins;
        [|discriminate].
      intros [= <-]. apply insert_row_done in Hins.
      destruct Hins as (-> & _ & Hc). cbn. split.
      * apply unique_snoc; [exact Upat|]. now apply patients_no_conflict.
      * eexists. split; reflexivity.
  - intros year draws fresh NEW db'.
    unfold insert_referral, set_referral_id_trigger, set_referral_id.
    destruct (referrals.new_referral_id NEW) as [supplied|] eqn:Hsup.
    + rewrite Hsup.
      destruct (insert_row _ _ _ _ _ _ _) as [tbl|e] eqn:Hins;
        [|discriminate].
      intros [= <-]. apply insert_row_done in Hins.
      destruct Hins as (-> & _ & Hc). cbn. split.
      * apply unique_snoc; [exact Uref|]. now apply referrals_no_conflict.
      * eexists. split; reflexivity.
    + destruct (generate_referral_id year (public_referrals db) draws)
        as [gen|]; [|discriminate]. cbn.
      destruct (insert_row _ _ _ _ _ _ _) as [tbl|e] eqn:Hins;
        [|discriminate].
      intros [= <-]. apply insert_row_done in Hins.
      destruct Hins as (-> & _ & Hc). cbn. split.
      * apply unique_snoc; [exact Uref|]. now apply referrals_no_conflict.
      * eexists. split; reflexivity.
  - intros target u db'. unfold update_patient.
    destruct (update_where_id _ _ _ _ _ _ _ _ _ _ _) as [tbl|e] eqn:Hrun;
      [|discriminate].
    intros [= <-]. cbn. split.
    + eapply (update_rows_unique _ _ _ _ _ _ _ _ _ _ patients.patient_id
                patients_no_conflict (public_patients db) []);
        [exact Upat|exact Hrun].
    + apply update_where_id_steps in Hrun.
      revert Hrun. apply Forall2_weaken. intros old new.
      intros [-> | (Hid & _ & _ & ->)]; [now left|].
      cbn. destruct (patients.set_patient_id u); cbn; auto.
  - intros target u db'. unfold update_referral.
    destruct (update_where_id _ _ _ _ _ _ _ _ _ _ _) as [tbl|e] eqn:Hrun;
      [|discriminate].
    intros [= <-]. cbn. split.
    + eapply (update_rows_unique _ _ _ _ _ _ _ _ _ _ referrals.referral_id
                referrals_no_conflict (public_referrals db) []);
        [exact Uref|exact Hrun].
    + apply update_where_id_steps in Hrun.
      revert Hrun. apply Forall2_weaken. intros old new.
      intros [-> | (Hid & _ & _ & ->)]; [now left|].
      cbn. destruct (referrals.set_referral_id u); cbn; auto.
Qed.

(** Doctor 10 registers a patient without identifier in 2025; the first
    draw gives PAT-2025-000000, and the column stays unique. *)
Lemma business_id_unique_assigned_at_insert_witness :
  let row :=
    patients_new_row 21 5%Z
      (patients.with_patient_id (Some "PAT-2025-000000"%string)
         example_new_patient)
      "PAT-2025-000000" in
  insert_patient example_db (Some 10%N) 5%Z 2025 [0%Z] 21
    example_new_patient
  = Some (Done (set_public_patients example_db
                  (public_patients example_db ++ [row])))
  /\ unique patients.patient_id (public_patients example_db ++ [row]).
Proof.
  intros row. split; [reflexivity|].
  assert (Upat : unique patients.patient_id (public_patients example_db))
    by constraint_by_listing.
  assert (Uref : unique referrals.referral_id (public_referrals example_db))
    by constraint_by_listing.
  destruct (business_id_unique_assigned_at_insert example_db (Some 10%N) 5%Z
              Upat Uref) as [Hins _].
  apply (Hins 2025%N [0%Z] 21%N example_new_patient
           (set_public_patients example_db
              (public_patients example_db ++ [row]))).
  reflexivity.
Defined.

(** * Further properties of the policies *)

Section SignedInCallerMore.

Variable db : database.
Variable c : uuid.
Variable prof : profiles.Row.
Hypothesis Hpk : primary_key profiles.id (public_profiles db).
Hypothesis Hprof : profile_of db c = Some prof.

Lemma referrals_admin_caller r :
  referrals_admin db (Some c) r = user_role_eqb (profiles.role prof) admin.
Proof.
  unfold referrals_admin.
  exact (subquery_own_row db c prof Hpk Hprof
           (fun q => user_role_eqb (profiles.role q) admin)).
Qed.

Lemma has_profile_role_caller r :
  has_profile_role db (Some c) r = user_role_eqb (profiles.role prof) r.
Proof.
  unfold has_profile_role.
  exact (exists_own_row db c prof Hpk Hprof
           (fun q => user_role_eqb (profiles.role q) r)).
Qed.

End SignedInCallerMore.

Lemma user_role_eqb_eq (a b : user_role) : user_role_eqb a b = true <-> a = b.
Proof. destruct a, b; simpl; split; congruence. Qed.

(** X1. A signed-in caller sees a referral row exactly when the caller is
    its referring doctor, or its target specialist, or a specialist whose
    hospital is its target hospital, or an admin. *)
Theorem referral_read_visibility (db : database) (c : uuid)
    (prof : profiles.Row) (r : referrals.Row) :
  primary_key profiles.id (public_profiles db) ->
  profile_of db c = Some prof ->
  (can_select (on_referrals policies) db (Some c) r = true <->
   referrals.referring_doctor_id r = c
   \/ referrals.target_specialist_id r = Some c
   \/ (profiles.role prof = specialist
       /\ profiles.hospital_id prof = Some (referrals.target_hospital_id r))
   \/ profiles.role prof = admin).
Proof.
  intros Hpk Hprof. rewrite referrals_can_select.
  rewrite (specialist_at_target_hospital_caller db c prof Hpk Hprof).
  rewrite (referrals_admin_caller db c prof Hpk Hprof).
  unfold referrals_created, referrals_assigned.
  rewrite !orb_true_iff, andb_true_iff, !user_role_eqb_eq, !uuid_eq_true.
  intuition congruence.
Qed.

(** The doctor of hospital 1 who filed referral 30 sees it; the specialist
    of hospital 1 does not. *)
Lemma referral_read_visibility_witness :
  can_select (on_referrals policies) example_db (Some 10%N)
    (a_referral 30 "REF-2025-000001" 20 10 None 1 2 6) = true
  /\ can_select (on_referrals policies) example_db (Some 11%N)
       (a_referral 30 "REF-2025-000001" 20 10 None 1 2 6) = false.
Proof.
  assert (Hpk : primary_key profiles.id (public_profiles example_db))
    by constraint_by_listing.
  split.
  - destruct (referral_read_visibility example_db 10
                (a_profile 10 doctor (Some 1%N))
                (a_referral 30 "REF-2025-000001" 20 10 None 1 2 6)
                Hpk eq_refl) as [_ Hsee].
    apply Hsee. left. reflexivity.
  - reflexivity.
Defined.

Lemma no_profile_for_null (db : database) (Q : profiles.Row -> bool)
    (l : list profiles.Row) :
  existsb (fun p => uuid_eq (Some (profiles.id p)) None && Q p) l = false.
Proof. induction l as [|p l IH]; simpl; auto. Qed.

(** X2. A caller without identity (auth.uid() is NULL) gets nothing from
    the policies of profiles, patients and referrals: no row is visible,
    no INSERT, UPDATE or DELETE is admitted, whatever the tables hold. *)
Theorem anonymous_caller_denied (db : database) (cmd : command) :
  (forall p, using_ok (on_profiles policies) cmd db None p = false
             /\ check_ok (on_profiles policies) cmd db None p = false)
  /\ (forall p, using_ok (on_patients policies) cmd db None p = false
                /\ check_ok (on_patients policies) cmd db None p = false)
  /\ (forall r, using_ok (on_referrals policies) cmd db None r = false
                /\ check_ok (on_referrals policies) cmd db None r = false).
Proof.
  assert (Hrole : forall r, has_profile_role db None r = false).
  { intros r. unfold has_profile_role.
    apply (no_profile_for_null db
             (fun p => user_role_eqb (profiles.role p) r)). }
  assert (Hsub : forall Q,
    existsb (fun p => uuid_eq (Some (profiles.id p)) None && Q p)
      (from_profiles db None) = false)
    by (intros Q; apply (no_profile_for_null db)).
  assert (Hsub2 : forall Q R,
    existsb (fun p => uuid_eq (Some (profiles.id p)) None && Q p && R p)
      (from_profiles db None) = false).
  { intros Q R.
    rewrite (existsb_pointwise _
      (fun p => uuid_eq (Some (profiles.id p)) None && (Q p && R p)))
      by (intros p; symmetry; apply andb_assoc).
    apply (Hsub (fun p => Q p && R p)). }
  assert (Hadm : forall p, admin_by_function db None p = false)
    by (intros p; apply Hrole).
  assert (Hpat1 : forall p, patients_at_their_hospital db None p = false)
    by (intros p; apply Hsub2).
  assert (Hpat2 : forall p, patients_manage db None p = false)
    by (intros p; apply Hsub).
  assert (Hsp : forall r, specialist_at_target_hospital db None r = false)
    by (intros r; apply Hsub2).
  assert (Hra : forall r, referrals_admin db None r = false)
    by (intros r; apply Hsub).
  assert (Hcr : forall roles r, referrals_create roles db None r = false)
    by (intros roles r; reflexivity).
  assert (Has : forall r, referrals_assigned db None r = false).
  { intros r. unfold referrals_assigned.
    now destruct (referrals.target_specialist_id r). }
  assert (Hup : forall r, referrals_update db None r = false).
  { intros r. unfold referrals_update. now rewrite Has, Hsp. }
  split; [|split]; intros x; destruct cmd; cbn;
    rewrite ?Hadm, ?Hpat1, ?Hpat2, ?Has, ?Hsp, ?Hra, ?Hcr, ?Hup;
    split; reflexivity.
Qed.

(** X3. Writing to patients is a matter of role alone: INSERT, UPDATE and
    DELETE are admitted for a caller whose role is doctor or admin, on every
    row, and for no specialist or patient-role caller, not even a
    specialist at the patient's hospital, who can read the row. *)
Theorem patient_write_by_role (db : database) (c : uuid)
    (prof : profiles.Row) (old new : patients.Row) :
  primary_key profiles.id (public_profiles db) ->
  profile_of db c = Some prof ->
  let staff := profiles.role prof = doctor \/ profiles.role prof = admin in
  (can_insert (on_patients policies) db (Some c) new = true <-> staff)
  /\ (can_update (on_patients policies) db (Some c) old new = true <-> staff)
  /\ (can_delete (on_patients policies) db (Some c) old = true <-> staff).
Proof.
  intros Hpk Hprof staff.
  assert (Hm : forall p,
    patients_manage db (Some c) p = true <-> staff).
  { intros p. rewrite (patients_manage_caller db c prof Hpk Hprof).
    unfold staff. destruct (profiles.role prof); simpl;
      intuition discriminate. }
  assert (Hs : forall p,
    patients_manage db (Some c) p = true ->
    can_select (on_patients policies) db (Some c) p = true).
  { intros p H. rewrite patients_can_select, H. apply orb_true_r. }
  assert (Hu : forall cmd p, cmd <> SELECT ->
    using_ok (on_patients policies) cmd db (Some c) p
    = patients_manage db (Some c) p)
    by (intros cmd p; apply patients_using_all).
  assert (Hc : forall cmd p, cmd <> SELECT ->
    check_ok (on_patients policies) cmd db (Some c) p
    = patients_manage db (Some c) p).
  { intros cmd p. destruct cmd; cbn; try congruence; intros _;
      now rewrite orb_false_r. }
  split; [|split].
  - unfold can_insert. rewrite Hc by discriminate. apply Hm.
  - unfold can_update, update_reaches, update_accepts.
    rewrite !Hu, !Hc by discriminate. rewrite !andb_true_iff.
    split.
    + intros [[_ H] _]. now apply (Hm old).
    + intros H. pose proof (proj2 (Hm old) H) as Ho.
      pose proof (proj2 (Hm new) H) as Hn. auto.
  - unfold can_delete. rewrite Hu by discriminate. rewrite andb_true_iff.
    split.
    + intros [_ H]. now apply (Hm old).
    + intros H. pose proof (proj2 (Hm old) H) as Ho. auto.
Qed.

(** Specialist 12 of hospital 2 reads patient 20 of hospital 2 and cannot
    delete the row; doctor 10 of hospital 1 can. *)
Lemma patient_write_by_role_witness :
  can_select (on_patients policies) example_db (Some 12%N)
    (a_patient 20 "PAT-2025-000001" (Some 2%N)) = true
  /\ can_delete (on_patients policies) example_db (Some 12%N)
       (a_patient 20 "PAT-2025-000001" (Some 2%N)) = false
  /\ can_delete (on_patients policies) example_db (Some 10%N)
       (a_patient 20 "PAT-2025-000001" (Some 2%N)) = true.
Proof.
  assert (Hpk : primary_key profiles.id (public_profiles example_db))
    by constraint_by_listing.
  split; [reflexivity|]. split; [reflexivity|].
  destruct (patient_write_by_role example_db 10
              (a_profile 10 doctor (Some 1%N))
              (a_patient 20 "PAT-2025-000001" (Some 2%N))
              (a_patient 20 "PAT-2025-000001" (Some 2%N))
              Hpk eq_refl) as (_ & _ & Hdel).
  apply Hdel. left. reflexivity.
Defined.

(** X4. On profiles, a signed-in caller sees their own row, and every row
    when their role is admin; INSERT is admitted for an admin only; no
    policy admits DELETE, for anybody. *)
Theorem profile_policies (db : database) (c : uuid) (prof : profiles.Row)
    (p : profiles.Row) :
  primary_key profiles.id (public_profiles db) ->
  profile_of db c = Some prof ->
  (can_select (on_profiles policies) db (Some c) p = true <->
   profiles.id p = c \/ profiles.role prof = admin)
  /\ (can_insert (on_profiles policies) db (Some c) p = true <->
      profiles.role prof = admin)
  /\ (forall uid, can_delete (on_profiles policies) db uid p = false).
Proof.
  intros Hpk Hprof.
  assert (Hadm : admin_by_function db (Some c) p = true <->
                 profiles.role prof = admin).
  { unfold admin_by_function.
    rewrite (has_profile_role_caller db c prof Hpk Hprof).
    apply user_role_eqb_eq. }
  split; [|split].
  - rewrite profiles_can_select, orb_true_iff, Hadm.
    unfold own_profile. simpl. rewrite N.eqb_eq.
    split; intros [H | H]; auto.
  - assert (E : can_insert (on_profiles policies) db (Some c) p
               = admin_by_function db (Some c) p)
      by (cbn; now rewrite orb_false_r).
    now rewrite E.
  - intros uid. unfold can_delete.
    replace (using_ok (on_profiles policies) DELETE db uid p) with false
      by reflexivity.
    apply andb_false_r.
Qed.

(** Admin 13 sees the profile of user 14 and may insert profiles; doctor 10
    may not. *)
Lemma profile_policies_witness :
  can_select (on_profiles policies) example_db (Some 13%N)
    (a_profile 14 patient None) = true
  /\ can_insert (on_profiles policies) example_db (Some 10%N)
       (a_profile 15 doctor None) = false.
Proof.
  assert (Hpk : primary_key profiles.id (public_profiles example_db))
    by constraint_by_listing.
  split; [|reflexivity].
  destruct (profile_policies example_db 13 (a_profile 13 admin None)
              (a_profile 14 patient None) Hpk eq_refl) as [Hsee _].
  apply Hsee. right. reflexivity.
Defined.

Lemma profile_of_None (db : database) (u : uuid) (Q : profiles.Row -> bool) :
  profile_of db u = None ->
  existsb (fun p => uuid_eq (Some (profiles.id p)) (Some u) && Q p)
    (public_profiles db) = false.
Proof.
  unfold profile_of. intros Hnone. apply not_true_is_false. intros Hex.
  apply existsb_exists in Hex. destruct Hex as [p [Hp Hc]].
  apply andb_prop in Hc. destruct Hc as [Hc _]. simpl in Hc.
  now rewrite (find_none _ _ Hnone p Hp) in Hc.
Qed.

(** X5. [has_profile_role] answers from the profile row of the identity it
    is given: true exactly for the role that row carries, false for an
    identity without profile row and for NULL; so no identity has two
    roles. *)
Theorem has_profile_role_spec (db : database) :
  primary_key profiles.id (public_profiles db) ->
  (forall r, has_profile_role db None r = false)
  /\ (forall u r,
        has_profile_role db (Some u) r = true <->
        exists prof, profile_of db u = Some prof /\ profiles.role prof = r)
  /\ (forall u r r',
        has_profile_role db (Some u) r = true ->
        has_profile_role db (Some u) r' = true -> r = r').
Proof.
  intros Hpk.
  assert (Hiff : forall u r,
    has_profile_role db (Some u) r = true <->
    exists prof, profile_of db u = Some prof /\ profiles.role prof = r).
  { intros u r. destruct (profile_of db u) as [prof|] eqn:Hprof.
    - rewrite (has_profile_role_caller db u prof Hpk Hprof).
      rewrite user_role_eqb_eq. split.
      + intros <-. now exists prof.
      + intros [q [[= <-] Hq]]. exact Hq.
    - unfold has_profile_role.
      rewrite (profile_of_None db u
                 (fun p => user_role_eqb (profiles.role p) r) Hprof).
      split; [discriminate|]. intros [q [Hq _]]. discriminate. }
  split; [|split].
  - intros r. unfold has_profile_role.
    apply (no_profile_for_null db
             (fun p => user_role_eqb (profiles.role p) r)).
  - exact Hiff.
  - intros u r r' H H'. apply Hiff in H, H'.
    destruct H as [q [Hq <-]]. destruct H' as [q' [Hq' <-]]. congruence.
Qed.

(** In the example, identity 13 is an admin and nothing else. *)
Lemma has_profile_role_spec_witness :
  has_profile_role example_db (Some 13%N) admin = true
  /\ has_profile_role example_db (Some 13%N) doctor = false
  /\ has_profile_role example_db (Some 99%N) admin = false.
Proof.
  assert (Hpk : primary_key profiles.id (public_profiles example_db))
    by constraint_by_listing.
  destruct (has_profile_role_spec example_db Hpk) as (_ & Hiff & _).
  split; [|split; reflexivity].
  apply Hiff. exists (a_profile 13 admin None). split; reflexivity.
Defined.

Lemma role_in_incl (r : user_role) (l l' : list user_role) :
  incl l l' -> role_in r l = true -> role_in r l' = true.
Proof.
  unfold role_in. intros Hin H. apply existsb_exists in H.
  destruct H as [x [Hx E]]. apply existsb_exists.
  exists x. split; [now apply Hin|exact E].
Qed.

Lemma referrals_create_incl (roles roles' : list user_role)
    (db : database) (uid : option uuid) (r : referrals.Row) :
  incl roles roles' ->
  referrals_create roles db uid r = true ->
  referrals_create roles' db uid r = true.
Proof.
  unfold referrals_create. intros Hin H.
  apply andb_prop in H. destruct H as [Hid Hex]. rewrite Hid. simpl.
  apply existsb_exists in Hex. destruct Hex as [p [Hp Hc]].
  apply existsb_exists. exists p. split; [exact Hp|].
  apply andb_prop in Hc. destruct Hc as [Hc Hr].
  apply andb_true_intro. split; [exact Hc|].
  now apply (role_in_incl _ roles).
Qed.

(** X6. Migration 20250928152621 only widens: a referral INSERT admitted
    before it is admitted after it, nothing else about referrals, patients
    or profiles changes, and a specialist filing a referral in their own
    name, refused before, is admitted after. *)
Theorem staff_insert_migration_widens (db : database) (c : uuid)
    (prof : profiles.Row) (r : referrals.Row) :
  primary_key profiles.id (public_profiles db) ->
  profile_of db c = Some prof ->
  (forall db' uid r',
     can_insert (on_referrals policies_before_20250928152621) db' uid r'
     = true ->
     can_insert (on_referrals policies) db' uid r' = true)
  /\ (forall cmd db' uid r',
        cmd <> INSERT ->
        using_ok (on_referrals policies_before_20250928152621) cmd db' uid r'
        = using_ok (on_referrals policies) cmd db' uid r'
        /\ check_ok (on_referrals policies_before_20250928152621) cmd db'
             uid r'
           = check_ok (on_referrals policies) cmd db' uid r')
  /\ on_patients policies_before_20250928152621 = on_patients policies
  /\ on_profiles policies_before_20250928152621 = on_profiles policies
  /\ (profiles.role prof = specialist ->
      referrals.referring_doctor_id r = c ->
      can_insert (on_referrals policies_before_20250928152621) db (Some c) r
      = false
      /\ can_insert (on_referrals policies) db (Some c) r = true).
Proof.
  intros Hpk Hprof.
  assert (Hbefore : forall db' uid r',
    can_insert (on_referrals policies_before_20250928152621) db' uid r'
    = referrals_create [doctor; admin] db' uid r')
    by (intros; cbn; now rewrite orb_false_r).
  split; [|split; [|split; [|split]]].
  - intros db' uid r'. rewrite Hbefore, referrals_check_insert.
    apply referrals_create_incl. intros x [<- | [<- | []]]; simpl; auto.
  - intros cmd db' uid r' Hcmd. destruct cmd; try congruence;
      split; reflexivity.
  - reflexivity.
  - reflexivity.
  - intros Hrole Hid.
    rewrite Hbefore, referrals_check_insert.
    rewrite !(referrals_create_caller db c prof Hpk Hprof), Hrole, Hid.
    rewrite N.eqb_refl. split; reflexivity.
Qed.

(** Specialist 11 files a referral in their own name: refused before the
    migration, admitted after. *)
Lemma staff_insert_migration_widens_witness :
  can_insert (on_referrals policies_before_20250928152621) example_db
    (Some 11%N) (a_referral 31 "REF-2025-000002" 20 11 None 1 2 6) = false
  /\ can_insert (on_referrals policies) example_db (Some 11%N)
       (a_referral 31 "REF-2025-000002" 20 11 None 1 2 6) = true.
Proof.
  assert (Hpk : primary_key profiles.id (public_profiles example_db))
    by constraint_by_listing.
  destruct (staff_insert_migration_widens example_db 11
              (a_profile 11 specialist (Some 1%N))
              (a_referral 31 "REF-2025-000002" 20 11 None 1 2 6)
              Hpk eq_refl) as (_ & _ & _ & _ & Hnew).
  apply Hnew; reflexivity.
Defined.

(** X7. After an admitted UPDATE of a referral the caller still reaches the
    row: the new row must name the caller as target specialist, or have as
    target hospital the hospital of the caller, a specialist.  A target
    specialist cannot pass a referral on to a colleague elsewhere. *)
Theorem referral_update_stays_with_caller (db : database) (c : uuid)
    (prof : profiles.Row) (old new : referrals.Row) :
  primary_key profiles.id (public_profiles db) ->
  profile_of db c = Some prof ->
  can_update (on_referrals policies) db (Some c) old new = true ->
  (referrals.target_specialist_id new = Some c
   \/ (profiles.role prof = specialist
       /\ profiles.hospital_id prof
          = Some (referrals.target_hospital_id new)))
  /\ update_reaches (on_referrals policies) db (Some c) new = true.
Proof.
  intros Hpk Hprof Hcan. unfold can_update, update_accepts in Hcan.
  apply andb_prop in Hcan. destruct Hcan as [_ Hacc].
  apply andb_prop in Hacc. destruct Hacc as [Hchk Hsel].
  rewrite referrals_check_update in Hchk. split.
  - unfold referrals_update, referrals_assigned in Hchk.
    rewrite (specialist_at_target_hospital_caller db c prof Hpk Hprof)
      in Hchk.
    rewrite orb_true_iff, andb_true_iff, user_role_eqb_eq, !uuid_eq_true
      in Hchk.
    exact Hchk.
  - unfold update_reaches. now rewrite Hsel, referrals_using_update, Hchk.
Qed.

(** Specialist 12 of hospital 2 moves referral 30 to in_progress and still
    reaches the row. *)
Lemma referral_update_stays_with_caller_witness :
  update_reaches (on_referrals policies) example_db (Some 12%N)
    (updated_row 7%Z example_update
       (a_referral 30 "REF-2025-000001" 20 10 None 1 2 6)) = true.
Proof.
  assert (Hpk : primary_key profiles.id (public_profiles example_db))
    by constraint_by_listing.
  assert (Hcan :
    can_update (on_referrals policies) example_db (Some 12%N)
      (a_referral 30 "REF-2025-000001" 20 10 None 1 2 6)
      (updated_row 7%Z example_update
         (a_referral 30 "REF-2025-000001" 20 10 None 1 2 6)) = true)
    by reflexivity.
  destruct (referral_update_stays_with_caller example_db 12
              (a_profile 12 specialist (Some 2%N))
              (a_referral 30 "REF-2025-000001" 20 10 None 1 2 6)
              (updated_row 7%Z example_update
                 (a_referral 30 "REF-2025-000001" 20 10 None 1 2 6))
              Hpk eq_refl Hcan) as [_ Hreach].
  exact Hreach.
Defined.

(** * Further properties of the statements *)

Section UpdateMisses.

Context {Update Row : Type} `{SetClause Update Row} `{UpdatedAt Row}.
Variable pk : Row -> uuid.
Variable pols : list (policy Row).
Variable conflict : list Row -> Row -> bool.
Variable fk_missing : Row -> bool.
Variable pinned : Row -> Row -> bool.
Variable db : database.
Variable uid : option uuid.
Variable now : timestamptz.
Variable target : uuid.
Variable u : Update.

(** An UPDATE that reaches no row changes nothing and raises nothing. *)
Lemma update_rows_miss (after before : list Row) :
  (forall old, In old after -> pk old = target ->
               update_reaches pols db uid old = false) ->
  update_rows pk pols conflict fk_missing pinned db uid now target u
    before after = Done (before ++ after).
Proof.
  revert before. induction after as [|old later IH]; intros before Hmiss;
    simpl.
  - now rewrite app_nil_r.
  - assert (E : N.eqb (pk old) target && update_reaches pols db uid old
                = false).
    { destruct (N.eqb (pk old) target) eqn:Eid; [|reflexivity].
      apply N.eqb_eq in Eid. simpl. apply Hmiss; [now left|exact Eid]. }
    rewrite E, IH, <- app_assoc; [reflexivity|].
    intros x Hx. apply Hmiss. now right.
Qed.

End UpdateMisses.

Lemma set_public_referrals_same (db : database) :
  set_public_referrals db (public_referrals db) = db.
Proof. destruct db; reflexivity. Qed.

Lemma set_public_profiles_same (db : database) :
  set_public_profiles db (public_profiles db) = db.
Proof. destruct db; reflexivity. Qed.

Lemma set_public_patients_same (db : database) :
  set_public_patients db (public_patients db) = db.
Proof. destruct db; reflexivity. Qed.

(** X8. An UPDATE of a referral by a caller who is not a specialist and not
    the target specialist of the row (an admin, the referring doctor)
    changes nothing and reports no error: the statement ends normally with
    the database as it was. *)
Theorem referral_update_silent_for_others (db : database) (c : uuid)
    (prof : profiles.Row) (now : timestamptz) (target : uuid)
    (u : referrals.Update) :
  primary_key profiles.id (public_profiles db) ->
  profile_of db c = Some prof ->
  profiles.role prof <> specialist ->
  (forall r, In r (public_referrals db) -> referrals.id r = target ->
             referrals.target_specialist_id r <> Some c) ->
  update_referral db (Some c) now target u = Done db.
Proof.
  intros Hpk Hprof Hrole Hts. unfold update_referral, update_where_id.
  rewrite update_rows_miss.
  - simpl. now rewrite set_public_referrals_same.
  - intros r Hr Hid. unfold update_reaches.
    rewrite referrals_using_update. apply andb_false_intro2.
    apply not_true_is_false. unfold referrals_update, referrals_assigned.
    rewrite (specialist_at_target_hospital_caller db c prof Hpk Hprof).
    rewrite orb_true_iff, andb_true_iff, user_role_eqb_eq, uuid_eq_true.
    intros [E | [E _]]; [exact (Hts r Hr Hid E)|exact (Hrole E)].
Qed.

(** Admin 13 marks referral 30 as in progress: nothing changes. *)
Lemma referral_update_silent_for_others_witness :
  update_referral example_db (Some 13%N) 7%Z 30 example_update
  = Done example_db.
Proof.
  assert (Hpk : primary_key profiles.id (public_profiles example_db))
    by constraint_by_listing.
  apply (referral_update_silent_for_others example_db 13
           (a_profile 13 admin None) 7%Z 30 example_update Hpk eq_refl).
  - discriminate.
  - intros r [<- | []] _. discriminate.
Defined.

(** X9. An UPDATE of the profile row of another identity changes nothing
    and reports no error, whoever calls, an admin included: the only
    UPDATE policy of profiles is the owner's. *)
Theorem profile_update_of_others_silent (db : database)
    (uid : option uuid) (now : timestamptz) (target : uuid)
    (u : profiles.Update) :
  uid <> Some target ->
  update_profile db uid now target u = Done db.
Proof.
  intros Hother. unfold update_profile, update_where_id.
  rewrite update_rows_miss.
  - simpl. now rewrite set_public_profiles_same.
  - intros p _ Hid. unfold update_reaches.
    rewrite profiles_using_update. apply andb_false_intro2.
    apply not_true_is_false. unfold own_profile. rewrite uuid_eq_true.
    congruence.
Qed.

(** Admin 13 rewrites the role in the profile row of doctor 10: nothing
    changes. *)
Lemma profile_update_of_others_silent_witness :
  update_profile example_db (Some 13%N) 7%Z 10 (only_role admin)
  = Done example_db.
Proof.
  apply (profile_update_of_others_silent example_db (Some 13%N) 7%Z 10
           (only_role admin)).
  discriminate.
Defined.

(** X10. DELETE FROM patients by a caller whose role is specialist or
    patient removes nothing, neither patients nor referrals; by a doctor
    or an admin it removes the rows with the given id and leaves
    profiles, hospitals and departments alone. *)
Theorem delete_patient_by_role (db : database) (c : uuid)
    (prof : profiles.Row) (target : uuid) :
  primary_key profiles.id (public_profiles db) ->
  profile_of db c = Some prof ->
  (profiles.role prof = specialist \/ profiles.role prof = patient ->
   delete_patient db (Some c) target = db)
  /\ (profiles.role prof = doctor \/ profiles.role prof = admin ->
      public_patients (delete_patient db (Some c) target)
      = filter (fun p => negb (N.eqb (patients.id p) target))
          (public_patients db))
  /\ public_profiles (delete_patient db (Some c) target)
     = public_profiles db
  /\ public_hospitals (delete_patient db (Some c) target)
     = public_hospitals db
  /\ public_departments (delete_patient db (Some c) target)
     = public_departments db.
Proof.
  intros Hpk Hprof.
  assert (Hdel : forall q,
    can_delete (on_patients policies) db (Some c) q
    = role_in (profiles.role prof) [doctor; admin]).
  { intros q. unfold can_delete.
    rewrite (patients_select_by_role db c prof Hpk Hprof).
    rewrite patients_using_all by discriminate.
    rewrite (patients_manage_caller db c prof Hpk Hprof).
    destruct (profiles.role prof); simpl; rewrite ?andb_false_r;
      reflexivity. }
  split; [|split; [|repeat split]].
  - intros Hrole.
    assert (Hkept :
      delete_where_id patients.id (on_patients policies) db (Some c) target
        (public_patients db) = public_patients db).
    { unfold delete_where_id. apply forallb_filter_id. apply forallb_forall.
      intros q _. rewrite Hdel.
      destruct Hrole as [-> | ->]; simpl; now rewrite andb_false_r. }
    unfold delete_patient. rewrite Hkept.
    replace (filter _ (public_referrals db)) with (public_referrals db).
    + destruct db; reflexivity.
    + symmetry. apply forallb_filter_id. apply forallb_forall.
      intros r _.
      now destruct (has_id patients.id (public_patients db)
                      (referrals.patient_id r)).
  - intros Hrole. unfold delete_patient, delete_where_id.
    cbn [public_patients]. apply filter_ext. intros q. rewrite Hdel.
    destruct Hrole as [-> | ->]; simpl; now rewrite andb_true_r.
Qed.

(** Specialist 12, who reads patient 20, deletes nothing. *)
Lemma delete_patient_by_role_witness :
  delete_patient example_db (Some 12%N) 20 = example_db.
Proof.
  assert (Hpk : primary_key profiles.id (public_profiles example_db))
    by constraint_by_listing.
  destruct (delete_patient_by_role example_db 12
              (a_profile 12 specialist (Some 2%N)) 20 Hpk eq_refl)
    as [Hnone _].
  apply Hnone. left. reflexivity.
Defined.

(** * Further properties of the generators *)

Lemma held_iff {Row : Type} (col : Row -> text) (tbl : list Row)
    (new_id : text) :
  existsb (fun r => String.eqb (col r) new_id) tbl = true <->
  In new_id (map col tbl).
Proof.
  rewrite existsb_exists, in_map_iff.
  split; intros [r [H1 H2]]; exists r.
  - apply String.eqb_eq in H2. auto.
  - split; [exact H2|]. now apply String.eqb_eq.
Qed.

Lemma generate_loop_none (mk : Z -> text) (taken : text -> bool)
    (draws : list Z) :
  generate_loop mk taken draws = None <->
  forall k, In k draws -> taken (mk k) = true.
Proof.
  induction draws as [|k later IH]; simpl.
  - split; [intros _ k []|reflexivity].
  - destruct (taken (mk k)) eqn:E; simpl.
    + rewrite IH. split.
      * intros H k' [<- | Hk']; auto.
      * intros H k' Hk'. apply H. now right.
    + split; [discriminate|]. intros H.
      specialize (H k (or_introl eq_refl)). congruence.
Qed.

(** X11. A generator never returns an identifier its table holds.  A draw
    whose candidate is free ends the loop with that candidate; a draw whose
    candidate is held is dropped and the loop goes on with the next draw,
    without limit: the loop is still turning after any number of draws
    exactly when every candidate so far was held. *)
Theorem generator_retries_until_free (year : N) (k : Z) (later : list Z)
    (refs : list referrals.Row) (pats : list patients.Row) :
  (forall draws new_id,
     generate_referral_id year refs draws = Some new_id ->
     ~ In new_id (map referrals.referral_id refs))
  /\ (forall draws new_id,
        generate_patient_id year pats draws = Some new_id ->
        ~ In new_id (map patients.patient_id pats))
  /\ (forall draws,
        generate_referral_id year refs draws = None <->
        forall k', In k' draws ->
          In (candidate "REF-" year k') (map referrals.referral_id refs))
  /\ (forall draws,
        generate_patient_id year pats draws = None <->
        forall k', In k' draws ->
          In (candidate "PAT-" year k') (map patients.patient_id pats))
  /\ generate_referral_id year refs (k :: later)
     = (if in_dec string_dec (candidate "REF-" year k)
             (map referrals.referral_id refs)
        then generate_referral_id year refs later
        else Some (candidate "REF-" year k))
  /\ generate_patient_id year pats (k :: later)
     = (if in_dec string_dec (candidate "PAT-" year k)
             (map patients.patient_id pats)
        then generate_patient_id year pats later
        else Some (candidate "PAT-" year k)).
Proof.
  repeat match goal with |- _ /\ _ => split end.
  - intros draws new_id Hgen. apply generate_loop_some in Hgen.
    destruct Hgen as [_ Hfree]. intros Hin. apply held_iff in Hin.
    congruence.
  - intros draws new_id Hgen. apply generate_loop_some in Hgen.
    destruct Hgen as [_ Hfree]. intros Hin. apply held_iff in Hin.
    congruence.
  - intros draws. unfold generate_referral_id. rewrite generate_loop_none.
    split; intros Hall k' Hk'; apply held_iff; auto.
  - intros draws. unfold generate_patient_id. rewrite generate_loop_none.
    split; intros Hall k' Hk'; apply held_iff; auto.
  - unfold generate_referral_id. simpl.
    destruct (in_dec string_dec _ _) as [Hin | Hout].
    + apply held_iff in Hin. now rewrite Hin.
    + destruct (existsb _ refs) eqn:E; [|reflexivity].
      apply held_iff in E. contradiction.
  - unfold generate_patient_id. simpl.
    destruct (in_dec string_dec _ _) as [Hin | Hout].
    + apply held_iff in Hin. now rewrite Hin.
    + destruct (existsb _ pats) eqn:E; [|reflexivity].
      apply held_iff in E. contradiction.
Qed.

(** * Further properties of the public read gateway *)

Lemma In_JOIN {A B : Type} (l : list A) (t : list B) (on : A -> B -> bool)
    (ab : A * B) :
  In ab (JOIN l t on) -> In (fst ab) l /\ In (snd ab) t
                         /\ on (fst ab) (snd ab) = true.
Proof.
  unfold JOIN. intros Hin. apply in_flat_map in Hin.
  destruct Hin as [a [Ha Hab]]. apply in_map_iff in Hab.
  destruct Hab as [b [<- Hb]]. apply filter_In in Hb. simpl. tauto.
Qed.

Lemma In_LEFT_JOIN {A B : Type} (l : list A) (t : list B)
    (on : A -> B -> bool) (ab : A * option B) :
  In ab (LEFT_JOIN l t on) -> In (fst ab) l.
Proof.
  unfold LEFT_JOIN. intros Hin. apply in_flat_map in Hin.
  destruct Hin as [a [Ha Hab]].
  destruct (filter (on a) t) as [|x found].
  - destruct Hab as [<- | []]. exact Ha.
  - apply in_map_iff in Hab. now destruct Hab as [y [<- _]].
Qed.

(** A row of the FROM clause pairs a referral of the table with its
    patient. *)
Lemma from_clause_sound (db : database) (r : referrals.Row)
    (p : patients.Row) (d s : option profiles.Row) (oh th : hospitals.Row)
    (td : departments.Row) :
  In (r, p, d, s, oh, th, td) (from_clause db) ->
  In r (public_referrals db) /\ In p (public_patients db)
  /\ patients.id p = referrals.patient_id r.
Proof.
  unfold from_clause. cbv zeta. intros Hin.
  apply In_JOIN in Hin. destruct Hin as [Hin _]. simpl in Hin.
  apply In_JOIN in Hin. destruct Hin as [Hin _]. simpl in Hin.
  apply In_JOIN in Hin. destruct Hin as [Hin _]. simpl in Hin.
  apply In_LEFT_JOIN in Hin. simpl in Hin.
  apply In_LEFT_JOIN in Hin. simpl in Hin.
  apply In_JOIN in Hin. simpl in Hin. destruct Hin as (Hr & Hp & Hon).
  apply N.eqb_eq in Hon. auto.
Qed.

Lemma In_firstn {A : Type} (n : nat) (l : list A) (x : A) :
  In x (firstn n l) -> In x l.
Proof.
  intros H. rewrite <- (firstn_skipn n l). apply in_or_app. now left.
Qed.

(** X12. Whatever the tables hold and whatever is asked,
    [get_referral_public] returns at most one row, and a row it returns
    shows a referral of the table whose identifier is the upper-cased
    input, with that referral's status and its patient's identifier.  A
    referral stored under an identifier that has a lower-case letter is
    therefore never shown, to any input. *)
Theorem gateway_returns_only_the_asked (db : database) (s : text) :
  List.length (get_referral_public db s) <= 1
  /\ (forall t,
        In t (get_referral_public db s) ->
        exists r p,
          In r (public_referrals db) /\ In p (public_patients db)
          /\ patients.id p = referrals.patient_id r
          /\ referrals.referral_id r = UPPER s
          /\ tracking.referral_id t = UPPER s
          /\ tracking.status t = referrals.status r
          /\ tracking.patient_id t = patients.patient_id p)
  /\ (forall t,
        In t (get_referral_public db s) ->
        UPPER (tracking.referral_id t) = tracking.referral_id t).
Proof.
  assert (Hrow : forall t,
    In t (get_referral_public db s) ->
    exists r p,
      In r (public_referrals db) /\ In p (public_patients db)
      /\ patients.id p = referrals.patient_id r
      /\ referrals.referral_id r = UPPER s
      /\ tracking.referral_id t = UPPER s
      /\ tracking.status t = referrals.status r
      /\ tracking.patient_id t = patients.patient_id p).
  { intros t Ht. unfold get_referral_public in Ht.
    apply In_firstn in Ht. apply in_map_iff in Ht.
    destruct Ht as [[[[[[[r p] d] sp] oh] th] td] [<- Hj]].
    apply filter_In in Hj. destruct Hj as [Hj Hw].
    apply String.eqb_eq in Hw. apply from_clause_sound in Hj.
    destruct Hj as (Hr & Hp & Hid).
    exists r, p. simpl. now rewrite Hw. }
  split; [|split].
  - unfold get_referral_public. rewrite length_firstn. apply Nat.le_min_l.
  - exact Hrow.
  - intros t Ht. destruct (Hrow t Ht) as (r & p & _ & _ & _ & _ & -> & _).
    apply UPPER_idempotent.
Qed.

(** * INSERT and the constraints of the schema *)

Lemma patients_no_id_conflict (others : list patients.Row)
    (NEW : patients.Row) :
  patients_conflict others NEW = false ->
  ~ In (patients.id NEW) (map patients.id others).
Proof.
  unfold patients_conflict. intros Hc Hin.
  apply in_map_iff in Hin. destruct Hin as [r [E Hr]].
  assert (existsb (fun r0 =>
            N.eqb (patients.id r0) (patients.id NEW)
            || String.eqb (patients.patient_id r0) (patients.patient_id NEW))
            others = true); [|congruence].
  apply existsb_exists. exists r. split; [exact Hr|].
  now rewrite E, N.eqb_refl.
Qed.

Lemma referrals_no_id_conflict (others : list referrals.Row)
    (NEW : referrals.Row) :
  referrals_conflict others NEW = false ->
  ~ In (referrals.id NEW) (map referrals.id others).
Proof.
  unfold referrals_conflict. intros Hc Hin.
  apply in_map_iff in Hin. destruct Hin as [r [E Hr]].
  assert (existsb (fun r0 =>
            N.eqb (referrals.id r0) (referrals.id NEW)
            || String.eqb (referrals.referral_id r0)
                 (referrals.referral_id NEW))
            others = true); [|congruence].
  apply existsb_exists. exists r. split; [exact Hr|].
  now rewrite E, N.eqb_refl.
Qed.

Lemma primary_key_snoc {Row : Type} (pk : Row -> uuid) (tbl : list Row)
    (NEW : Row) :
  primary_key pk tbl -> ~ In (pk NEW) (map pk tbl) ->
  primary_key pk (tbl ++ [NEW]).
Proof.
  unfold primary_key. intros Hnd Hnew. rewrite map_app. simpl.
  apply NoDup_Add with (a := pk NEW) (l := map pk tbl ++ []).
  - apply Add_app.
  - rewrite app_nil_r. auto.
Qed.

Lemma has_id_references {Row : Type} (pk : Row -> uuid) (tbl : list Row)
    (k : uuid) :
  has_id pk tbl k = true <-> references pk tbl k.
Proof.
  unfold has_id, references. rewrite existsb_exists, in_map_iff.
  split; intros [r [H1 H2]]; exists r.
  - apply N.eqb_eq in H2. auto.
  - split; [exact H2|]. now apply N.eqb_eq.
Qed.

Lemma references_app {Row : Type} (pk : Row -> uuid) (tbl more : list Row)
    (k : uuid) :
  references pk tbl k -> references pk (tbl ++ more) k.
Proof.
  unfold references. rewrite map_app. intros H. apply in_or_app. now left.
Qed.

(** INSERT checks what the constraints ask of the new row, and an append
    cannot break them for the rows already there. *)
Lemma inserts_keep_constraints_aux (db : database) (uid : option uuid)
    (now : timestamptz) (year : N) (draws : list Z) (fresh : uuid) :
  schema_constraints db ->
  (forall NEW db',
     insert_patient db uid now year draws fresh NEW = Some (Done db') ->
     schema_constraints db')
  /\ (forall NEW db',
        insert_referral db uid now year draws fresh NEW = Some (Done db') ->
        schema_constraints db').
Proof.
  intros C. split.
  - intros NEW db'. unfold insert_patient.
    destruct (set_patient_id_trigger _ _ _ _) as [NEW'|]; [|discriminate].
    destruct (patients.new_patient_id NEW') as [pid|]; [|discriminate].
    destruct (insert_row _ _ _ _ _ _ _) as [tbl|e] eqn:Hins; [|discriminate].
    intros [= <-]. apply insert_row_done in Hins.
    destruct Hins as (-> & _ & Hc). destruct C.
    constructor; cbn; auto.
    + apply primary_key_snoc; [assumption|].
      now apply patients_no_id_conflict.
    + apply unique_snoc; [assumption|]. now apply patients_no_conflict.
    + revert referrals_patient_id_fkey0. apply Forall_impl.
      intros r. apply references_app.
  - intros NEW db'. unfold insert_referral.
    destruct (set_referral_id_trigger _ _ _ _) as [NEW'|]; [|discriminate].
    destruct (referrals.new_referral_id NEW') as [rid|]; [|discriminate].
    unfold insert_row.
    destruct (can_insert _ _ _ _); simpl; [|discriminate].
    destruct (referrals_conflict _ _) eqn:Hc; [discriminate|].
    destruct (referrals_fk_missing _ _) eqn:Hfk; [discriminate|].
    intros [= <-]. unfold referrals_fk_missing in Hfk.
    apply negb_false_iff in Hfk. rewrite !andb_true_iff in Hfk.
    destruct Hfk as (((((Hp & _) & _) & Hoh) & Hth) & Htd).
    apply has_id_references in Hp, Hoh, Hth, Htd.
    destruct C. constructor; cbn; auto.
    + apply primary_key_snoc; [assumption|].
      now apply referrals_no_id_conflict.
    + apply unique_snoc; [assumption|]. now apply referrals_no_conflict.
    + apply Forall_app. split; [assumption|]. now repeat constructor.
    + apply Forall_app. split; [assumption|]. now repeat constructor.
    + apply Forall_app. split; [assumption|]. now repeat constructor.
    + apply Forall_app. split; [assumption|]. now repeat constructor.
Qed.

(** X13. A successful INSERT into patients or referrals leaves the schema
    constraints in force: primary keys and business identifiers stay
    unique, and every referral, the new one included, names a patient, two
    hospitals and a department that exist. *)
Theorem inserts_keep_constraints (db : database) (uid : option uuid)
    (now : timestamptz) (year : N) (draws : list Z) (fresh : uuid) :
  schema_constraints db ->
  (forall NEW db',
     insert_patient db uid now year draws fresh NEW = Some (Done db') ->
     schema_constraints db')
  /\ (forall NEW db',
        insert_referral db uid now year draws fresh NEW = Some (Done db') ->
        schema_constraints db').
Proof. apply inserts_keep_constraints_aux. Qed.

(** Doctor 10 files a referral in the example. *)
Lemma inserts_keep_constraints_witness :
  match insert_referral example_db (Some 10%N) 5%Z 2025 [0%Z] 31
          example_new_referral with
  | Some (Done db') => schema_constraints db'
  | _ => False
  end.
Proof.
  destruct (inserts_keep_constraints example_db (Some 10%N) 5%Z 2025
              [0%Z] 31%N example_db_constraints) as [_ Href].
  exact (Href example_new_referral _ eq_refl).
Defined.

Lemma UPPER_app (s t : text) : UPPER (s ++ t) = (UPPER s ++ UPPER t)%string.
Proof. induction s as [|c s IH]; simpl; [reflexivity|]. now rewrite IH. Qed.

Lemma upper_char_digit (c : ascii) : is_digit c = true -> upper_char c = c.
Proof.
  destruct c as [[] [] [] [] [] [] [] []]; try discriminate; reflexivity.
Qed.

Lemma UPPER_digits (s : text) : all_digits s = true -> UPPER s = s.
Proof.
  induction s as [|c s IH]; simpl; [reflexivity|]. intros H.
  apply andb_prop in H. destruct H as [Hc Hs].
  now rewrite upper_char_digit, IH.
Qed.

(** A generated identifier has no lower-case letter. *)
Lemma UPPER_candidate (prefix : text) (year : N) (k : Z) :
  UPPER prefix = prefix ->
  UPPER (candidate prefix year k) = candidate prefix year k.
Proof.
  intros Hp. unfold candidate. rewrite !UPPER_app, Hp.
  destruct (LPAD_six_digits (random_suffix k)) as [Hd _].
  rewrite (UPPER_digits (LPAD _ 6)) by exact Hd.
  rewrite (UPPER_digits (TO_CHAR_YYYY year)); [reflexivity|].
  unfold TO_CHAR_YYYY.
  now rewrite all_digits_app, all_digits_zeros, all_digits_decimal.
Qed.

(** Under the schema constraints the gateway finds every referral by its
    identifier. *)
Lemma gateway_finds (db : database) (s : text) (r : referrals.Row) :
  schema_constraints db ->
  In r (public_referrals db) ->
  referrals.referral_id r = UPPER s ->
  exists t,
    get_referral_public db s = [t]
    /\ tracking.referral_id t = referrals.referral_id r
    /\ tracking.status t = referrals.status r
    /\ tracking.urgency t = referrals.urgency r.
Proof.
  intros C Hr Hid.
  pose proof (referrals_patient_id_fkey db C) as Fp.
  pose proof (referrals_origin_hospital_id_fkey db C) as Foh.
  pose proof (referrals_target_hospital_id_fkey db C) as Fth.
  pose proof (referrals_target_department_id_fkey db C) as Ftd.
  rewrite Forall_forall in Fp, Foh, Fth, Ftd.
  destruct (find_by_key _ _ _ (Fp r Hr)) as (p & Hp & _).
  destruct (find_by_key _ _ _ (Foh r Hr)) as (oh & Hoh & _).
  destruct (find_by_key _ _ _ (Fth r Hr)) as (th & Hth & _).
  destruct (find_by_key _ _ _ (Ftd r Hr)) as (td & Htd & _).
  unfold get_referral_public.
  rewrite (from_clause_where db
             (fun x => String.eqb (referrals.referral_id x) (UPPER s))).
  rewrite (filter_unique referrals.referral_id (UPPER s) _ r
             (referrals_referral_id_key db C) Hr Hid).
  rewrite (from_clause_single db r p oh th td C Hp Hoh Hth Htd).
  eexists. split; [reflexivity|]. cbn. auto.
Qed.

Lemma In_snoc {A : Type} (l : list A) (x : A) : In x (l ++ [x]).
Proof. apply in_or_app. right. now left. Qed.

(** X14. A referral that INSERT stored can be tracked at once: asked for
    its identifier in any letter case, the gateway returns one row with
    that identifier, the status the statement named, or pending, and the
    urgency it named, or medium.  When the identifier was generated it has
    no lower-case letter, so it is found as it is. *)
Theorem inserted_referral_is_trackable (db : database) (uid : option uuid)
    (now : timestamptz) (year : N) (draws : list Z) (fresh : uuid)
    (NEW : referrals.Insert) (db' : database) :
  schema_constraints db ->
  insert_referral db uid now year draws fresh NEW = Some (Done db') ->
  exists row,
    public_referrals db' = public_referrals db ++ [row]
    /\ (forall s,
          UPPER s = referrals.referral_id row ->
          exists t,
            get_referral_public db' s = [t]
            /\ tracking.referral_id t = referrals.referral_id row
            /\ tracking.status t
               = assigned (referrals.new_status NEW) pending
            /\ tracking.urgency t
               = assigned (referrals.new_urgency NEW) medium)
    /\ (referrals.new_referral_id NEW = None ->
        exists t, get_referral_public db' (referrals.referral_id row) = [t]).
Proof.
  intros C Hins.
  assert (C' : schema_constraints db').
  { destruct (inserts_keep_constraints_aux db uid now year draws fresh C)
      as [_ H]. exact (H NEW db' Hins). }
  revert Hins. unfold insert_referral, set_referral_id_trigger,
    set_referral_id.
  destruct (referrals.new_referral_id NEW) as [supplied|] eqn:Hsup.
  - rewrite Hsup.
    destruct (insert_row _ _ _ _ _ _ _) as [tbl|e] eqn:Hrow; [|discriminate].
    intros [= <-]. apply insert_row_done in Hrow. destruct Hrow as (-> & _).
    eexists. split; [reflexivity|]. split; [|discriminate].
    intros s Hs.
    destruct (gateway_finds _ s _ C' (In_snoc _ _) (eq_sym Hs))
      as (t & Ht & H1 & H2 & H3).
    exists t. auto.
  - destruct (generate_referral_id year (public_referrals db) draws)
      as [gen|] eqn:Hgen; [|discriminate]. cbn.
    destruct (insert_row _ _ _ _ _ _ _) as [tbl|e] eqn:Hrow; [|discriminate].
    intros [= <-]. apply insert_row_done in Hrow. destruct Hrow as (-> & _).
    eexists. split; [reflexivity|].
    assert (Hfind : forall s,
      UPPER s = gen ->
      exists t,
        get_referral_public
          (set_public_referrals db
             (public_referrals db
              ++ [referrals_new_row fresh now
                    (referrals.with_referral_id (Some gen) NEW) gen])) s
        = [t]
        /\ tracking.referral_id t = gen
        /\ tracking.status t = assigned (referrals.new_status NEW) pending
        /\ tracking.urgency t = assigned (referrals.new_urgency NEW) medium).
    { intros s Hs.
      destruct (gateway_finds _ s _ C' (In_snoc _ _) (eq_sym Hs))
        as (t & Ht & H1 & H2 & H3).
      exists t. auto. }
    split; [exact Hfind|]. intros _.
    apply generate_loop_some in Hgen. destruct Hgen as [[k [_ Hk]] _].
    destruct (Hfind gen) as (t & Ht & _).
    + rewrite Hk. now apply UPPER_candidate.
    + now exists t.
Qed.

(** Doctor 10 files a referral of urgency high; asked in lower case, the
    gateway shows it as pending. *)
Lemma inserted_referral_is_trackable_witness :
  match insert_referral example_db (Some 10%N) 5%Z 2025 [0%Z] 31
          example_new_referral with
  | Some (Done db') =>
      map (fun t => (tracking.referral_id t, tracking.status t,
                     tracking.urgency t))
        (get_referral_public db' "ref-2025-000000")
  | _ => []
  end = [("REF-2025-000000"%string, pending, high)].
Proof.
  pose (row := referrals_new_row 31 5%Z
                 (referrals.with_referral_id (Some "REF-2025-000000"%string)
                    example_new_referral) "REF-2025-000000").
  assert (Hins :
    insert_referral example_db (Some 10%N) 5%Z 2025 [0%Z] 31
      example_new_referral
    = Some (Done (set_public_referrals example_db
                    (public_referrals example_db ++ [row]))))
    by reflexivity.
  destruct (inserted_referral_is_trackable example_db (Some 10%N) 5%Z 2025
              [0%Z] 31%N example_new_referral _ example_db_constraints Hins)
    as (row' & Hrow & Hfind & _).
  rewrite Hins.
  apply app_inj_tail in Hrow. destruct Hrow as [_ <-].
  destruct (Hfind "ref-2025-000000"%string eq_refl)
    as (t & -> & H1 & H2 & H3).
  simpl. now rewrite H1, H2, H3.
Defined.

(** * Hospitals, departments and the assignments of doctors *)

(** A table with one SELECT policy and one ALL policy, both with USING
    only: what each command needs. *)
Lemma select_and_all_policy {Row : Type} (n1 n2 : string) (S M : expr Row)
    (db : database) (uid : option uuid) :
  let pols := [USING n1 (FOR SELECT) S; USING n2 FOR_ALL M] in
  (forall r, can_select pols db uid r = S db uid r || M db uid r)
  /\ (forall r, can_insert pols db uid r = M db uid r)
  /\ (forall old new,
        can_update pols db uid old new = M db uid old && M db uid new)
  /\ (forall r, can_delete pols db uid r = M db uid r).
Proof.
  cbv zeta.
  unfold can_update, update_reaches, update_accepts, can_delete, can_insert,
    can_select, using_ok, check_ok, USING, QUAL_FOR_WCO, holds.
  repeat match goal with |- _ /\ _ => split end.
  - intros r. cbn. now rewrite orb_false_r.
  - intros r. cbn. now rewrite orb_false_r.
  - intros old new. cbn.
    destruct (S db uid old), (M db uid old), (S db uid new), (M db uid new);
      reflexivity.
  - intros r. cbn. destruct (S db uid r), (M db uid r); reflexivity.
Qed.

Lemma on_hospitals_in_force :
  on_hospitals staffing_policies
  = [USING "All authenticated users can view hospitals" (FOR SELECT)
       (TO_authenticated sql_true);
     USING "Admins can manage hospitals" FOR_ALL profile_is_admin]%string.
Proof. reflexivity. Qed.

Lemma on_departments_in_force :
  on_departments staffing_policies
  = [USING "All authenticated users can view departments" (FOR SELECT)
       (TO_authenticated sql_true);
     USING "Medical staff can manage departments" FOR_ALL
       (profile_role_in [doctor; admin])]%string.
Proof. reflexivity. Qed.

Lemma on_departments_before :
  on_departments staffing_policies_before_20250928152904
  = [USING "All authenticated users can view departments" (FOR SELECT)
       (TO_authenticated sql_true);
     USING "Admins can manage departments" FOR_ALL profile_is_admin]%string.
Proof. reflexivity. Qed.

Lemma on_doctor_hospitals_in_force :
  on_doctor_hospitals staffing_policies
  = [USING "Doctors can view their own hospital assignments" (FOR SELECT)
       own_hospital_assignment;
     USING "Admins can manage all doctor hospital assignments" FOR_ALL
       admin_role_by_function]%string.
Proof. reflexivity. Qed.

Lemma on_doctor_departments_in_force :
  on_doctor_departments staffing_policies
  = [USING "Doctors can view their own department assignments" (FOR SELECT)
       own_department_assignment;
     USING "Admins can manage all doctor department assignments" FOR_ALL
       admin_role_by_function]%string.
Proof. reflexivity. Qed.

Section StaffingCaller.

Variable db : database.
Variable c : uuid.
Variable prof : profiles.Row.
Hypothesis Hpk : primary_key profiles.id (public_profiles db).
Hypothesis Hprof : profile_of db c = Some prof.

Lemma profile_is_admin_caller {Row : Type} (r : Row) :
  profile_is_admin db (Some c) r = user_role_eqb (profiles.role prof) admin.
Proof.
  unfold profile_is_admin.
  exact (subquery_own_row db c prof Hpk Hprof
           (fun q => user_role_eqb (profiles.role q) admin)).
Qed.

Lemma profile_role_in_caller {Row : Type} (roles : list user_role) (r : Row) :
  profile_role_in roles db (Some c) r = role_in (profiles.role prof) roles.
Proof.
  unfold profile_role_in.
  exact (subquery_own_row db c prof Hpk Hprof
           (fun q => role_in (profiles.role q) roles)).
Qed.

End StaffingCaller.

Lemma profile_is_admin_anonymous {Row : Type} (db : database) (r : Row) :
  profile_is_admin db None r = false.
Proof. unfold profile_is_admin. apply no_profile_for_null; exact db. Qed.

Lemma profile_role_in_anonymous {Row : Type} (roles : list user_role)
    (db : database) (r : Row) :
  profile_role_in roles db None r = false.
Proof. unfold profile_role_in. apply no_profile_for_null; exact db. Qed.

(** X15. Every signed-in caller reads every hospital; a caller without
    identity reads none.  INSERT, UPDATE and DELETE on hospitals are
    admitted exactly for an admin. *)
Theorem hospitals_read_by_all_written_by_admin (db : database) (c : uuid)
    (prof : profiles.Row) (old new : hospitals.Row) :
  primary_key profiles.id (public_profiles db) ->
  profile_of db c = Some prof ->
  let pols := on_hospitals staffing_policies in
  can_select pols db (Some c) old = true
  /\ can_select pols db None old = false
  /\ (can_insert pols db (Some c) new = true <-> profiles.role prof = admin)
  /\ (can_update pols db (Some c) old new = true
      <-> profiles.role prof = admin)
  /\ (can_delete pols db (Some c) old = true <-> profiles.role prof = admin).
Proof.
  intros Hpk Hprof pols. unfold pols. rewrite on_hospitals_in_force.
  destruct (@select_and_all_policy hospitals.Row
              "All authenticated users can view hospitals"
              "Admins can manage hospitals"
              (TO_authenticated sql_true) profile_is_admin db (Some c))
    as (Hs & Hi & Hu & Hd).
  destruct (@select_and_all_policy hospitals.Row
              "All authenticated users can view hospitals"
              "Admins can manage hospitals"
              (TO_authenticated sql_true) profile_is_admin db None)
    as (Hs0 & _).
  rewrite Hs, Hs0, Hi, Hu, Hd.
  rewrite !(profile_is_admin_caller db c prof Hpk Hprof).
  rewrite profile_is_admin_anonymous. rewrite andb_diag.
  rewrite user_role_eqb_eq. cbn. intuition.
Qed.

(** Doctor 10 reads hospital 1 and may not add a hospital; admin 13 may. *)
Lemma hospitals_read_by_all_written_by_admin_witness :
  can_select (on_hospitals staffing_policies) example_db (Some 10%N)
    (a_hospital 1 "General") = true
  /\ can_insert (on_hospitals staffing_policies) example_db (Some 10%N)
       (a_hospital 3 "Hope") = false
  /\ can_insert (on_hospitals staffing_policies) example_db (Some 13%N)
       (a_hospital 3 "Hope") = true.
Proof.
  assert (Hpk : primary_key profiles.id (public_profiles example_db))
    by constraint_by_listing.
  split; [reflexivity|]. split; [reflexivity|].
  destruct (hospitals_read_by_all_written_by_admin example_db 13
              (a_profile 13 admin None) (a_hospital 1 "General")
              (a_hospital 3 "Hope") Hpk eq_refl) as (_ & _ & Hins & _).
  apply Hins. reflexivity.
Defined.

(** X16. Every signed-in caller reads every department; a caller without
    identity reads none.  Writing to departments is admitted exactly for a
    doctor or an admin; before 20250928152904 it was admitted exactly for
    an admin, so that migration admits the doctors and changes nothing
    else. *)
Theorem departments_read_by_all_written_by_staff (db : database) (c : uuid)
    (prof : profiles.Row) (old new : departments.Row) :
  primary_key profiles.id (public_profiles db) ->
  profile_of db c = Some prof ->
  let pols := on_departments staffing_policies in
  let before := on_departments staffing_policies_before_20250928152904 in
  let staff := profiles.role prof = doctor \/ profiles.role prof = admin in
  can_select pols db (Some c) old = true
  /\ can_select pols db None old = false
  /\ (can_insert pols db (Some c) new = true <-> staff)
  /\ (can_update pols db (Some c) old new = true <-> staff)
  /\ (can_delete pols db (Some c) old = true <-> staff)
  /\ (can_insert before db (Some c) new = true <-> profiles.role prof = admin)
  /\ (can_update before db (Some c) old new = true
      <-> profiles.role prof = admin)
  /\ (can_delete before db (Some c) old = true
      <-> profiles.role prof = admin).
Proof.
  intros Hpk Hprof pols before staff. unfold pols, before, staff.
  rewrite on_departments_in_force, on_departments_before.
  destruct (@select_and_all_policy departments.Row
              "All authenticated users can view departments"
              "Medical staff can manage departments"
              (TO_authenticated sql_true) (profile_role_in [doctor; admin])
              db (Some c)) as (Hs & Hi & Hu & Hd).
  destruct (@select_and_all_policy departments.Row
              "All authenticated users can view departments"
              "Medical staff can manage departments"
              (TO_authenticated sql_true) (profile_role_in [doctor; admin])
              db None) as (Hs0 & _).
  destruct (@select_and_all_policy departments.Row
              "All authenticated users can view departments"
              "Admins can manage departments"
              (TO_authenticated sql_true) profile_is_admin
              db (Some c)) as (_ & Hi' & Hu' & Hd').
  rewrite Hs, Hs0, Hi, Hu, Hd, Hi', Hu', Hd'.
  rewrite !(profile_role_in_caller db c prof Hpk Hprof).
  rewrite !(profile_is_admin_caller db c prof Hpk Hprof).
  rewrite profile_role_in_anonymous. rewrite !andb_diag.
  cbn. destruct (profiles.role prof); cbn; intuition discriminate.
Qed.

(** Doctor 10 may add a department now, and could not before the
    migration; specialist 11 may not. *)
Lemma departments_read_by_all_written_by_staff_witness :
  can_insert (on_departments staffing_policies) example_db (Some 10%N)
    (a_department 7 1) = true
  /\ can_insert (on_departments staffing_policies_before_20250928152904)
       example_db (Some 10%N) (a_department 7 1) = false
  /\ can_insert (on_departments staffing_policies) example_db (Some 11%N)
       (a_department 7 1) = false.
Proof.
  assert (Hpk : primary_key profiles.id (public_profiles example_db))
    by constraint_by_listing.
  destruct (departments_read_by_all_written_by_staff example_db 10
              (a_profile 10 doctor (Some 1%N)) (a_department 5 1)
              (a_department 7 1) Hpk eq_refl) as (_ & _ & Hins & _).
  split; [|split; reflexivity].
  apply Hins. left. reflexivity.
Defined.

(** X17. An assignment of a doctor to a hospital or to a department is
    visible to that doctor and to an admin, and to nobody else; it is
    created, changed and removed by an admin only, so no doctor assigns
    themself. *)
Theorem assignments_read_by_owner_written_by_admin (db : database)
    (c : uuid) (prof : profiles.Row) (h h' : doctor_hospitals.Row)
    (d d' : doctor_departments.Row) :
  primary_key profiles.id (public_profiles db) ->
  profile_of db c = Some prof ->
  let on_h := on_doctor_hospitals staffing_policies in
  let on_d := on_doctor_departments staffing_policies in
  let is_admin := profiles.role prof = admin in
  (can_select on_h db (Some c) h = true
   <-> doctor_hospitals.doctor_id h = c \/ is_admin)
  /\ (can_insert on_h db (Some c) h' = true <-> is_admin)
  /\ (can_update on_h db (Some c) h h' = true <-> is_admin)
  /\ (can_delete on_h db (Some c) h = true <-> is_admin)
  /\ (can_select on_d db (Some c) d = true
      <-> doctor_departments.doctor_id d = c \/ is_admin)
  /\ (can_insert on_d db (Some c) d' = true <-> is_admin)
  /\ (can_update on_d db (Some c) d d' = true <-> is_admin)
  /\ (can_delete on_d db (Some c) d = true <-> is_admin).
Proof.
  intros Hpk Hprof on_h on_d is_admin. unfold on_h, on_d, is_admin.
  rewrite on_doctor_hospitals_in_force, on_doctor_departments_in_force.
  destruct (@select_and_all_policy doctor_hospitals.Row
              "Doctors can view their own hospital assignments"
              "Admins can manage all doctor hospital assignments"
              own_hospital_assignment admin_role_by_function db (Some c))
    as (Hs & Hi & Hu & Hd).
  destruct (@select_and_all_policy doctor_departments.Row
              "Doctors can view their own department assignments"
              "Admins can manage all doctor department assignments"
              own_department_assignment admin_role_by_function db (Some c))
    as (Hs' & Hi' & Hu' & Hd').
  rewrite Hs, Hi, Hu, Hd, Hs', Hi', Hu', Hd'.
  unfold admin_role_by_function, own_hospital_assignment,
    own_department_assignment.
  rewrite !(has_profile_role_caller db c prof Hpk Hprof).
  rewrite !andb_diag, !orb_true_iff, !user_role_eqb_eq.
  cbn. rewrite !N.eqb_eq. intuition congruence.
Qed.

(** Doctor 10 sees the assignment to hospital 1 and may not create one;
    specialist 11 does not see it; admin 13 may create one. *)
Lemma assignments_read_by_owner_written_by_admin_witness :
  can_select (on_doctor_hospitals staffing_policies) example_db (Some 10%N)
    (a_hospital_assignment 40 10 1) = true
  /\ can_insert (on_doctor_hospitals staffing_policies) example_db
       (Some 10%N) (a_hospital_assignment 41 10 2) = false
  /\ can_select (on_doctor_hospitals staffing_policies) example_db
       (Some 11%N) (a_hospital_assignment 40 10 1) = false
  /\ can_insert (on_doctor_hospitals staffing_policies) example_db
       (Some 13%N) (a_hospital_assignment 41 10 2) = true.
Proof.
  assert (Hpk : primary_key profiles.id (public_profiles example_db))
    by constraint_by_listing.
  destruct (assignments_read_by_owner_written_by_admin example_db 13
              (a_profile 13 admin None) (a_hospital_assignment 40 10 1)
              (a_hospital_assignment 41 10 2)
              (a_department_assignment 50 10 5 1)
              (a_department_assignment 51 10 6 2) Hpk eq_refl)
    as (_ & Hins & _).
  split; [reflexivity|]. split; [reflexivity|]. split; [reflexivity|].
  apply Hins. reflexivity.
Defined.

(** * Sign-up *)

Lemma find_snoc_fresh {A : Type} (f : A -> bool) (l : list A) (x : A) :
  find f l = None -> f x = true -> find f (l ++ [x]) = Some x.
Proof.
  induction l as [|y l IH]; simpl; intros Hnone Hx.
  - now rewrite Hx.
  - destruct (f y); [discriminate|]. now apply IH.
Qed.

Lemma profiles_no_conflict (tbl : list profiles.Row) (NEW : profiles.Row) :
  profiles_conflict tbl NEW = false <->
  forall p, In p tbl ->
    profiles.id p <> profiles.id NEW
    /\ profiles.email p <> profiles.email NEW.
Proof.
  unfold profiles_conflict. split.
  - intros H p Hp.
    apply not_true_iff_false in H.
    split; intros E; apply H; apply existsb_exists; exists p;
      (split; [exact Hp|]); rewrite E.
    + now rewrite N.eqb_refl.
    + rewrite String.eqb_refl. apply orb_true_r.
  - intros H. apply not_true_is_false. intros Hex.
    apply existsb_exists in Hex. destruct Hex as [p [Hp Hc]].
    destruct (H p Hp) as [H1 H2].
    apply orb_prop in Hc. destruct Hc as [Hc|Hc].
    + now apply N.eqb_eq in Hc.
    + now apply String.eqb_eq in Hc.
Qed.

Lemma user_role_in_labels (label : text) :
  user_role_in label <> None <-> In label user_role_labels.
Proof.
  unfold user_role_in, user_role_labels. simpl.
  destruct (String.eqb_spec label "admin") as [->|N1];
    [split; [auto | discriminate]|].
  destruct (String.eqb_spec label "doctor") as [->|N2];
    [split; [auto | discriminate]|].
  destruct (String.eqb_spec label "specialist") as [->|N3];
    [split; [auto | discriminate]|].
  destruct (String.eqb_spec label "patient") as [->|N4];
    [split; [auto | discriminate]|].
  split; [congruence|]. intros [H|[H|[H|[H|[]]]]]; congruence.
Qed.

(** X18. A sign-up the trigger lets through appends exactly one profile
    and touches nothing else.  The profile has the id and e-mail of the new
    user, the role named in the sign-up metadata (patient when none is
    named), and no phone, hospital or department, whatever the metadata
    holds.  From then on [has_profile_role] answers true for that user on
    that role and on no other; so a sign-up that names admin makes an
    admin.  The policy of profiles for INSERT would have refused the same
    row to the new user. *)
Theorem signup_creates_profile (db db' : database) (now : timestamptz)
    (NEW : auth_users.Row) :
  primary_key profiles.id (public_profiles db) ->
  handle_new_user db now NEW = Profile_created db' ->
  exists row,
    db' = set_public_profiles db (public_profiles db ++ [row])
    /\ profiles.id row = auth_users.id NEW
    /\ Some (profiles.email row) = auth_users.email NEW
    /\ match jsonb_get_text (auth_users.raw_user_meta_data NEW) "role" with
       | Some label => user_role_in label = Some (profiles.role row)
       | None => profiles.role row = patient
       end
    /\ profiles.phone row = None
    /\ profiles.hospital_id row = None
    /\ profiles.department_id row = None
    /\ primary_key profiles.id (public_profiles db')
    /\ profile_of db' (auth_users.id NEW) = Some row
    /\ (forall r, has_profile_role db' (Some (auth_users.id NEW)) r = true
                  <-> r = profiles.role row)
    /\ can_insert (on_profiles policies) db (Some (auth_users.id NEW)) row
       = false.
Proof.
  intros Hpk H. unfold handle_new_user in H.
  destruct (cast_user_role _) as [e|role] eqn:Hcast; [discriminate|].
  destruct (auth_users.email NEW) as [em|] eqn:Hem; [|discriminate].
  cbv zeta in H.
  match type of H with
  | (if profiles_conflict _ ?r then _ else _) = _ => set (row := r) in *
  end.
  destruct (profiles_conflict (public_profiles db) row) eqn:Hc;
    [discriminate|].
  injection H as <-.
  rewrite profiles_no_conflict in Hc.
  assert (Hfresh : ~ In (profiles.id row) (map profiles.id (public_profiles db))).
  { intros Hin. apply in_map_iff in Hin. destruct Hin as [p [Hid Hp]].
    destruct (Hc p Hp) as [H1 _]. exact (H1 Hid). }
  assert (Hnone : profile_of db (auth_users.id NEW) = None).
  { unfold profile_of.
    destruct (find _ (public_profiles db)) as [p|] eqn:F; [|reflexivity].
    apply find_some in F. destruct F as [Hp E]. apply N.eqb_eq in E.
    destruct (Hc p Hp) as [H1 _]. exfalso. exact (H1 E). }
  assert (Hpk' : primary_key profiles.id (public_profiles db ++ [row]))
    by now apply primary_key_snoc.
  assert (Hprof : profile_of
                    (set_public_profiles db (public_profiles db ++ [row]))
                    (auth_users.id NEW) = Some row).
  { unfold profile_of. cbn [public_profiles set_public_profiles].
    apply find_snoc_fresh; [exact Hnone|]. apply N.eqb_refl. }
  exists row. repeat match goal with |- _ /\ _ => split end;
    try reflexivity; try assumption.
  - unfold cast_user_role in Hcast.
    destruct (jsonb_get_text _ _) as [label|].
    + destruct (user_role_in label); [|discriminate].
      now injection Hcast as <-.
    + now injection Hcast as <-.
  - intros r.
    rewrite (has_profile_role_caller
               (set_public_profiles db (public_profiles db ++ [row]))
               _ row Hpk' Hprof).
    rewrite user_role_eqb_eq. split; congruence.
  - cbn. rewrite orb_false_r. unfold admin_by_function, has_profile_role.
    now apply profile_of_None.
Qed.

(** User 15 signs up and names the role admin: the profile is stored, the
    function answers admin for 15, and the policy would have refused the
    row to 15. *)
Lemma signup_creates_profile_witness :
  exists db',
    handle_new_user example_db 7%Z (a_new_user 15 "new@example.org" "admin")
    = Profile_created db'
    /\ has_profile_role db' (Some 15%N) admin = true
    /\ List.length (public_profiles db') = 6%nat.
Proof.
  assert (Hpk : primary_key profiles.id (public_profiles example_db))
    by constraint_by_listing.
  eexists. split; [reflexivity|].
  destruct (signup_creates_profile example_db _ 7%Z
              (a_new_user 15 "new@example.org" "admin") Hpk eq_refl)
    as (row & Hdb & _ & _ & Hrole & _ & _ & _ & _ & _ & Hhas & _).
  split; [|reflexivity].
  apply Hhas. cbn in Hrole. congruence.
Defined.

(** X19. When the sign-up trigger lets a new user through: exactly when
    the role named in the metadata, if any, is one of the four labels of
    the enumeration, the new user has an e-mail, and no profile has the
    user's id or e-mail.  A role text that is no label fails the sign-up
    with the error of the cast, before any constraint is looked at. *)
Theorem signup_succeeds_exactly_when (db : database) (now : timestamptz)
    (NEW : auth_users.Row) :
  let role_text :=
    jsonb_get_text (auth_users.raw_user_meta_data NEW) "role" in
  ((exists db', handle_new_user db now NEW = Profile_created db')
   <-> (forall label, role_text = Some label -> In label user_role_labels)
       /\ exists em,
            auth_users.email NEW = Some em
            /\ forall p, In p (public_profiles db) ->
                 profiles.id p <> auth_users.id NEW
                 /\ profiles.email p <> em)
  /\ (forall label, role_text = Some label ->
        ~ In label user_role_labels ->
        handle_new_user db now NEW
        = Signup_fails (invalid_text_representation label)).
Proof.
  cbv zeta. split; [split|].
  - intros [db' H]. unfold handle_new_user in H.
    destruct (cast_user_role _) as [e|role] eqn:Hcast; [discriminate|].
    destruct (auth_users.email NEW) as [em|] eqn:Hem; [|discriminate].
    cbv zeta in H.
    match type of H with
    | (if profiles_conflict _ ?r then _ else _) = _ => set (row := r) in *
    end.
    destruct (profiles_conflict (public_profiles db) row) eqn:Hc;
      [discriminate|].
    split.
    + intros label Hl. rewrite Hl in Hcast. cbn [cast_user_role] in Hcast.
      apply user_role_in_labels.
      destruct (user_role_in label); [discriminate|discriminate].
    + exists em. split; [reflexivity|].
      rewrite profiles_no_conflict in Hc. exact Hc.
  - intros [Hlab [em [Hem Hc]]]. unfold handle_new_user.
    assert (Hcast : exists role,
      cast_user_role
        (jsonb_get_text (auth_users.raw_user_meta_data NEW) "role")
      = inr role).
    { destruct (jsonb_get_text _ _) as [label|]; cbn [cast_user_role].
      - specialize (Hlab label eq_refl). apply user_role_in_labels in Hlab.
        destruct (user_role_in label) as [r|]; [|congruence].
        now exists (Some r).
      - now exists None. }
    destruct Hcast as [role ->]. rewrite Hem. cbv zeta.
    match goal with
    | |- exists _, (if profiles_conflict _ ?r then _ else _) = _ =>
        set (row := r)
    end.
    replace (profiles_conflict (public_profiles db) row) with false.
    + eexists. reflexivity.
    + symmetry. apply profiles_no_conflict. exact Hc.
  - intros label Hl Hnot. unfold handle_new_user. rewrite Hl.
    cbn [cast_user_role].
    destruct (user_role_in label) eqn:U; [|reflexivity].
    exfalso. apply Hnot, user_role_in_labels. congruence.
Qed.

(** * The assignment dialog *)

Lemma includes_In (l : list uuid) (x : uuid) :
  includes l x = true <-> In x l.
Proof.
  unfold includes. rewrite existsb_exists. split.
  - intros [y [Hy E]]. apply N.eqb_eq in E. now subst.
  - intros H. exists x. split; [exact H|]. apply N.eqb_refl.
Qed.

(** The updater shared by the two handlers. *)
Lemma toggle_In (x : uuid) (prev : list uuid) (y : uuid) :
  In y (if includes prev x
        then filter (fun id => negb (N.eqb id x)) prev
        else prev ++ [x])
  <-> (y = x /\ ~ In x prev) \/ (y <> x /\ In y prev).
Proof.
  destruct (includes prev x) eqn:E.
  - apply includes_In in E. rewrite filter_In, negb_true_iff, N.eqb_neq.
    split.
    + intros [H1 H2]. right. auto.
    + intros [[-> H]|[H1 H2]]; [contradiction|auto].
  - assert (Hx : ~ In x prev).
    { intros H. apply includes_In in H. congruence. }
    rewrite in_app_iff. simpl. split.
    + intros [H|[<-|[]]]; [right|left; auto].
      split; [|exact H]. intros ->. contradiction.
    + intros [[-> _]|[_ H]]; auto.
Qed.

Lemma toggle_NoDup (x : uuid) (prev : list uuid) :
  NoDup prev ->
  NoDup (if includes prev x
         then filter (fun id => negb (N.eqb id x)) prev
         else prev ++ [x]).
Proof.
  intros Hnd. destruct (includes prev x) eqn:E.
  - now apply NoDup_filter.
  - apply NoDup_Add with (a := x) (l := prev ++ []).
    + apply Add_app.
    + rewrite app_nil_r. split; [exact Hnd|].
      intros H. apply includes_In in H. congruence.
Qed.

Lemma filter_all {A : Type} (f : A -> bool) (l : list A) :
  (forall a, In a l -> f a = true) -> filter f l = l.
Proof.
  induction l as [|a l IH]; simpl; [reflexivity|]. intros H.
  rewrite (H a (or_introl eq_refl)). f_equal. apply IH. auto.
Qed.

Lemma find_the_row {Row : Type} (pk : Row -> uuid) (tbl : list Row)
    (r : Row) :
  primary_key pk tbl -> In r tbl ->
  find (fun b => N.eqb (pk b) (pk r)) tbl = Some r.
Proof.
  unfold primary_key. induction tbl as [|b tbl IH]; simpl; [contradiction|].
  intros Hnd Hin. inversion Hnd as [|? ? Hnotin Hnd']; subst.
  destruct Hin as [->|Hin].
  - now rewrite N.eqb_refl.
  - destruct (N.eqb (pk b) (pk r)) eqn:E; [|now apply IH].
    apply N.eqb_eq in E. exfalso. apply Hnotin. rewrite E.
    now apply in_map.
Qed.

(** X20. Either toggle flips one entry of its list and no other: after it,
    an id is selected exactly when it is the toggled one and was not
    selected, or another one and was selected.  A selection without
    duplicates stays so.  The hospital toggle adds no department, and the
    department toggle leaves the hospitals alone. *)
Theorem toggle_flips_one_entry (departments : list departments.Row)
    (hospitalId departmentId : uuid) (st : selection) :
  NoDup (selectedHospitals st) ->
  NoDup (selectedDepartments st) ->
  let st1 := handleHospitalToggle departments hospitalId st in
  let st2 := handleDepartmentToggle departmentId st in
  (forall h, In h (selectedHospitals st1)
             <-> (h = hospitalId /\ ~ In hospitalId (selectedHospitals st))
                 \/ (h <> hospitalId /\ In h (selectedHospitals st)))
  /\ (forall d, In d (selectedDepartments st2)
                <-> (d = departmentId
                     /\ ~ In departmentId (selectedDepartments st))
                    \/ (d <> departmentId
                        /\ In d (selectedDepartments st)))
  /\ NoDup (selectedHospitals st1)
  /\ NoDup (selectedDepartments st1)
  /\ NoDup (selectedDepartments st2)
  /\ incl (selectedDepartments st1) (selectedDepartments st)
  /\ selectedHospitals st2 = selectedHospitals st.
Proof.
  intros Hh Hd st1 st2.
  repeat match goal with |- _ /\ _ => split end.
  - intros h. apply toggle_In.
  - intros d. apply toggle_In.
  - now apply toggle_NoDup.
  - now apply NoDup_filter.
  - now apply toggle_NoDup.
  - intros d Hin. apply filter_In in Hin. tauto.
  - reflexivity.
Qed.

Lemma toggle_flips_one_entry_witness :
  selectedHospitals
    (handleHospitalToggle (public_departments example_db) 1
       {| selectedHospitals := [1; 2]%N; selectedDepartments := [5]%N |})
  = [2]%N
  /\ NoDup [2]%N.
Proof.
  split; [reflexivity|].
  assert (H12 : NoDup [1; 2]%N).
  { repeat constructor; simpl; intuition discriminate. }
  assert (H5 : NoDup [5]%N).
  { repeat constructor; simpl; intuition discriminate. }
  destruct (toggle_flips_one_entry (public_departments example_db) 1 5
              {| selectedHospitals := [1; 2]%N;
                 selectedDepartments := [5]%N |} H12 H5)
    as (_ & _ & Hnd & _).
  exact Hnd.
Defined.

(** X21. While every selected department is one of those offered, that
    is, of a selected hospital, the hospital toggle does not change the
    selected departments at all.  So unselecting a hospital leaves its
    departments selected although they are no longer offered: the filter
    keeps the departments of the toggled hospital. *)
Theorem unselected_hospital_keeps_departments
    (departments : list departments.Row) (hospitalId : uuid)
    (st : selection) :
  primary_key departments.id departments ->
  (forall d, In d (selectedDepartments st) ->
     In d (map departments.id (getAvailableDepartments departments st))) ->
  let st' := handleHospitalToggle departments hospitalId st in
  selectedDepartments st' = selectedDepartments st
  /\ (In hospitalId (selectedHospitals st) ->
      forall dept, In dept departments ->
        departments.hospital_id dept = hospitalId ->
        In (departments.id dept) (selectedDepartments st) ->
        In (departments.id dept) (selectedDepartments st')
        /\ ~ In dept (getAvailableDepartments departments st')).
Proof.
  intros Hpk Hoffered st'.
  assert (Hsame : selectedDepartments st' = selectedDepartments st).
  { unfold st', handleHospitalToggle. cbn [selectedDepartments].
    apply filter_all. intros d Hd.
    apply Hoffered, in_map_iff in Hd. destruct Hd as [dept [<- Hdept]].
    unfold getAvailableDepartments in Hdept. apply filter_In in Hdept.
    destruct Hdept as [Hin Hsel].
    rewrite (find_the_row departments.id departments dept Hpk Hin).
    now rewrite Hsel. }
  split; [exact Hsame|].
  intros Hsel dept Hin Hhosp Hd. split; [now rewrite Hsame|].
  unfold getAvailableDepartments. rewrite filter_In. intros [_ Hoff].
  apply includes_In in Hoff. rewrite Hhosp in Hoff.
  unfold st', handleHospitalToggle in Hoff. cbn [selectedHospitals] in Hoff.
  apply includes_In in Hsel. rewrite Hsel in Hoff.
  apply filter_In in Hoff. destruct Hoff as [_ Hoff].
  now rewrite N.eqb_refl in Hoff.
Qed.

(** Hospitals 1 and 2 and department 5 of hospital 1 are selected;
    unselecting hospital 1 leaves department 5 selected. *)
Lemma unselected_hospital_keeps_departments_witness :
  let st' :=
    handleHospitalToggle (public_departments example_db) 1
      {| selectedHospitals := [1; 2]%N; selectedDepartments := [5]%N |} in
  selectedHospitals st' = [2]%N
  /\ In 5%N (selectedDepartments st')
  /\ ~ In (a_department 5 1)
         (getAvailableDepartments (public_departments example_db) st').
Proof.
  assert (Hpk : primary_key departments.id (public_departments example_db))
    by constraint_by_listing.
  pose (st := {| selectedHospitals := [1; 2]%N;
                 selectedDepartments := [5]%N |}).
  assert (Hoffered : forall d, In d (selectedDepartments st) ->
    In d (map departments.id
            (getAvailableDepartments (public_departments example_db) st))).
  { intros d [<-|[]]. left. reflexivity. }
  destruct (unselected_hospital_keeps_departments
              (public_departments example_db) 1 st Hpk Hoffered)
    as [_ Hkeep].
  split; [reflexivity|].
  apply (Hkeep (or_introl eq_refl) (a_department 5 1)).
  - left. reflexivity.
  - reflexivity.
  - left. reflexivity.
Defined.

(** * The tracking page *)








(** * Saving the assignments of a doctor *)

Section InsertRows.

Context {Row : Type}.
Variable pols : list (policy Row).
Variable conflict : list Row -> Row -> bool.
Variable fk_missing : Row -> bool.
Variable db : database.
Variable uid : option uuid.

(** A statement that succeeds has appended its rows, in order. *)
Lemma insert_rows_shape (NEWs : list Row) :
  forall tbl tbl',
    insert_rows pols conflict fk_missing db uid NEWs tbl = Done tbl' ->
    tbl' = tbl ++ NEWs.
Proof.
  induction NEWs as [|NEW more IH]; simpl; intros tbl tbl' H.
  - injection H as <-. now rewrite app_nil_r.
  - destruct (insert_row pols conflict fk_missing db uid NEW tbl)
      as [tbl1|e] eqn:E; [|discriminate].
    unfold insert_row in E.
    destruct (negb (can_insert pols db uid NEW)); [discriminate|].
    destruct (conflict tbl NEW); [discriminate|].
    destruct (fk_missing NEW); [discriminate|].
    injection E as <-. apply IH in H. rewrite H, <- app_assoc.
    reflexivity.
Qed.

Lemma insert_rows_refused (NEW : Row) (more tbl : list Row) :
  can_insert pols db uid NEW = false ->
  insert_rows pols conflict fk_missing db uid (NEW :: more) tbl
  = Raise row_security_violation.
Proof. intros H. simpl. unfold insert_row. now rewrite H. Qed.

Lemma delete_where_doctor_id_none (doctor_id : Row -> uuid) (doc : uuid)
    (tbl : list Row) :
  (forall r, can_delete pols db uid r = false) ->
  delete_where_doctor_id doctor_id pols db uid doc tbl = tbl.
Proof.
  intros H. unfold delete_where_doctor_id. apply filter_all.
  intros r _. now rewrite H, andb_false_r.
Qed.

Lemma delete_where_doctor_id_all (doctor_id : Row -> uuid) (doc : uuid)
    (tbl : list Row) :
  (forall r, can_delete pols db uid r = true) ->
  delete_where_doctor_id doctor_id pols db uid doc tbl
  = filter (fun r => negb (N.eqb (doctor_id r) doc)) tbl.
Proof.
  intros H. unfold delete_where_doctor_id. apply filter_ext.
  intros r. now rewrite H, andb_true_r.
Qed.

End InsertRows.

Section AssignmentsCaller.

Variable db : database.
Variable c : uuid.
Variable prof : profiles.Row.
Hypothesis Hpk : primary_key profiles.id (public_profiles db).
Hypothesis Hprof : profile_of db c = Some prof.

Lemma doctor_hospitals_writes (r : doctor_hospitals.Row) :
  can_insert (on_doctor_hospitals staffing_policies) db (Some c) r
  = user_role_eqb (profiles.role prof) admin
  /\ can_delete (on_doctor_hospitals staffing_policies) db (Some c) r
     = user_role_eqb (profiles.role prof) admin.
Proof.
  rewrite on_doctor_hospitals_in_force.
  destruct (@select_and_all_policy doctor_hospitals.Row
              "Doctors can view their own hospital assignments"
              "Admins can manage all doctor hospital assignments"
              own_hospital_assignment admin_role_by_function db (Some c))
    as (_ & Hi & _ & Hd).
  rewrite Hi, Hd. unfold admin_role_by_function.
  rewrite (has_profile_role_caller db c prof Hpk Hprof). auto.
Qed.

Lemma doctor_departments_writes (r : doctor_departments.Row) :
  can_insert (on_doctor_departments staffing_policies) db (Some c) r
  = user_role_eqb (profiles.role prof) admin
  /\ can_delete (on_doctor_departments staffing_policies) db (Some c) r
     = user_role_eqb (profiles.role prof) admin.
Proof.
  rewrite on_doctor_departments_in_force.
  destruct (@select_and_all_policy doctor_departments.Row
              "Doctors can view their own department assignments"
              "Admins can manage all doctor department assignments"
              own_department_assignment admin_role_by_function db (Some c))
    as (_ & Hi & _ & Hd).
  rewrite Hi, Hd. unfold admin_role_by_function.
  rewrite (has_profile_role_caller db c prof Hpk Hprof). auto.
Qed.

End AssignmentsCaller.

Lemma not_admin (r : user_role) :
  r <> admin -> user_role_eqb r admin = false.
Proof. destruct r; simpl; congruence. Qed.

(** X24. For a caller who is no admin [saveAssignments] changes neither
    junction table: the DELETEs reach no row and the first INSERT is
    refused.  It still reports success when both selections are empty,
    and an error otherwise. *)
Theorem save_assignments_needs_admin (db : database) (c : uuid)
    (prof : profiles.Row) (now : timestamptz) (uuids_h uuids_d : nat -> uuid)
    (departments : list departments.Row) (doc : uuid) (st : selection)
    (a : assignments) :
  primary_key profiles.id (public_profiles db) ->
  profile_of db c = Some prof ->
  profiles.role prof <> admin ->
  saveAssignments db (Some c) now uuids_h uuids_d departments (Some doc) st a
  = (a, Some match selectedHospitals st, selectedDepartments st with
              | [], [] => toast_Success
              | _, _ => toast_Error
              end).
Proof.
  intros Hpk Hprof Hrole. apply not_admin in Hrole.
  assert (Hh : forall r,
    can_insert (on_doctor_hospitals staffing_policies) db (Some c) r = false
    /\ can_delete (on_doctor_hospitals staffing_policies) db (Some c) r
       = false).
  { intros r. rewrite <- Hrole.
    apply (doctor_hospitals_writes db c prof Hpk Hprof). }
  assert (Hd : forall r,
    can_insert (on_doctor_departments staffing_policies) db (Some c) r
    = false
    /\ can_delete (on_doctor_departments staffing_policies) db (Some c) r
       = false).
  { intros r. rewrite <- Hrole.
    apply (doctor_departments_writes db c prof Hpk Hprof). }
  unfold saveAssignments. cbv zeta.
  rewrite (delete_where_doctor_id_none _ db (Some c)
             doctor_hospitals.doctor_id doc _ (fun r => proj2 (Hh r))).
  rewrite (delete_where_doctor_id_none _ db (Some c)
             doctor_departments.doctor_id doc _ (fun r => proj2 (Hd r))).
  destruct a as [ah ad]. cbn [public_doctor_hospitals public_doctor_departments].
  destruct (selectedHospitals st) as [|h hs].
  - cbn [List.length Nat.ltb Nat.leb map].
    destruct (selectedDepartments st) as [|d ds].
    + reflexivity.
    + cbn [List.length Nat.ltb Nat.leb map].
      unfold insert_doctor_departments.
      cbn [doctor_departments_new_rows doctor_departments.new_hospital_id].
      destruct (option_map _ _); [|reflexivity].
      destruct (doctor_departments_new_rows _ _ _ _); [|reflexivity].
      rewrite insert_rows_refused by apply Hd. reflexivity.
  - cbn [List.length Nat.ltb Nat.leb map].
    unfold insert_doctor_hospitals. cbn [doctor_hospitals_new_rows].
    rewrite insert_rows_refused by apply Hh. reflexivity.
Qed.

(** Doctor 10 tries to move to hospital 2: nothing changes, and the
    error toast is shown. *)
Lemma save_assignments_needs_admin_witness :
  saveAssignments example_db (Some 10%N) 9%Z example_uuids example_uuids
    (public_departments example_db) (Some 10%N) example_selection
    example_assignments
  = (example_assignments, Some toast_Error).
Proof.
  assert (Hpk : primary_key profiles.id (public_profiles example_db))
    by constraint_by_listing.
  assert (Hrole : profiles.role (a_profile 10 doctor (Some 1%N)) <> admin)
    by discriminate.
  exact (save_assignments_needs_admin example_db 10
           (a_profile 10 doctor (Some 1%N)) 9%Z example_uuids example_uuids
           (public_departments example_db) 10 example_selection
           example_assignments Hpk eq_refl Hrole).
Defined.

Lemma filter_filter_negb {A : Type} (p : A -> bool) (l : list A) :
  filter p (filter (fun x => negb (p x)) l) = []
  /\ filter (fun x => negb (p x)) (filter (fun x => negb (p x)) l)
     = filter (fun x => negb (p x)) l.
Proof.
  split.
  - apply filter_none. intros x Hx. apply filter_In in Hx.
    destruct Hx as [_ Hx]. now apply negb_true_iff in Hx.
  - apply filter_all. intros x Hx. apply filter_In in Hx. tauto.
Qed.

Lemma filter_Forall {A : Type} (p : A -> bool) (l : list A) :
  Forall (fun x => p x = true) l ->
  filter p l = l /\ filter (fun x => negb (p x)) l = [].
Proof.
  intros H. rewrite Forall_forall in H. split.
  - now apply filter_all.
  - apply filter_none. intros x Hx. now rewrite (H x Hx).
Qed.

(** The rows an INSERT of [saveAssignments] stores are the doctor's, one
    per selected id, in the order of the selection. *)
Lemma hospital_rows_of_doc (now : timestamptz) (uuids : nat -> uuid)
    (doc : uuid) (sel : list uuid) :
  forall k,
    let rows :=
      doctor_hospitals_new_rows now uuids k
        (map (fun hospitalId =>
                {| doctor_hospitals.new_doctor_id := doc;
                   doctor_hospitals.new_hospital_id := hospitalId |}) sel) in
    map doctor_hospitals.hospital_id rows = sel
    /\ Forall (fun r => N.eqb (doctor_hospitals.doctor_id r) doc = true) rows.
Proof.
  induction sel as [|h sel IH]; intros k; cbn.
  - split; [reflexivity|constructor].
  - destruct (IH (S k)) as [IH1 IH2]. split.
    + now rewrite IH1.
    + constructor; [apply N.eqb_refl|exact IH2].
Qed.

Lemma department_rows_of_doc (now : timestamptz) (uuids : nat -> uuid)
    (doc : uuid) (departments : list departments.Row) (sel : list uuid) :
  forall k rows,
    doctor_departments_new_rows now uuids k
      (map (fun departmentId =>
              {| doctor_departments.new_doctor_id := doc;
                 doctor_departments.new_department_id := departmentId;
                 doctor_departments.new_hospital_id :=
                   option_map departments.hospital_id
                     (find (fun d => N.eqb (departments.id d) departmentId)
                        departments) |}) sel)
    = Done rows ->
    map doctor_departments.department_id rows = sel
    /\ Forall (fun r => N.eqb (doctor_departments.doctor_id r) doc = true)
         rows.
Proof.
  induction sel as [|d sel IH]; intros k rows; cbn.
  - intros H. injection H as <-. split; [reflexivity|constructor].
  - destruct (option_map _ _) as [h|]; [|discriminate].
    destruct (doctor_departments_new_rows _ _ _ _) as [rest|e] eqn:E;
      [|discriminate].
    intros H. injection H as <-. destruct (IH (S k) rest E) as [IH1 IH2].
    split.
    + cbn. now rewrite IH1.
    + constructor; [apply N.eqb_refl|exact IH2].
Qed.

Lemma hospitals_step (db : database) (uid : option uuid) (now : timestamptz)
    (uuids : nat -> uuid) (NEWs : list doctor_hospitals.Insert)
    (n : nat) (tbl tbl' : list doctor_hospitals.Row) :
  (if Nat.ltb 0 n
   then insert_doctor_hospitals db uid now uuids NEWs tbl
   else Done tbl) = Done tbl' ->
  (n = 0%nat /\ tbl' = tbl)
  \/ tbl' = tbl ++ doctor_hospitals_new_rows now uuids 0 NEWs.
Proof.
  destruct n as [|n]; cbn [Nat.ltb Nat.leb].
  - intros H. injection H as <-. now left.
  - intros H. right. unfold insert_doctor_hospitals in H.
    now apply insert_rows_shape in H.
Qed.

Lemma departments_step (db : database) (uid : option uuid)
    (now : timestamptz) (uuids : nat -> uuid)
    (NEWs : list doctor_departments.Insert) (n : nat)
    (tbl tbl' : list doctor_departments.Row) :
  (if Nat.ltb 0 n
   then insert_doctor_departments db uid now uuids NEWs tbl
   else Done tbl) = Done tbl' ->
  (n = 0%nat /\ tbl' = tbl)
  \/ exists rows,
       doctor_departments_new_rows now uuids 0 NEWs = Done rows
       /\ tbl' = tbl ++ rows.
Proof.
  destruct n as [|n]; cbn [Nat.ltb Nat.leb].
  - intros H. injection H as <-. now left.
  - intros H. right. unfold insert_doctor_departments in H.
    destruct (doctor_departments_new_rows now uuids 0 NEWs) as [rows|e];
      [|discriminate].
    exists rows. split; [reflexivity|].
    now apply insert_rows_shape in H.
Qed.

(** X25. When an admin saves the assignments of a doctor, the rows of the
    other doctors are left as they were.  After the success toast the
    doctor's rows are exactly the selection, hospital by hospital and
    department by department.  After the error toast the deletion is not
    undone: the doctor has no department assignment left, and either no
    hospital assignment or the newly selected ones. *)
Theorem save_assignments_by_admin (db : database) (c : uuid)
    (prof : profiles.Row) (now : timestamptz) (uuids_h uuids_d : nat -> uuid)
    (departments : list departments.Row) (doc : uuid) (st : selection)
    (a a' : assignments) (t : option toast) :
  primary_key profiles.id (public_profiles db) ->
  profile_of db c = Some prof ->
  profiles.role prof = admin ->
  saveAssignments db (Some c) now uuids_h uuids_d departments (Some doc) st a
  = (a', t) ->
  let of_doc_h := fun r => N.eqb (doctor_hospitals.doctor_id r) doc in
  let of_doc_d := fun r => N.eqb (doctor_departments.doctor_id r) doc in
  let hospitals_of x :=
    map doctor_hospitals.hospital_id
      (filter of_doc_h (public_doctor_hospitals x)) in
  let departments_of x :=
    map doctor_departments.department_id
      (filter of_doc_d (public_doctor_departments x)) in
  filter (fun r => negb (of_doc_h r)) (public_doctor_hospitals a')
  = filter (fun r => negb (of_doc_h r)) (public_doctor_hospitals a)
  /\ filter (fun r => negb (of_doc_d r)) (public_doctor_departments a')
     = filter (fun r => negb (of_doc_d r)) (public_doctor_departments a)
  /\ (t = Some toast_Success ->
      hospitals_of a' = selectedHospitals st
      /\ departments_of a' = selectedDepartments st)
  /\ (t = Some toast_Error ->
      departments_of a' = []
      /\ (hospitals_of a' = [] \/ hospitals_of a' = selectedHospitals st)).
Proof.
  intros Hpk Hprof Hrole H. cbv zeta beta.
  assert (Hadm : user_role_eqb (profiles.role prof) admin = true)
    by now rewrite Hrole.
  assert (Hh : forall r,
    can_delete (on_doctor_hospitals staffing_policies) db (Some c) r = true).
  { intros r. rewrite <- Hadm.
    apply (doctor_hospitals_writes db c prof Hpk Hprof). }
  assert (Hd : forall r,
    can_delete (on_doctor_departments staffing_policies) db (Some c) r
    = true).
  { intros r. rewrite <- Hadm.
    apply (doctor_departments_writes db c prof Hpk Hprof). }
  unfold saveAssignments in H. cbv zeta in H.
  rewrite (delete_where_doctor_id_all _ db (Some c)
             doctor_hospitals.doctor_id doc _ Hh) in H.
  rewrite (delete_where_doctor_id_all _ db (Some c)
             doctor_departments.doctor_id doc _ Hd) in H.
  pose proof (filter_filter_negb
                (fun r => N.eqb (doctor_hospitals.doctor_id r) doc)
                (public_doctor_hospitals a)) as Hhs.
  pose proof (filter_filter_negb
                (fun r => N.eqb (doctor_departments.doctor_id r) doc)
                (public_doctor_departments a)) as Hds.
  pose proof (fun rows =>
    filter_Forall (fun r => N.eqb (doctor_hospitals.doctor_id r) doc) rows)
    as Fh.
  pose proof (fun rows =>
    filter_Forall (fun r => N.eqb (doctor_departments.doctor_id r) doc) rows)
    as Fd.
  cbv beta in Hhs, Hds, Fh, Fd.
  set (hs := filter (fun r => negb (N.eqb (doctor_hospitals.doctor_id r) doc))
               (public_doctor_hospitals a)) in *.
  set (ds := filter
               (fun r => negb (N.eqb (doctor_departments.doctor_id r) doc))
               (public_doctor_departments a)) in *.
  destruct Hhs as [Hhs1 Hhs2]. destruct Hds as [Hds1 Hds2].
  match type of H with
  | match ?step with _ => _ end = _ => destruct step as [hs'|e] eqn:E1
  end.
  - assert (Hhs' :
      filter (fun r => negb (N.eqb (doctor_hospitals.doctor_id r) doc)) hs'
      = hs
      /\ map doctor_hospitals.hospital_id
           (filter (fun r => N.eqb (doctor_hospitals.doctor_id r) doc) hs')
         = selectedHospitals st).
    { apply hospitals_step in E1. destruct E1 as [[Hn ->] | ->].
      - split; [exact Hhs2|]. rewrite Hhs1.
        apply length_zero_iff_nil in Hn. now rewrite Hn.
      - destruct (hospital_rows_of_doc now uuids_h doc
                    (selectedHospitals st) 0) as [Hsel Hdoc].
        apply Fh in Hdoc. destruct Hdoc as [F1 F2].
        rewrite !filter_app, Hhs1, Hhs2, F1, F2, app_nil_r. auto. }
    destruct Hhs' as [Hoth Hsel].
    match type of H with
    | match ?step with _ => _ end = _ => destruct step as [ds'|e] eqn:E2
    end.
    + injection H as <- <-.
      cbn [public_doctor_hospitals public_doctor_departments].
      assert (Hds' :
        filter
          (fun r => negb (N.eqb (doctor_departments.doctor_id r) doc)) ds'
        = ds
        /\ map doctor_departments.department_id
             (filter (fun r => N.eqb (doctor_departments.doctor_id r) doc)
                ds')
           = selectedDepartments st).
      { apply departments_step in E2.
        destruct E2 as [[Hn ->] | [rows [Hrows ->]]].
        - split; [exact Hds2|]. rewrite Hds1.
          apply length_zero_iff_nil in Hn. now rewrite Hn.
        - destruct (department_rows_of_doc now uuids_d doc departments
                      (selectedDepartments st) 0 rows Hrows)
            as [Hs Hdoc].
          apply Fd in Hdoc. destruct Hdoc as [F1 F2].
          rewrite !filter_app, Hds1, Hds2, F1, F2, app_nil_r. auto. }
      destruct Hds' as [Hoth' Hsel'].
      repeat match goal with |- _ /\ _ => split end; auto; discriminate.
    + injection H as <- <-.
      cbn [public_doctor_hospitals public_doctor_departments].
      rewrite Hds1, Hds2.
      repeat match goal with |- _ /\ _ => split end; auto; discriminate.
  - injection H as <- <-.
    cbn [public_doctor_hospitals public_doctor_departments].
    rewrite Hhs1, Hhs2, Hds1, Hds2.
    repeat match goal with |- _ /\ _ => split end; auto; discriminate.
Qed.

(** Admin 13 assigns doctor 10 to a hospital 9 that does not exist: the
    INSERT fails, and the assignments doctor 10 had are gone. *)
Lemma save_assignments_by_admin_witness :
  let result :=
    saveAssignments example_db (Some 13%N) 9%Z example_uuids example_uuids
      (public_departments example_db) (Some 10%N)
      {| selectedHospitals := [9%N]; selectedDepartments := [] |}
      example_assignments in
  snd result = Some toast_Error
  /\ public_doctor_hospitals (fst result) = [a_hospital_assignment 42 11 1]
  /\ filter (fun r => N.eqb (doctor_departments.doctor_id r) 10)
       (public_doctor_departments (fst result)) = [].
Proof.
  assert (Hpk : primary_key profiles.id (public_profiles example_db))
    by constraint_by_listing.
  cbv zeta.
  destruct (saveAssignments example_db (Some 13%N) 9%Z example_uuids
              example_uuids (public_departments example_db) (Some 10%N)
              {| selectedHospitals := [9%N]; selectedDepartments := [] |}
              example_assignments) as [a' t] eqn:Hrun.
  destruct (save_assignments_by_admin example_db 13
              (a_profile 13 admin None) 9%Z example_uuids example_uuids
              (public_departments example_db) 10
              {| selectedHospitals := [9%N]; selectedDepartments := [] |}
              example_assignments a' t Hpk eq_refl eq_refl Hrun)
    as (_ & _ & _ & Herr).
  assert (Ht : t = Some toast_Error).
  { vm_compute in Hrun. now injection Hrun as _ <-. }
  destruct (Herr Ht) as [Hnone _]. cbn [fst snd].
  split; [exact Ht|]. split.
  - vm_compute in Hrun. now injection Hrun as <- _.
  - apply map_eq_nil in Hnone. exact Hnone.
Defined.

Section AdminInserts.

Variable db : database.
Variable uid : option uuid.
Variable now : timestamptz.
Variable uuids : nat -> uuid.
Variable doc : uuid.
Hypothesis Hdoc : references profiles.id (public_profiles db) doc.
Hypothesis Hinj : forall i j, uuids i = uuids j -> i = j.

(** With the policy out of the way, the INSERT into doctor_hospitals goes
    through when the selection has no duplicate, names hospitals that
    exist, and the table holds neither one of the identifiers still to be
    drawn nor an assignment of the doctor to a selected hospital. *)
Lemma insert_hospital_rows_done :
  (forall r, can_insert (on_doctor_hospitals staffing_policies) db uid r
             = true) ->
  forall sel k tbl,
    NoDup sel ->
    Forall (references hospitals.id (public_hospitals db)) sel ->
    (forall r, In r tbl ->
       (forall j, k <= j -> doctor_hospitals.id r <> uuids j)
       /\ (doctor_hospitals.doctor_id r = doc ->
           ~ In (doctor_hospitals.hospital_id r) sel)) ->
    insert_rows (on_doctor_hospitals staffing_policies)
      doctor_hospitals_conflict (doctor_hospitals_fk_missing db) db uid
      (doctor_hospitals_new_rows now uuids k
         (map (fun hospitalId =>
                 {| doctor_hospitals.new_doctor_id := doc;
                    doctor_hospitals.new_hospital_id := hospitalId |}) sel))
      tbl
    = Done (tbl ++ doctor_hospitals_new_rows now uuids k
                     (map (fun hospitalId =>
                             {| doctor_hospitals.new_doctor_id := doc;
                                doctor_hospitals.new_hospital_id :=
                                  hospitalId |}) sel)).
Proof.
  intros Hpol. induction sel as [|h sel IH]; intros k tbl Hnd Href Hinv.
  - cbn. now rewrite app_nil_r.
  - cbn [map doctor_hospitals_new_rows insert_rows
         doctor_hospitals.new_doctor_id doctor_hospitals.new_hospital_id].
    set (row := {| doctor_hospitals.id := uuids k;
                   doctor_hospitals.doctor_id := doc;
                   doctor_hospitals.hospital_id := h;
                   doctor_hospitals.created_at := now |}).
    inversion Hnd as [|? ? Hnotin Hnd']; subst.
    inversion Href as [|? ? Hh Href']; subst.
    unfold insert_row. rewrite Hpol. cbn [negb].
    replace (doctor_hospitals_conflict tbl row) with false.
    2:{ symmetry. apply not_true_is_false. intros Hex.
        apply existsb_exists in Hex. destruct Hex as [r [Hr Hc]].
        destruct (Hinv r Hr) as [Hid Hpair].
        apply orb_prop in Hc. destruct Hc as [Hc|Hc].
        - apply N.eqb_eq in Hc. exact (Hid k (le_n k) Hc).
        - apply andb_prop in Hc. destruct Hc as [Hc1 Hc2].
          apply N.eqb_eq in Hc1, Hc2. apply (Hpair Hc1).
          left. symmetry. exact Hc2. }
    replace (doctor_hospitals_fk_missing db row) with false.
    2:{ symmetry. unfold doctor_hospitals_fk_missing.
        apply negb_false_iff, andb_true_intro.
        split; now apply has_id_references. }
    rewrite (IH (S k) (tbl ++ [row]) Hnd' Href').
    + now rewrite <- app_assoc.
    + intros r Hr. apply in_app_or in Hr. destruct Hr as [Hr|[<-|[]]].
      * destruct (Hinv r Hr) as [Hid Hpair]. split.
        -- intros j Hj. apply Hid. lia.
        -- intros E Hin. apply (Hpair E). now right.
      * split.
        -- intros j Hj E. apply Hinj in E. lia.
        -- intros _. exact Hnotin.
Qed.

Lemma insert_department_rows_done (departments : list departments.Row) :
  (forall r, can_insert (on_doctor_departments staffing_policies) db uid r
             = true) ->
  forall sel k tbl,
    NoDup sel ->
    Forall (fun d =>
      references departments.id (public_departments db) d
      /\ exists dept,
           find (fun x => N.eqb (departments.id x) d) departments = Some dept
           /\ references hospitals.id (public_hospitals db)
                (departments.hospital_id dept)) sel ->
    (forall r, In r tbl ->
       (forall j, k <= j -> doctor_departments.id r <> uuids j)
       /\ (doctor_departments.doctor_id r = doc ->
           ~ In (doctor_departments.department_id r) sel)) ->
    exists rows,
      doctor_departments_new_rows now uuids k
        (map (fun departmentId =>
                {| doctor_departments.new_doctor_id := doc;
                   doctor_departments.new_department_id := departmentId;
                   doctor_departments.new_hospital_id :=
                     option_map departments.hospital_id
                       (find (fun d => N.eqb (departments.id d) departmentId)
                          departments) |}) sel)
      = Done rows
      /\ insert_rows (on_doctor_departments staffing_policies)
           doctor_departments_conflict (doctor_departments_fk_missing db)
           db uid rows tbl
         = Done (tbl ++ rows).
Proof.
  intros Hpol. induction sel as [|d sel IH]; intros k tbl Hnd Href Hinv.
  - exists []. cbn. now rewrite app_nil_r.
  - inversion Hnd as [|? ? Hnotin Hnd']; subst.
    inversion Href as [|? ? [Hd [dept [Hfind Hh]]] Href']; subst.
    cbn [map doctor_departments_new_rows
         doctor_departments.new_doctor_id
         doctor_departments.new_department_id
         doctor_departments.new_hospital_id].
    rewrite Hfind. cbn [option_map].
    set (row := {| doctor_departments.id := uuids k;
                   doctor_departments.doctor_id := doc;
                   doctor_departments.department_id := d;
                   doctor_departments.hospital_id :=
                     departments.hospital_id dept;
                   doctor_departments.created_at := now |}).
    destruct (IH (S k) (tbl ++ [row]) Hnd' Href') as [rows [Hrows Hins]].
    + intros r Hr. apply in_app_or in Hr. destruct Hr as [Hr|[<-|[]]].
      * destruct (Hinv r Hr) as [Hid Hpair]. split.
        -- intros j Hj. apply Hid. lia.
        -- intros E Hin. apply (Hpair E). now right.
      * split.
        -- intros j Hj E. apply Hinj in E. lia.
        -- intros _. exact Hnotin.
    + rewrite Hrows. exists (row :: rows). split; [reflexivity|].
      cbn [insert_rows]. unfold insert_row. rewrite Hpol. cbn [negb].
      replace (doctor_departments_conflict tbl row) with false.
      2:{ symmetry. apply not_true_is_false. intros Hex.
          apply existsb_exists in Hex. destruct Hex as [r [Hr Hc]].
          destruct (Hinv r Hr) as [Hid Hpair].
          apply orb_prop in Hc. destruct Hc as [Hc|Hc].
          - apply N.eqb_eq in Hc. exact (Hid k (le_n k) Hc).
          - apply andb_prop in Hc. destruct Hc as [Hc _].
            apply andb_prop in Hc. destruct Hc as [Hc1 Hc2].
            apply N.eqb_eq in Hc1, Hc2. apply (Hpair Hc1).
            left. symmetry. exact Hc2. }
      replace (doctor_departments_fk_missing db row) with false.
      2:{ symmetry. unfold doctor_departments_fk_missing.
          apply negb_false_iff.
          repeat (apply andb_true_intro; split);
            now apply has_id_references. }
      rewrite Hins. now rewrite <- app_assoc.
Qed.

End AdminInserts.

(** X26. An admin's [saveAssignments] ends with the success toast when
    the doctor has a profile, neither selection has a duplicate, every
    selected hospital exists, every selected department exists and is
    known to the page with a hospital that exists, and the identifiers
    drawn for the new rows are new and distinct. *)
Theorem save_assignments_succeeds (db : database) (c : uuid)
    (prof : profiles.Row) (now : timestamptz) (uuids_h uuids_d : nat -> uuid)
    (departments : list departments.Row) (doc : uuid) (st : selection)
    (a : assignments) :
  primary_key profiles.id (public_profiles db) ->
  profile_of db c = Some prof ->
  profiles.role prof = admin ->
  references profiles.id (public_profiles db) doc ->
  NoDup (selectedHospitals st) ->
  Forall (references hospitals.id (public_hospitals db))
    (selectedHospitals st) ->
  NoDup (selectedDepartments st) ->
  Forall (fun d =>
    references departments.id (public_departments db) d
    /\ exists dept,
         find (fun x => N.eqb (departments.id x) d) departments = Some dept
         /\ references hospitals.id (public_hospitals db)
              (departments.hospital_id dept)) (selectedDepartments st) ->
  (forall i j, uuids_h i = uuids_h j -> i = j) ->
  (forall r k, In r (public_doctor_hospitals a) ->
     doctor_hospitals.id r <> uuids_h k) ->
  (forall i j, uuids_d i = uuids_d j -> i = j) ->
  (forall r k, In r (public_doctor_departments a) ->
     doctor_departments.id r <> uuids_d k) ->
  snd (saveAssignments db (Some c) now uuids_h uuids_d departments (Some doc)
         st a)
  = Some toast_Success.
Proof.
  intros Hpk Hprof Hrole Hdoc Hndh Hrefh Hndd Hrefd Hinjh Hfreshh Hinjd
    Hfreshd.
  assert (Hadm : user_role_eqb (profiles.role prof) admin = true)
    by now rewrite Hrole.
  assert (Hh : forall r,
    can_insert (on_doctor_hospitals staffing_policies) db (Some c) r = true
    /\ can_delete (on_doctor_hospitals staffing_policies) db (Some c) r
       = true).
  { intros r. rewrite <- Hadm.
    apply (doctor_hospitals_writes db c prof Hpk Hprof). }
  assert (Hd : forall r,
    can_insert (on_doctor_departments staffing_policies) db (Some c) r
    = true
    /\ can_delete (on_doctor_departments staffing_policies) db (Some c) r
       = true).
  { intros r. rewrite <- Hadm.
    apply (doctor_departments_writes db c prof Hpk Hprof). }
  unfold saveAssignments. cbv zeta.
  rewrite (delete_where_doctor_id_all _ db (Some c)
             doctor_hospitals.doctor_id doc _ (fun r => proj2 (Hh r))).
  rewrite (delete_where_doctor_id_all _ db (Some c)
             doctor_departments.doctor_id doc _ (fun r => proj2 (Hd r))).
  unfold insert_doctor_hospitals.
  rewrite (insert_hospital_rows_done db (Some c) now uuids_h doc Hdoc Hinjh
             (fun r => proj1 (Hh r)) (selectedHospitals st) 0 _ Hndh Hrefh).
  2:{ intros r Hr. apply filter_In in Hr. destruct Hr as [Hr Hne].
      apply negb_true_iff, N.eqb_neq in Hne. split.
      - intros j _. now apply Hfreshh.
      - intros E. contradiction. }
  destruct (insert_department_rows_done db (Some c) now uuids_d doc Hdoc
              Hinjd departments (fun r => proj1 (Hd r))
              (selectedDepartments st) 0
              (filter (fun r =>
                         negb (N.eqb (doctor_departments.doctor_id r) doc))
                 (public_doctor_departments a)) Hndd Hrefd)
    as [rows [Hrows Hins]].
  { intros r Hr. apply filter_In in Hr. destruct Hr as [Hr Hne].
    apply negb_true_iff, N.eqb_neq in Hne. split.
    - intros j _. now apply Hfreshd.
    - intros E. contradiction. }
  unfold insert_doctor_departments.
  match goal with
  | |- context [doctor_departments_new_rows now uuids_d 0 ?l] =>
      replace (doctor_departments_new_rows now uuids_d 0 l) with (Done rows)
        by (symmetry; exact Hrows)
  end.
  rewrite Hins.
  destruct (Nat.ltb 0 (List.length (selectedHospitals st)));
    destruct (Nat.ltb 0 (List.length (selectedDepartments st)));
    reflexivity.
Qed.

(** Admin 13 moves doctor 10 to hospital 2 and its department 6. *)
Lemma save_assignments_succeeds_witness :
  snd (saveAssignments example_db (Some 13%N) 9%Z example_uuids
         example_uuids (public_departments example_db) (Some 10%N)
         example_selection example_assignments)
  = Some toast_Success.
Proof.
  assert (Hpk : primary_key profiles.id (public_profiles example_db))
    by constraint_by_listing.
  assert (Hinj : forall i j, example_uuids i = example_uuids j -> i = j).
  { unfold example_uuids. intros i j E. lia. }
  apply (save_assignments_succeeds example_db 13 (a_profile 13 admin None)
           9%Z example_uuids example_uuids (public_departments example_db)
           10 example_selection example_assignments Hpk eq_refl eq_refl).
  - unfold references. simpl. auto.
  - repeat constructor; simpl; intuition discriminate.
  - constructor; [|constructor]. unfold references. simpl. auto.
  - repeat constructor; simpl; intuition discriminate.
  - constructor; [|constructor]. split.
    + unfold references. simpl. auto.
    + exists (a_department 6 2). split; [reflexivity|].
      unfold references. simpl. auto.
  - exact Hinj.
  - unfold example_uuids. intros r k [<-|[<-|[]]];
      unfold a_hospital_assignment; cbn [doctor_hospitals.id]; lia.
  - exact Hinj.
  - unfold example_uuids. intros r k [<-|[]];
      unfold a_department_assignment; cbn [doctor_departments.id]; lia.
Defined.

(** * Filing a referral *)

(** What a successful INSERT into patients with no identifier supplied has
    done. *)
Lemma insert_patient_done (db db1 : database) (uid : option uuid)
    (now : timestamptz) (year : N) (draws : list Z) (fresh : uuid)
    (NEW : patients.Insert) :
  patients.new_patient_id NEW = None ->
  insert_patient db uid now year draws fresh NEW = Some (Done db1) ->
  exists pid,
    generate_patient_id year (public_patients db) draws = Some pid
    /\ db1 = set_public_patients db
               (public_patients db
                ++ [patients_new_row fresh now
                      (patients.with_patient_id (Some pid) NEW) pid]).
Proof.
  intros Hnull. unfold insert_patient, set_patient_id_trigger, set_patient_id.
  rewrite Hnull.
  destruct (generate_patient_id year (public_patients db) draws) as [pid|];
    [|discriminate].
  cbn [patients.new_patient_id patients.with_patient_id].
  destruct (insert_row _ _ _ _ _ _ _) as [tbl|e] eqn:Hins; [|discriminate].
  intros [= <-]. apply insert_row_done in Hins. destruct Hins as (-> & _).
  exists pid. auto.
Qed.

Lemma insert_referral_done (db db2 : database) (uid : option uuid)
    (now : timestamptz) (year : N) (draws : list Z) (fresh : uuid)
    (NEW : referrals.Insert) :
  referrals.new_referral_id NEW = None ->
  insert_referral db uid now year draws fresh NEW = Some (Done db2) ->
  exists rid,
    generate_referral_id year (public_referrals db) draws = Some rid
    /\ db2 = set_public_referrals db
               (public_referrals db
                ++ [referrals_new_row fresh now
                      (referrals.with_referral_id (Some rid) NEW) rid]).
Proof.
  intros Hnull.
  unfold insert_referral, set_referral_id_trigger, set_referral_id.
  rewrite Hnull.
  destruct (generate_referral_id year (public_referrals db) draws) as [rid|];
    [|discriminate].
  cbn [referrals.new_referral_id referrals.with_referral_id].
  destruct (insert_row _ _ _ _ _ _ _) as [tbl|e] eqn:Hins; [|discriminate].
  intros [= <-]. apply insert_row_done in Hins. destruct Hins as (-> & _).
  exists rid. auto.
Qed.

Lemma returning_last {Row : Type} (pols : list (policy Row)) (db : database)
    (uid : option uuid) (tbl : list Row) (row : Row) :
  returning pols db uid (tbl ++ [row])
  = if can_select pols db uid row then Done row
    else Raise row_security_violation.
Proof. unfold returning. now rewrite rev_unit. Qed.

Lemma patients_insert_by_role (db : database) (c : uuid)
    (prof : profiles.Row) (p : patients.Row) :
  primary_key profiles.id (public_profiles db) ->
  profile_of db c = Some prof ->
  can_insert (on_patients policies) db (Some c) p
  = role_in (profiles.role prof) [doctor; admin].
Proof.
  intros Hpk Hprof.
  rewrite <- (patients_manage_caller db c prof Hpk Hprof p).
  cbn. now rewrite orb_false_r.
Qed.

(** X27. For a caller whose role is neither doctor nor admin the form
    never files a referral: the INSERT of the patient is refused, the
    database is left as it was and the failure toast is shown. *)
Theorem filing_needs_doctor_or_admin (db : database) (c : uuid)
    (prof : profiles.Row) (now : timestamptz) (year : N)
    (draws_p draws_r : list Z) (uuid_p uuid_r : uuid)
    (formData : ReferralManagement.formData) :
  primary_key profiles.id (public_profiles db) ->
  profile_of db c = Some prof ->
  profiles.role prof <> doctor ->
  profiles.role prof <> admin ->
  generate_patient_id year (public_patients db) draws_p <> None ->
  handleCreateReferral db (Some c) now year draws_p draws_r uuid_p uuid_r
    formData
  = Some (db, Failed_to_create).
Proof.
  intros Hpk Hprof Hdoc Hadm Hgen. unfold handleCreateReferral.
  destruct (ReferralManagement.patient_date_of_birth formData) as [dob|];
    [|reflexivity].
  unfold insert_patient, set_patient_id_trigger, set_patient_id.
  cbn [patients.new_patient_id].
  destruct (generate_patient_id year (public_patients db) draws_p) as [pid|];
    [|contradiction].
  cbn [patients.new_patient_id patients.with_patient_id].
  unfold insert_row.
  rewrite (patients_insert_by_role db c prof _ Hpk Hprof).
  destruct (profiles.role prof); try contradiction; reflexivity.
Qed.

(** Specialist 12 fills in the form: nothing is stored, although the
    policy of referrals would admit the referral itself. *)
Lemma filing_needs_doctor_or_admin_witness :
  handleCreateReferral example_db (Some 12%N) 5%Z 2025 [0%Z] [0%Z] 21 31
    example_form
  = Some (example_db, Failed_to_create)
  /\ can_insert (on_referrals policies) example_db (Some 12%N)
       (a_referral 31 "REF-2025-000000" 20 12 None 2 2 6) = true.
Proof.
  assert (Hpk : primary_key profiles.id (public_profiles example_db))
    by constraint_by_listing.
  split; [|reflexivity].
  apply (filing_needs_doctor_or_admin example_db 12
           (a_profile 12 specialist (Some 2%N)) 5%Z 2025 [0%Z] [0%Z] 21 31
           example_form Hpk eq_refl); discriminate.
Defined.

(** X28. What the form leaves behind.  After the success toast the
    database has one more patient and one more referral and is otherwise
    unchanged: the referral carries the identifier shown, names the new
    patient and the caller as referring doctor, has status pending and the
    urgency of the form, and has the chosen hospital both as origin and as
    target; the patient is at that hospital.  After the failure toast no
    referral was added, but the patient may have been: the two INSERTs
    are separate statements. *)
Theorem filing_outcome (db db' : database) (currentUser : option uuid)
    (now : timestamptz) (year : N) (draws_p draws_r : list Z)
    (uuid_p uuid_r : uuid) (formData : ReferralManagement.formData)
    (res : create_result) :
  handleCreateReferral db currentUser now year draws_p draws_r uuid_p uuid_r
    formData
  = Some (db', res) ->
  public_profiles db' = public_profiles db
  /\ public_hospitals db' = public_hospitals db
  /\ public_departments db' = public_departments db
  /\ match res with
     | Referral_created rid =>
         exists p r,
           public_patients db' = public_patients db ++ [p]
           /\ public_referrals db' = public_referrals db ++ [r]
           /\ referrals.referral_id r = rid
           /\ referrals.patient_id r = patients.id p
           /\ Some (referrals.referring_doctor_id r) = currentUser
           /\ referrals.status r = pending
           /\ referrals.urgency r = ReferralManagement.urgency formData
           /\ Some (referrals.target_hospital_id r)
              = ReferralManagement.target_hospital_id formData
           /\ referrals.origin_hospital_id r = referrals.target_hospital_id r
           /\ Some (referrals.target_department_id r)
              = ReferralManagement.target_department_id formData
           /\ patients.current_hospital_id p
              = ReferralManagement.target_hospital_id formData
     | Failed_to_create =>
         public_referrals db' = public_referrals db
         /\ (public_patients db' = public_patients db
             \/ exists p, public_patients db' = public_patients db ++ [p])
     end.
Proof.
  unfold handleCreateReferral.
  destruct currentUser as [user_id|];
    [|intros [= <- <-]; repeat split; auto].
  destruct (ReferralManagement.patient_date_of_birth formData) as [dob|];
    [|intros [= <- <-]; repeat split; auto].
  match goal with
  | |- match insert_patient ?d ?u ?n ?y ?dr ?f ?NEW with _ => _ end = _ -> _ =>
      destruct (insert_patient d u n y dr f NEW) as [[db1|e]|] eqn:Ep
  end; [| intros [= <- <-]; repeat split; auto | discriminate].
  apply insert_patient_done in Ep; [|reflexivity].
  destruct Ep as [pid [_ ->]].
  cbn [public_patients set_public_patients].
  rewrite returning_last.
  match goal with
  | |- context [patients_new_row ?f ?n ?NEW ?p] =>
      set (row := patients_new_row f n NEW p)
  end.
  destruct (can_select (on_patients policies) _ _ row);
    [|intros [= <- <-]; repeat split; auto].
  destruct (ReferralManagement.target_hospital_id formData) as [h|] eqn:Eh;
    [|intros [= <- <-]; cbn; repeat split; eauto].
  destruct (ReferralManagement.target_department_id formData) as [d|] eqn:Ed;
    [|intros [= <- <-]; cbn; repeat split; eauto].
  match goal with
  | |- match insert_referral ?d ?u ?n ?y ?dr ?f ?NEW with _ => _ end = _ -> _ =>
      destruct (insert_referral d u n y dr f NEW) as [[db2|e]|] eqn:Er
  end; [| intros [= <- <-]; cbn; repeat split; eauto | discriminate].
  apply insert_referral_done in Er; [|reflexivity].
  destruct Er as [rid [_ ->]].
  cbn [public_referrals set_public_referrals set_public_patients].
  rewrite returning_last.
  match goal with
  | |- context [referrals_new_row ?f ?n ?NEW ?p] =>
      set (rrow := referrals_new_row f n NEW p)
  end.
  destruct (can_select (on_referrals policies) _ _ rrow);
    [|intros [= <- <-]; cbn; repeat split; eauto].
  intros [= <- <-]. cbn.
  split; [reflexivity|]. split; [reflexivity|]. split; [reflexivity|].
  exists row, rrow. cbn. rewrite ?Eh, ?Ed.
  repeat match goal with |- _ /\ _ => split end; reflexivity.
Qed.

(** Doctor 10 files the example form: the referral REF-2025-000000 is
    stored with hospital 2 as origin and as target. *)
Lemma filing_outcome_witness :
  exists db',
    handleCreateReferral example_db (Some 10%N) 5%Z 2025 [0%Z] [0%Z] 21 31
      example_form
    = Some (db', Referral_created "REF-2025-000000")
    /\ map referrals.origin_hospital_id (public_referrals db') = [1; 2]%N
    /\ map referrals.target_hospital_id (public_referrals db') = [2; 2]%N.
Proof.
  destruct (handleCreateReferral example_db (Some 10%N) 5%Z 2025 [0%Z] [0%Z]
              21 31 example_form) as [[db' res]|] eqn:H.
  - destruct (filing_outcome example_db db' (Some 10%N) 5%Z 2025 [0%Z] [0%Z]
                21 31 example_form res H) as (_ & _ & _ & Hres).
    assert (Hrid : res = Referral_created "REF-2025-000000").
    { vm_compute in H. now injection H as _ <-. }
    subst res.
    destruct Hres as (p & r & _ & Hr & _ & _ & _ & _ & _ & Ht & Ho & _).
    exists db'. split; [reflexivity|].
    rewrite Hr, !map_app. cbn [map]. rewrite Ho.
    injection Ht as ->. split; reflexivity.
  - vm_compute in H. discriminate.
Defined.

Lemma profile_has_id (db : database) (c : uuid) (prof : profiles.Row) :
  profile_of db c = Some prof ->
  has_id profiles.id (public_profiles db) c = true.
Proof.
  unfold profile_of, has_id. intros H. apply find_some in H.
  apply existsb_exists. now exists prof.
Qed.

Lemma has_id_snoc {Row : Type} (pk : Row -> uuid) (tbl : list Row)
    (row : Row) :
  has_id pk (tbl ++ [row]) (pk row) = true.
Proof.
  unfold has_id. rewrite existsb_app. simpl.
  rewrite N.eqb_refl. now rewrite orb_true_r.
Qed.

Lemma patients_conflict_free (tbl : list patients.Row) (NEW : patients.Row) :
  ~ In (patients.id NEW) (map patients.id tbl) ->
  existsb (fun r => String.eqb (patients.patient_id r)
                      (patients.patient_id NEW)) tbl = false ->
  patients_conflict tbl NEW = false.
Proof.
  intros Hid Hpid. unfold patients_conflict.
  apply not_true_is_false. intros Hex. apply existsb_exists in Hex.
  destruct Hex as [r [Hr Hc]]. apply orb_prop in Hc. destruct Hc as [Hc|Hc].
  - apply N.eqb_eq in Hc. apply Hid. rewrite <- Hc. now apply in_map.
  - assert (existsb (fun r0 => String.eqb (patients.patient_id r0)
                                 (patients.patient_id NEW)) tbl = true)
      by (apply existsb_exists; now exists r).
    congruence.
Qed.

Lemma referrals_conflict_free (tbl : list referrals.Row)
    (NEW : referrals.Row) :
  ~ In (referrals.id NEW) (map referrals.id tbl) ->
  existsb (fun r => String.eqb (referrals.referral_id r)
                      (referrals.referral_id NEW)) tbl = false ->
  referrals_conflict tbl NEW = false.
Proof.
  intros Hid Hrid. unfold referrals_conflict.
  apply not_true_is_false. intros Hex. apply existsb_exists in Hex.
  destruct Hex as [r [Hr Hc]]. apply orb_prop in Hc. destruct Hc as [Hc|Hc].
  - apply N.eqb_eq in Hc. apply Hid. rewrite <- Hc. now apply in_map.
  - assert (existsb (fun r0 => String.eqb (referrals.referral_id r0)
                                 (referrals.referral_id NEW)) tbl = true)
      by (apply existsb_exists; now exists r).
    congruence.
Qed.

(** X29. A doctor or an admin who has filled in a date of birth and chosen
    a hospital and a department that exist does file the referral, as soon
    as either generator draws a free identifier and the two row ids drawn
    are new. *)
Theorem filing_succeeds (db : database) (c : uuid) (prof : profiles.Row)
    (now : timestamptz) (year : N) (draws_p draws_r : list Z)
    (uuid_p uuid_r : uuid) (formData : ReferralManagement.formData)
    (dob : date) (h d : uuid) :
  primary_key profiles.id (public_profiles db) ->
  profile_of db c = Some prof ->
  profiles.role prof = doctor \/ profiles.role prof = admin ->
  ReferralManagement.patient_date_of_birth formData = Some dob ->
  ReferralManagement.target_hospital_id formData = Some h ->
  ReferralManagement.target_department_id formData = Some d ->
  references hospitals.id (public_hospitals db) h ->
  references departments.id (public_departments db) d ->
  generate_patient_id year (public_patients db) draws_p <> None ->
  generate_referral_id year (public_referrals db) draws_r <> None ->
  ~ In uuid_p (map patients.id (public_patients db)) ->
  ~ In uuid_r (map referrals.id (public_referrals db)) ->
  exists db' rid,
    handleCreateReferral db (Some c) now year draws_p draws_r uuid_p uuid_r
      formData
    = Some (db', Referral_created rid).
Proof.
  intros Hpk Hprof Hrole Hdob Hh Hd Hrh Hrd Hgp Hgr Hfp Hfr.
  assert (Hstaff : role_in (profiles.role prof) [doctor; admin] = true)
    by (destruct Hrole as [-> | ->]; reflexivity).
  assert (Hstaff' :
    role_in (profiles.role prof) [doctor; specialist; admin] = true)
    by (destruct Hrole as [-> | ->]; reflexivity).
  apply has_id_references in Hrh, Hrd.
  unfold handleCreateReferral. rewrite Hdob, Hh, Hd.
  (* the patient *)
  unfold insert_patient, set_patient_id_trigger, set_patient_id.
  cbn [patients.new_patient_id].
  destruct (generate_patient_id year (public_patients db) draws_p)
    as [pid|] eqn:Gp; [|contradiction].
  cbn [patients.new_patient_id patients.with_patient_id].
  match goal with
  | |- context [patients_new_row ?f ?n ?NEW ?p] =>
      set (row := patients_new_row f n NEW p)
  end.
  unfold insert_row.
  rewrite (patients_insert_by_role db c prof row Hpk Hprof), Hstaff.
  cbn [negb].
  replace (patients_conflict (public_patients db) row) with false.
  2:{ symmetry. apply patients_conflict_free; [exact Hfp|].
      unfold generate_patient_id in Gp. apply generate_loop_some in Gp.
      destruct Gp as [_ Gp]. exact Gp. }
  replace (patients_fk_missing db row) with false.
  2:{ symmetry. unfold patients_fk_missing. apply negb_false_iff.
      exact Hrh. }
  cbn [public_patients set_public_patients]. rewrite returning_last.
  set (db1 := set_public_patients db (public_patients db ++ [row])).
  assert (Hpk1 : primary_key profiles.id (public_profiles db1)) by exact Hpk.
  assert (Hprof1 : profile_of db1 c = Some prof) by exact Hprof.
  rewrite patients_can_select.
  rewrite (patients_manage_caller db1 c prof Hpk1 Hprof1), Hstaff.
  rewrite orb_true_r.
  (* the referral *)
  unfold insert_referral, set_referral_id_trigger, set_referral_id.
  cbn [referrals.new_referral_id].
  change (public_referrals db1) with (public_referrals db).
  destruct (generate_referral_id year (public_referrals db) draws_r)
    as [rid|] eqn:Gr; [|contradiction].
  cbn [referrals.new_referral_id referrals.with_referral_id].
  match goal with
  | |- context [referrals_new_row ?f ?n ?NEW ?p] =>
      set (rrow := referrals_new_row f n NEW p)
  end.
  unfold insert_row.
  rewrite referrals_check_insert.
  rewrite (referrals_create_caller db1 c prof Hpk1 Hprof1), Hstaff'.
  replace (N.eqb (referrals.referring_doctor_id rrow) c) with true
    by (symmetry; apply N.eqb_refl).
  cbn [negb andb].
  replace (referrals_conflict (public_referrals db) rrow) with false.
  2:{ symmetry. apply referrals_conflict_free; [exact Hfr|].
      unfold generate_referral_id in Gr. apply generate_loop_some in Gr.
      destruct Gr as [_ Gr]. exact Gr. }
  replace (referrals_fk_missing db1 rrow) with false.
  2:{ symmetry. unfold referrals_fk_missing. apply negb_false_iff.
      repeat (apply andb_true_intro; split); try assumption.
      - apply (has_id_snoc patients.id).
      - exact (profile_has_id db c prof Hprof).
      - reflexivity. }
  cbn [public_referrals set_public_referrals]. rewrite returning_last.
  rewrite referrals_can_select.
  replace (referrals_created _ (Some c) rrow) with true
    by (symmetry; apply N.eqb_refl).
  cbn [orb]. eexists. eexists. reflexivity.
Qed.

Lemma filing_succeeds_witness :
  exists db' rid,
    handleCreateReferral example_db (Some 10%N) 5%Z 2025 [0%Z] [0%Z] 21 31
      example_form
    = Some (db', Referral_created rid).
Proof.
  assert (Hpk : primary_key profiles.id (public_profiles example_db))
    by constraint_by_listing.
  apply (filing_succeeds example_db 10 (a_profile 10 doctor (Some 1%N)) 5%Z
           2025 [0%Z] [0%Z] 21 31 example_form 7000%Z 2 6 Hpk eq_refl).
  - left. reflexivity.
  - reflexivity.
  - reflexivity.
  - reflexivity.
  - unfold references. simpl. auto.
  - unfold references. simpl. auto.
  - discriminate.
  - discriminate.
  - simpl. intuition discriminate.
  - simpl. intuition discriminate.
Defined.
